(** * netlify-plugin-netlify-graph: the build plugin's [onPreBuild] handler

    A shallow embedding of [src/index.js] and the properties of its
    configuration resolution, operation-file aggregation and build
    sequencing.

    Conventions of the embedding:
    - a JavaScript string is a [string] (a sequence of 8-bit code units);
    - a configuration object is a [gmap string jsval]; reading a property
      that is not there gives [JUndefined], object spread [{...a, ...b}] is
      the union in which [b] wins;
    - a path is a [list string] of segments, as the code has it;
    - code that can throw returns [js_error + A];
    - the handler itself runs in a state-and-exception monad over the file
      system and the trace of calls made to the build tool, the console and
      the remote services. *)

From Stdlib Require Import Ascii String List.
From stdpp Require Import base option list strings gmap fin_maps pretty.

Local Open Scope string_scope.
Local Open Scope list_scope.

(** ** JavaScript values and strings *)

(** The values a Netlify Graph configuration object holds: path-like
    settings are arrays of segments, the other settings are strings. *)
Inductive jsval : Type :=
  | JUndefined
  | JString (s : string)
  | JArray (items : list string).

#[global] Instance jsval_eq_dec : EqDecision jsval.
Proof. solve_decision. Defined.

#[global] Instance jsval_inhabited : Inhabited jsval := populate JUndefined.

(** What [if (v)], [v && _] and [v || _] test. An array is an object, hence
    truthy even when empty. *)
Definition js_truthy (v : jsval) : bool :=
  match v with
  | JUndefined => false
  | JString s => negb (String.eqb s "")
  | JArray _ => true
  end.

(** [a || b] *)
Definition js_or (a b : jsval) : jsval := if js_truthy a then a else b.

(** [Array.prototype.join] *)
Fixpoint js_join (sep : string) (items : list string) : string :=
  match items with
  | [] => ""
  | [x] => x
  | x :: rest => x +:+ sep +:+ js_join sep rest
  end.

(** The string a value becomes inside a template literal. *)
Definition js_to_string (v : jsval) : string :=
  match v with
  | JUndefined => "undefined"
  | JString s => s
  | JArray items => js_join "," items
  end.

(** [s.split(sep)] for a one-character separator such as [path.sep]. *)
Fixpoint js_split (sep : ascii) (s : string) : list string :=
  match s with
  | EmptyString => [""]
  | String c rest =>
      if Ascii.eqb c sep then "" :: js_split sep rest
      else match js_split sep rest with
           | [] => [String c ""]
           | w :: ws => String c w :: ws
           end
  end.

(** [[...s]] for a string: one element per character. *)
Definition js_string_chars (s : string) : list string :=
  (λ c, String c EmptyString) <$> list_ascii_of_string s.

(** Errors that JavaScript code throws. [BuildError] is what the build
    tool's failure API raises to abort the plugin. *)
Inductive js_error : Type :=
  | TypeError (message : string)
  | ExternalError (message : string)
  | BuildError (message : string).

#[global] Instance js_error_eq_dec : EqDecision js_error.
Proof. solve_decision. Defined.

(** [String(error)], for an error that prints as its name and message; an
    error of a library that prints itself otherwise (a GraphQL error with
    its location) has the library's text. *)
Definition js_error_to_string (e : js_error) : string :=
  match e with
  | TypeError m => "TypeError: " +:+ m
  | ExternalError m => "Error: " +:+ m
  | BuildError m => "Error: " +:+ m
  end.

Abbreviation throws A := (js_error + A)%type (only parsing).

(** Sequencing of code that can throw: the first error ends it. *)
#[global] Instance throws_ret : MRet (sum js_error) := λ A a, inr a.

#[global] Instance throws_bind : MBind (sum js_error) := λ A B f r,
  match r with
  | inl e => inl e
  | inr a => f a
  end.

(** [[...v]] inside an array literal: an array spreads its items, a string
    its characters, [undefined] is not iterable. *)
Definition js_spread (v : jsval) : throws (list string) :=
  match v with
  | JUndefined => inl (TypeError "undefined is not iterable")
  | JString s => inr (js_string_chars s)
  | JArray items => inr items
  end.

(** ** Configuration objects *)

Abbreviation jsobject := (gmap string jsval) (only parsing).

(** [o.k] *)
Definition obj_get (o : jsobject) (k : string) : jsval := default JUndefined (o !! k).

(** [{...a, ...b}]: the later object wins. *)
Definition obj_spread (a b : jsobject) : jsobject := b ∪ a.

(** ** The collaborators' constants *)

Module NetlifyGraph.
(** Constants of [netlify-onegraph-internal]'s [NetlifyGraph] that the
    configuration factories read. The library is not part of this
    repository, so they are parameters. *)
Class Constants : Type := {
  defaultSourceOperationsFilename : string;
  defaultSourceOperationsDirectoryName : string;
  defaultGraphQLSchemaFilename : string;
  defaultNetlifyGraphConfig : jsobject;
}.
End NetlifyGraph.

Module path.
(** Node's [path] module: the separator and the two functions used. *)
Class Api : Type := {
  sep : ascii;
  resolve : list string → string;
  relative : string → string → string;
}.

(** [path.join] of plain segments (neither empty nor holding a
    separator): the segments with the separator between them. *)
Definition join `{Api} (segments : list string) : string :=
  js_join (String sep EmptyString) segments.
End path.

(** ** Default configurations per framework *)

(** [items.filter((part) => part !== '')] *)
Definition filterRelativePathItems (items : list string) : list string :=
  List.filter (λ part, negb (String.eqb part "")) items.

(** The argument object of the three factories. *)
Record FrameworkContext : Type := {
  baseConfig : jsobject;
  detectedFunctionsPath : list string;
  siteRoot : list string;
}.

Section factories.
Context {Lib : NetlifyGraph.Constants}.

Definition makeDefaultNetlifyGraphConfig (context : FrameworkContext) : jsobject :=
  let baseConfig := baseConfig context in
  let detectedFunctionsPath := detectedFunctionsPath context in
  let functionsPath := filterRelativePathItems detectedFunctionsPath in
  let webhookBasePath := "/.netlify/functions" in
  let netlifyGraphPath := functionsPath ++ ["netlifyGraph"] in
  let netlifyGraphImplementationFilename :=
    netlifyGraphPath ++ ["index." +:+ js_to_string (obj_get baseConfig "extension")] in
  let netlifyGraphTypeDefinitionsFilename := netlifyGraphPath ++ ["index.d.ts"] in
  let graphQLOperationsSourceFilename :=
    netlifyGraphPath ++ [NetlifyGraph.defaultSourceOperationsFilename] in
  let graphQLOperationsSourceDirectory :=
    netlifyGraphPath ++ [NetlifyGraph.defaultSourceOperationsDirectoryName] in
  let graphQLSchemaFilename :=
    netlifyGraphPath ++ [NetlifyGraph.defaultGraphQLSchemaFilename] in
  let netlifyGraphRequirePath := ["./netlifyGraph"] in
  let moduleType := js_or (obj_get baseConfig "moduleType") (JString "esm") in
  list_to_map [
    ("functionsPath", JArray functionsPath);
    ("webhookBasePath", JString webhookBasePath);
    ("netlifyGraphPath", JArray netlifyGraphPath);
    ("netlifyGraphImplementationFilename", JArray netlifyGraphImplementationFilename);
    ("netlifyGraphTypeDefinitionsFilename", JArray netlifyGraphTypeDefinitionsFilename);
    ("graphQLOperationsSourceDirectory", JArray graphQLOperationsSourceDirectory);
    ("graphQLOperationsSourceFilename", JArray graphQLOperationsSourceFilename);
    ("graphQLSchemaFilename", JArray graphQLSchemaFilename);
    ("netlifyGraphRequirePath", JArray netlifyGraphRequirePath);
    ("moduleType", moduleType)
  ].

Definition makeDefaultNextJsNetlifyGraphConfig (context : FrameworkContext) : jsobject :=
  let baseConfig := baseConfig context in
  let siteRoot := siteRoot context in
  let functionsPath := filterRelativePathItems (siteRoot ++ ["pages"; "api"]) in
  let webhookBasePath := "/api" in
  let netlifyGraphPath := filterRelativePathItems (siteRoot ++ ["lib"; "netlifyGraph"]) in
  let netlifyGraphImplementationFilename :=
    netlifyGraphPath ++ ["index." +:+ js_to_string (obj_get baseConfig "extension")] in
  let netlifyGraphTypeDefinitionsFilename := netlifyGraphPath ++ ["index.d.ts"] in
  let graphQLOperationsSourceFilename :=
    netlifyGraphPath ++ [NetlifyGraph.defaultSourceOperationsFilename] in
  let graphQLSchemaFilename :=
    netlifyGraphPath ++ [NetlifyGraph.defaultGraphQLSchemaFilename] in
  let graphQLOperationsSourceDirectory :=
    netlifyGraphPath ++ js_string_chars NetlifyGraph.defaultSourceOperationsDirectoryName in
  let netlifyGraphRequirePath := [".."; ".."; "lib"; "netlifyGraph"] in
  let moduleType := js_or (obj_get baseConfig "moduleType") (JString "esm") in
  list_to_map [
    ("functionsPath", JArray functionsPath);
    ("webhookBasePath", JString webhookBasePath);
    ("netlifyGraphPath", JArray netlifyGraphPath);
    ("netlifyGraphImplementationFilename", JArray netlifyGraphImplementationFilename);
    ("netlifyGraphTypeDefinitionsFilename", JArray netlifyGraphTypeDefinitionsFilename);
    ("graphQLOperationsSourceDirectory", JArray graphQLOperationsSourceDirectory);
    ("graphQLOperationsSourceFilename", JArray graphQLOperationsSourceFilename);
    ("graphQLSchemaFilename", JArray graphQLSchemaFilename);
    ("netlifyGraphRequirePath", JArray netlifyGraphRequirePath);
    ("moduleType", moduleType)
  ].

(** The Remix factory spreads the library's default [netlifyGraphPath],
    which throws when that is not iterable. *)
Definition makeDefaultRemixNetlifyGraphConfig (context : FrameworkContext)
    : throws jsobject :=
  let baseConfig := baseConfig context in
  let detectedFunctionsPath := detectedFunctionsPath context in
  let siteRoot := siteRoot context in
  let functionsPath := filterRelativePathItems detectedFunctionsPath in
  let webhookBasePath := "/webhooks" in
  match js_spread (obj_get NetlifyGraph.defaultNetlifyGraphConfig "netlifyGraphPath") with
  | inl e => inl e
  | inr defaultPath =>
    let netlifyGraphPath := filterRelativePathItems (siteRoot ++ defaultPath) in
    let netlifyGraphImplementationFilename :=
      netlifyGraphPath ++ ["index." +:+ js_to_string (obj_get baseConfig "extension")] in
    let netlifyGraphTypeDefinitionsFilename := netlifyGraphPath ++ ["index.d.ts"] in
    let graphQLOperationsSourceFilename :=
      netlifyGraphPath ++ [NetlifyGraph.defaultSourceOperationsFilename] in
    let graphQLSchemaFilename :=
      netlifyGraphPath ++ [NetlifyGraph.defaultGraphQLSchemaFilename] in
    let graphQLOperationsSourceDirectory :=
      netlifyGraphPath ++ js_string_chars NetlifyGraph.defaultSourceOperationsDirectoryName in
    let netlifyGraphRequirePath := ["../../netlify/functions/netlifyGraph"] in
    let moduleType := JString "esm" in
    inr (list_to_map [
      ("functionsPath", JArray functionsPath);
      ("webhookBasePath", JString webhookBasePath);
      ("netlifyGraphPath", JArray netlifyGraphPath);
      ("netlifyGraphImplementationFilename", JArray netlifyGraphImplementationFilename);
      ("netlifyGraphTypeDefinitionsFilename", JArray netlifyGraphTypeDefinitionsFilename);
      ("graphQLOperationsSourceDirectory", JArray graphQLOperationsSourceDirectory);
      ("graphQLOperationsSourceFilename", JArray graphQLOperationsSourceFilename);
      ("graphQLSchemaFilename", JArray graphQLSchemaFilename);
      ("netlifyGraphRequirePath", JArray netlifyGraphRequirePath);
      ("moduleType", moduleType)
    ])
  end.

Definition defaultFrameworkLookup : gmap string (FrameworkContext → throws jsobject) :=
  list_to_map [
    ("next", λ context, inr (makeDefaultNextJsNetlifyGraphConfig context));
    ("remix", makeDefaultRemixNetlifyGraphConfig);
    ("default", λ context, inr (makeDefaultNetlifyGraphConfig context))
  ].

(** [defaultFrameworkLookup[detectedFrameworkId] ||
    defaultFrameworkLookup.default], for the id of the first detected
    framework ([None] when nothing is detected). The ids are those of the
    framework detector, none of which names a property that every
    JavaScript object inherits. *)
Definition makeDefaultFrameworkConfig (detectedFrameworkId : option string)
    : FrameworkContext → throws jsobject :=
  default (λ context, inr (makeDefaultNetlifyGraphConfig context))
          (detectedFrameworkId ≫= λ id, defaultFrameworkLookup !! id).
End factories.

(** ** The collaborators' interfaces

    Node's runtime, the GraphQL engine, the Netlify libraries and the
    remote client are not part of this repository: each is an interface
    whose operations the handler calls. An operation that can throw returns
    [throws _]; an operation that depends on the file system takes it as an
    argument. *)

Module fs.
Class Api : Type := {
  FS : Type;
  existsSync : FS → string → bool;
  readFileSync : FS → string → throws string;
  readdirSync : FS → string → throws (list string);
  (** [mkdirSync(p, { recursive: true })] *)
  mkdirSync : FS → string → throws FS;
  writeFileSync : FS → string → string → throws FS;
}.
End fs.

Module process.
Class Env : Type := {
  cwd : string;
  env : gmap string string;
}.
End process.

Module JSON.
Class Api : Type := {
  Value : Type;
  parse : string → throws Value;
  (** [v.k]: a [TypeError] when [v] is [null]. *)
  member : Value → string → throws Value;
}.
End JSON.

Module GraphQL.
Record DocumentNode (D : Type) : Type := {
  kind : string;
  definitions : list D;
}.
Arguments kind {D} _.
Arguments definitions {D} _.

Class Api : Type := {
  DefinitionNode : Type;
  Schema : Type;
  Kind_DOCUMENT : string;
  parse : string → throws (DocumentNode DefinitionNode);
  print : DocumentNode DefinitionNode → string;
  buildSchema : string → throws Schema;
}.
End GraphQL.

(** [@netlify/config] and [@netlify/framework-info]. The [graph] table of
    the build configuration holds the user's settings, all of them strings:
    the code either splits them on [path.sep] or uses them as they are. A
    table with an entry of another type (a number, a boolean), on which
    [.split] is not a function and [||] passes the value through, is not a
    [BuildConfig]: every property of the resolution below is a property of
    tables of strings. *)
Record BuildConfig : Type := {
  graph : option (gmap string string);
  functionsDirectory : option string;
}.

Record ResolvedConfig (SiteInfo : Type) : Type := {
  config : BuildConfig;
  siteInfo : SiteInfo;
}.
Arguments config {SiteInfo} _.
Arguments siteInfo {SiteInfo} _.

Module netlify.
Class Api `{fs.Api} : Type := {
  SiteInfo : Type;
  (** [resolveConfig({ configPath })] *)
  resolveConfig : fs.FS → option string → throws (ResolvedConfig SiteInfo);
  (** [listFrameworks()]: the ids of the detected frameworks. *)
  listFrameworks : fs.FS → throws (list string);
}.
End netlify.

(** [constants] of the handler's argument. *)
Record BuildConstants : Type := {
  CONFIG_PATH : option string;
  SITE_ID : string;
}.

Module OneGraphClient.
Record CreateGraphQLSchemaInput (V : Type) : Type := {
  appId : string;
  enabledServices : V;
}.
Arguments appId {V} _.
Arguments enabledServices {V} _.

Record Session : Type := {
  siteId : string;
  accessToken : string;
}.

Class Api `{JSON.Api} : Type := {
  Result : Type;
  executeCreateGraphQLSchemaMutation :
    CreateGraphQLSchemaInput JSON.Value → Session → throws Result;
  (** [result.data.oneGraph.createGraphQLSchema.graphQLSchema.id]: a
      [TypeError] when a link of the chain is missing. *)
  graphQLSchema_id : Result → throws (option string);
}.
End OneGraphClient.

Module Generator.
(** [NetlifyGraph.extractFunctionsFromOperationDoc] and
    [NetlifyGraph.generatePersistedFunctionsSource]. *)
Record Request (Schema Functions Fragments : Type) : Type := {
  netlifyGraphConfig : jsobject;
  netlifyToken : string;
  siteId : string;
  schema : Schema;
  operationsDoc : string;
  functions : Functions;
  fragments : Fragments;
  schemaId : option string;
}.

(** Of a failed function only
    [failedFunction.attemptedFunction.operationName] is read; of the
    function definitions only their number. *)
Record Output : Type := {
  clientSource : string;
  failedPersistedFunctions : list string;
  functionDefinitions : list string;
  typeDefinitionsSource : string;
}.

Class Api `{GraphQL.Api} : Type := {
  Functions : Type;
  Fragments : Type;
  extractFunctionsFromOperationDoc :
    GraphQL.DocumentNode GraphQL.DefinitionNode → throws (Fragments * Functions);
  generatePersistedFunctionsSource :
    Request GraphQL.Schema Functions Fragments → throws Output;
}.
End Generator.

(** ** Strings the handler inspects *)

Definition ascii_lower (c : ascii) : ascii :=
  let n := nat_of_ascii c in
  if (65 <=? n)%nat && (n <=? 90)%nat then ascii_of_nat (n + 32) else c.

Fixpoint starts_with_ci (pattern s : string) : bool :=
  match pattern, s with
  | EmptyString, _ => true
  | String p pattern', String c s' =>
      Ascii.eqb (ascii_lower p) (ascii_lower c) && starts_with_ci pattern' s'
  | String _ _, EmptyString => false
  end.

Fixpoint contains_ci (pattern s : string) : bool :=
  starts_with_ci pattern s ||
  match s with
  | EmptyString => false
  | String _ s' => contains_ci pattern s'
  end.

(** [/.*\.(graphql?)/gi.test(filename)]: the pattern is not anchored and its
    last letter is optional, so it accepts every name that holds [.graphq],
    in any letter case. The literal is evaluated anew at each call, so the
    [g] flag carries no position from one name to the next. *)
Definition operation_file_regex_test (filename : string) : bool :=
  contains_ci ".graphq" filename.

(** White space of [String.prototype.trim] among the 8-bit code units that
    a [string] holds; the white space above U+00FF is in
    [ecma_white_space]. *)
Definition js_is_whitespace (c : ascii) : bool :=
  let n := nat_of_ascii c in
  ((9 <=? n)%nat && (n <=? 13)%nat) || (n =? 32)%nat || (n =? 160)%nat.

Fixpoint js_trim_start (s : string) : string :=
  match s with
  | EmptyString => EmptyString
  | String c rest => if js_is_whitespace c then js_trim_start rest else s
  end.

(** Drops trailing white space: a character stays when it is not white
    space or when something stays after it. *)
Fixpoint js_trim_end (s : string) : string :=
  match s with
  | EmptyString => EmptyString
  | String c rest =>
      match js_trim_end rest with
      | EmptyString => if js_is_whitespace c then EmptyString else String c EmptyString
      | kept => String c kept
      end
  end.

Definition js_trim (s : string) : string := js_trim_end (js_trim_start s).

(** ** The handler's effects *)

Section plugin.
Context {Lib : NetlifyGraph.Constants} {Path : path.Api} {Fs : fs.Api}
        {Proc : process.Env} {Json : JSON.Api} {Gql : GraphQL.Api}
        {Netlify : netlify.Api} {OneGraph : OneGraphClient.Api}
        {Gen : Generator.Api}.

(** An argument of [console.log]. *)
Inductive logged : Type :=
  | LogString (s : string)
  | LogArray (items : list string)
  | LogResult (result : OneGraphClient.Result).

(** The second argument of [build.failBuild]. *)
Inductive fail_info : Type :=
  | NoInfo
  | ErrorInfo (error : js_error)
  | FailedFunctionsInfo (failedPersistedFunctions : list string).

(** What the handler does to the outside: console output, the build
    tool's status and failure APIs, and the calls that leave the
    machine. *)
Inductive event : Type :=
  | console_log (args : list logged)
  | console_warn (message : string)
  | console_error (message : string)
  | status_show (title summary : string)
  | build_failBuild (message : string) (info : fail_info)
  | call_resolveConfig (configPath : option string)
  | call_executeCreateGraphQLSchemaMutation
      (input : OneGraphClient.CreateGraphQLSchemaInput JSON.Value)
      (session : OneGraphClient.Session)
  | call_generatePersistedFunctionsSource
      (request : Generator.Request GraphQL.Schema Generator.Functions Generator.Fragments).

Record State : Type := {
  files : fs.FS;
  trace : list event;
}.

(** A computation changes the state and returns or throws. *)
Definition M (A : Type) : Type := State → State * throws A.

#[global] Instance M_ret : MRet M := λ A a st, (st, inr a).

#[global] Instance M_bind : MBind M := λ A B f m st,
  match m st with
  | (st', inr a) => f a st'
  | (st', inl e) => (st', inl e)
  end.

Definition throw {A} (e : js_error) : M A := λ st, (st, inl e).

(** [try { body } catch (e) { handler }] *)
Definition try_catch {A} (body : M A) (handler : js_error → M A) : M A := λ st,
  match body st with
  | (st', inl e) => handler e st'
  | (st', inr a) => (st', inr a)
  end.

Definition lift {A} (r : throws A) : M A := λ st, (st, r).

Definition emit (ev : event) : M unit := λ st,
  ({| files := files st; trace := trace st ++ [ev] |}, inr tt).

Definition read_fs {A} (f : fs.FS → A) : M A := λ st, (st, inr (f (files st))).

Definition call_fs {A} (f : fs.FS → throws A) : M A := λ st, (st, f (files st)).

Definition update_fs (f : fs.FS → throws fs.FS) : M unit := λ st,
  match f (files st) with
  | inr files' => ({| files := files'; trace := trace st |}, inr tt)
  | inl e => (st, inl e)
  end.

(** [utils.build.failBuild(message, info)] of the build tool: it reports
    the failure and aborts the plugin by throwing, so it never returns.
    The call and its arguments are the event; the value thrown stands for
    the tool's own error (the tool prefixes the message to the error it is
    given), and only that something is thrown matters to the handler. *)
Definition failBuild {A} (message : string) (info : fail_info) : M A :=
  emit (build_failBuild message info);; throw (BuildError message).

(** ** [getNetlifyGraphConfig] *)

(** [(config && config.graph) || {}] *)
Definition userSpecifiedConfig (config : BuildConfig) : gmap string string :=
  default ∅ (graph config).

(** [userSpecifiedConfig.k] *)
Definition user_setting (config : BuildConfig) (k : string) : jsval :=
  from_option JString JUndefined (userSpecifiedConfig config !! k).

(** [userSpecifiedConfig.k && userSpecifiedConfig.k.split(path.sep)] *)
Definition user_setting_split (config : BuildConfig) (k : string) : jsval :=
  match userSpecifiedConfig config !! k with
  | Some s => if js_truthy (JString s) then JArray (js_split path.sep s) else JString s
  | None => JUndefined
  end.

(** The local [siteRoot]. *)
Definition getNetlifyGraphConfig_siteRoot : list string :=
  String path.sep EmptyString
    :: filterRelativePathItems (js_split path.sep process.cwd).

(** The local [detectedFunctionsPath]. *)
Definition getNetlifyGraphConfig_detectedFunctionsPath (config : BuildConfig)
    : list string :=
  let defaultFunctionsPath := ["netlify"; "functions"] in
  let defaultFunctionsDirectory := path.join defaultFunctionsPath in
  let detectedFunctionsPathString :=
    match functionsDirectory config with
    | Some d => if js_truthy (JString d) then d else defaultFunctionsDirectory
    | None => defaultFunctionsDirectory
    end in
  if js_truthy (JString detectedFunctionsPathString)
  then String path.sep EmptyString :: js_split path.sep detectedFunctionsPathString
  else defaultFunctionsPath.

(** The local [baseConfig]. *)
Definition getNetlifyGraphConfig_baseConfig (config : BuildConfig) : jsobject :=
  obj_spread NetlifyGraph.defaultNetlifyGraphConfig
             (JString <$> userSpecifiedConfig config).

(** The argument given to the framework's factory. *)
Definition getNetlifyGraphConfig_context (config : BuildConfig) : FrameworkContext :=
  {| baseConfig := getNetlifyGraphConfig_baseConfig config;
     detectedFunctionsPath := getNetlifyGraphConfig_detectedFunctionsPath config;
     siteRoot := getNetlifyGraphConfig_siteRoot |}.

(** The rest of the function, from [const tsConfig] on, once the detected
    framework, its default configuration and the presence of
    [tsconfig.json] are known. *)
Definition getNetlifyGraphConfig_fullConfig (config : BuildConfig)
    (detectedFrameworkId : option string) (defaultFrameworkConfig : jsobject)
    (tsConfigExists : bool) : jsobject :=
  let siteRoot := getNetlifyGraphConfig_siteRoot in
  let baseConfig := getNetlifyGraphConfig_baseConfig config in
  let autodetectedLanguage := if tsConfigExists then "typescript" else "javascript" in
  let defaultConfig :=
    obj_spread (obj_spread NetlifyGraph.defaultNetlifyGraphConfig defaultFrameworkConfig)
               (JString <$> userSpecifiedConfig config) in
  let userSpecifiedFunctionPath := user_setting_split config "functionsPath" in
  let functionsPath :=
    js_or (match userSpecifiedFunctionPath with
           | JArray items => JArray (siteRoot ++ items)
           | falsy => falsy
           end)
          (obj_get defaultConfig "functionsPath") in
  let netlifyGraphPath :=
    js_or (js_or (user_setting_split config "netlifyGraphPath")
                 (obj_get defaultConfig "netlifyGraphPath"))
          functionsPath in
  let netlifyGraphImplementationFilename :=
    js_or (user_setting_split config "netlifyGraphImplementationFilename")
          (obj_get defaultConfig "netlifyGraphImplementationFilename") in
  let netlifyGraphTypeDefinitionsFilename :=
    js_or (user_setting_split config "netlifyGraphTypeDefinitionsFilename")
          (obj_get defaultConfig "netlifyGraphTypeDefinitionsFilename") in
  let graphQLOperationsSourceFilename :=
    js_or (user_setting_split config "graphQLOperationsSourceFilename")
          (obj_get defaultConfig "graphQLOperationsSourceFilename") in
  let graphQLConfigJsonFilename :=
    js_or (js_or (user_setting_split config "graphQLConfigJsonFilename")
                 (obj_get baseConfig "graphQLConfigJsonFilename"))
          (obj_get defaultConfig "graphQLConfigJsonFilename") in
  let graphQLSchemaFilename :=
    js_or (user_setting_split config "graphQLSchemaFilename")
          (obj_get defaultConfig "graphQLSchemaFilename") in
  let netlifyGraphRequirePath :=
    js_or (user_setting_split config "netlifyGraphRequirePath")
          (obj_get defaultConfig "netlifyGraphRequirePath") in
  let moduleType :=
    js_or (user_setting_split config "moduleType")
          (obj_get defaultConfig "moduleType") in
  let language := js_or (user_setting config "language") (JString autodetectedLanguage) in
  let webhookBasePath :=
    js_or (user_setting_split config "webhookBasePath")
          (obj_get defaultConfig "webhookBasePath") in
  let customGeneratorFile :=
    js_or (user_setting_split config "customGeneratorFile")
          (obj_get defaultConfig "customGeneratorFile") in
  let userSpecifiedFrameworkId :=
    js_or (user_setting config "frameworkId") (obj_get defaultConfig "frameworkId") in
  let runtimeTargetEnv :=
    js_or (js_or (user_setting config "runtimeTargetEnv")
                 (obj_get defaultConfig "runtimeTargetEnv"))
          (JString "node") in
  obj_spread baseConfig (list_to_map [
    ("functionsPath", functionsPath);
    ("webhookBasePath", webhookBasePath);
    ("netlifyGraphPath", netlifyGraphPath);
    ("netlifyGraphImplementationFilename", netlifyGraphImplementationFilename);
    ("netlifyGraphTypeDefinitionsFilename", netlifyGraphTypeDefinitionsFilename);
    ("graphQLOperationsSourceFilename", graphQLOperationsSourceFilename);
    ("graphQLSchemaFilename", graphQLSchemaFilename);
    ("graphQLConfigJsonFilename", graphQLConfigJsonFilename);
    ("netlifyGraphRequirePath", netlifyGraphRequirePath);
    ("framework",
      js_or (js_or userSpecifiedFrameworkId
                   (from_option JString JUndefined detectedFrameworkId))
            (JString "default"));
    ("language", language);
    ("moduleType", moduleType);
    ("customGeneratorFile", customGeneratorFile);
    ("runtimeTargetEnv", runtimeTargetEnv)
  ]).

(** The function only reads: the detected frameworks and whether
    [tsconfig.json] exists. It throws when the framework detection or the
    framework's factory does. *)
Definition getNetlifyGraphConfig (config : BuildConfig) (files : fs.FS)
    : throws jsobject :=
  frameworks ← netlify.listFrameworks files;
  let detectedFrameworkId := head frameworks in
  defaultFrameworkConfig ←
    makeDefaultFrameworkConfig detectedFrameworkId (getNetlifyGraphConfig_context config);
  let tsConfigExists := fs.existsSync files "tsconfig.json" in
  mret (getNetlifyGraphConfig_fullConfig config detectedFrameworkId
          defaultFrameworkConfig tsConfigExists).

(** ** Reading the schema and the operations *)

Definition ensureNetlifyGraphPath (netlifyGraphConfig : jsobject) : M unit :=
  segments ← lift (js_spread (obj_get netlifyGraphConfig "netlifyGraphPath"));
  let fullPath := path.resolve segments in
  update_fs (λ files, fs.mkdirSync files fullPath).

Definition readGraphQLSchemaFile (netlifyGraphConfig : jsobject) : M string :=
  ensureNetlifyGraphPath netlifyGraphConfig;;
  segments ← lift (js_spread (obj_get netlifyGraphConfig "graphQLSchemaFilename"));
  call_fs (λ files, fs.readFileSync files (path.resolve segments)).

(** Returns [null] ([None]) when the legacy file is not there. *)
Definition readLegacyGraphQLOperationsSourceFile (netlifyGraphConfig : jsobject)
    : M (option string) :=
  ensureNetlifyGraphPath netlifyGraphConfig;;
  segments ←
    lift (js_spread (obj_get netlifyGraphConfig "graphQLOperationsSourceFilename"));
  let fullFilename := path.resolve segments in
  fileExists ← read_fs (λ files, fs.existsSync files fullFilename);
  if negb fileExists then mret None
  else
    source ← call_fs (λ files, fs.readFileSync files fullFilename);
    mret (Some source).

Record OperationFile : Type := {
  file_name : string;
  file_path : string;
  file_content : string;
  parsedOperation : GraphQL.DocumentNode GraphQL.DefinitionNode;
}.

(** [filenames.forEach(...)]: every accepted file is read, parsed and
    pushed onto [operationFiles]. *)
Fixpoint readGraphQLOperationsSourceFiles_forEach (operationsPath : string)
    (filenames : list string) (operationFiles : list OperationFile)
    : M (list OperationFile) :=
  match filenames with
  | [] => mret operationFiles
  | filename :: rest =>
      if operation_file_regex_test filename then
        content ←
          call_fs (λ files, fs.readFileSync files (path.resolve [operationsPath; filename]));
        parsed ← lift (GraphQL.parse content);
        let file := {| file_name := filename;
                       file_path := path.resolve [operationsPath; filename];
                       file_content := content;
                       parsedOperation := parsed |} in
        readGraphQLOperationsSourceFiles_forEach operationsPath rest (operationFiles ++ [file])
      else readGraphQLOperationsSourceFiles_forEach operationsPath rest operationFiles
  end.

Definition emptyDocDefinitionNode : GraphQL.DocumentNode GraphQL.DefinitionNode :=
  {| GraphQL.kind := GraphQL.Kind_DOCUMENT; GraphQL.definitions := [] |}.

(** [operationFiles.reduce(..., emptyDocDefinitionNode)] *)
Definition readGraphQLOperationsSourceFiles_parsedDoc
    (operationFiles : list OperationFile) : GraphQL.DocumentNode GraphQL.DefinitionNode :=
  fold_left
    (λ acc file,
      {| GraphQL.kind := GraphQL.Kind_DOCUMENT;
         GraphQL.definitions :=
           GraphQL.definitions acc ++ GraphQL.definitions (parsedOperation file) |})
    operationFiles emptyDocDefinitionNode.

Definition readGraphQLOperationsSourceFiles (netlifyGraphConfig : jsobject) : M string :=
  ensureNetlifyGraphPath netlifyGraphConfig;;
  segments ←
    lift (js_spread (obj_get netlifyGraphConfig "graphQLOperationsSourceDirectory"));
  let operationsPath := path.resolve segments in
  filenames ← call_fs (λ files, fs.readdirSync files operationsPath);
  emit (console_log [LogString "operationsPath"; LogString operationsPath]);;
  emit (console_log [LogString "filenames"; LogArray filenames]);;
  operationFiles ← readGraphQLOperationsSourceFiles_forEach operationsPath filenames [];
  let parsedDoc := readGraphQLOperationsSourceFiles_parsedDoc operationFiles in
  let source := GraphQL.print parsedDoc in
  emit (console_log [LogString "GraphQL source"; LogString source]);;
  mret source.

(** ** Generating the client *)

(** [logger && logger(message)] *)
Definition log_with (logger : option (string → M unit)) (message : string) : M unit :=
  match logger with
  | Some logger => logger message
  | None => mret tt
  end.

Definition newline : string := String (ascii_of_nat 10) EmptyString.

Definition generatePersistedFunctionsFile
    (logger : option (string → M unit))
    (request : Generator.Request GraphQL.Schema Generator.Functions Generator.Fragments)
    : M (list string * list string) :=
  let netlifyGraphConfig := Generator.netlifyGraphConfig _ _ _ request in
  emit (call_generatePersistedFunctionsSource request);;
  output ← lift (Generator.generatePersistedFunctionsSource request);
  let clientSource := Generator.clientSource output in
  let typeDefinitionsSource := Generator.typeDefinitionsSource output in
  ensureNetlifyGraphPath netlifyGraphConfig;;
  implementationSegments ←
    lift (js_spread (obj_get netlifyGraphConfig "netlifyGraphImplementationFilename"));
  let implementationResolvedPath := path.resolve implementationSegments in
  update_fs (λ files, fs.writeFileSync files implementationResolvedPath clientSource);;
  let implementationRelativePath :=
    path.relative process.cwd implementationResolvedPath in
  log_with logger ("Wrote " +:+ implementationRelativePath);;
  typeDefinitionsSegments ←
    lift (js_spread (obj_get netlifyGraphConfig "netlifyGraphTypeDefinitionsFilename"));
  let typeDefinitionsResolvedPath := path.resolve typeDefinitionsSegments in
  update_fs (λ files,
    fs.writeFileSync files typeDefinitionsResolvedPath typeDefinitionsSource);;
  let typeDefinitionsRelativePath :=
    path.relative process.cwd typeDefinitionsResolvedPath in
  log_with logger ("Wrote " +:+ typeDefinitionsRelativePath);;
  log_with logger (implementationRelativePath +:+ ":" +:+ newline +:+ clientSource);;
  log_with logger (typeDefinitionsRelativePath +:+ ":" +:+ newline +:+ typeDefinitionsSource);;
  mret (Generator.failedPersistedFunctions output, Generator.functionDefinitions output).

(** ** [onPreBuild] *)

(** The texts of the handler. *)
Definition missingTokenWarning : string :=
  "Missing the NETLIFY_GRAPH_PERSIST_QUERY_TOKEN enviroment variable, skipping production Netlify Graph client generation."
  +:+ newline +:+ newline +:+ "Run `netlify graph:init` to generate a new token.".

Definition missingTokenTitle : string :=
  "Netlify Graph Build Plugin: Missing NETLIFY_GRAPH_PERSIST_QUERY_TOKEN".

Definition missingTokenSummary : string :=
  "Skipped production Netlify Graph client generation due to missing token"
  +:+ newline +:+ newline +:+ "      Run `netlify graph:init` to generate a new token".

Definition jsonFailureMessage : string :=
  "Error reading netlifyGraph.json. Be sure to run `netlify graph:init` and commit the resulting json file.".

Definition legacyFailureMessage : string :=
  "Found legacy single-file operations library. Run `netlify graph:library` to migrate".

Definition emptyLibraryWarning : string :=
  "No Graph operations library found, skipping production client generation.".

Definition generalFailureMessage : string :=
  "Error generating a production Netlify Graph client".

Definition persistFailureMessage (failedFunctionNames : list string) : string :=
  "Error persisting Netlify Graph operations for production: ["
  +:+ js_join ", " failedFunctionNames +:+ "]".

(** The body of the handler's [try] block, for a token that is there. *)
Definition onPreBuild_try (constants : BuildConstants) (netlifyToken : string) : M unit :=
  let path := CONFIG_PATH constants in
  emit (call_resolveConfig path);;
  resolvedConfig ← call_fs (λ files, netlify.resolveConfig files path);
  netlifyGraphConfig ← call_fs (getNetlifyGraphConfig (config resolvedConfig));
  netlifyGraphJson ←
    try_catch
      (text ← call_fs (λ files, fs.readFileSync files "netlifyGraph.json");
       lift (JSON.parse text))
      (λ error, failBuild jsonFailureMessage (ErrorInfo error));
  emit (console_log [LogString "Creating a new Netlify Graph schema"]);;
  enabledServices ← lift (JSON.member netlifyGraphJson "enabledServices");
  let input := {| OneGraphClient.appId := SITE_ID constants;
                  OneGraphClient.enabledServices := enabledServices |} in
  let session := {| OneGraphClient.siteId := SITE_ID constants;
                    OneGraphClient.accessToken := netlifyToken |} in
  emit (call_executeCreateGraphQLSchemaMutation input session);;
  createGraphQLSchemaResult ←
    lift (OneGraphClient.executeCreateGraphQLSchemaMutation input session);
  emit (console_log [LogString "Created a new Netlify Graph schema";
                     LogResult createGraphQLSchemaResult]);;
  newSchemaId ← lift (OneGraphClient.graphQLSchema_id createGraphQLSchemaResult);
  schemaString ← readGraphQLSchemaFile netlifyGraphConfig;
  schema ←
    try_catch
      (built ← lift (GraphQL.buildSchema schemaString); mret (Some built))
      (λ buildSchemaError,
        emit (console_error ("Error parsing schema: "
                             +:+ js_error_to_string buildSchemaError));;
        mret None);
  match schema with
  | None => emit (console_error "Failed to parse Netlify GraphQL schema")
  | Some schema =>
    legacySourceGraphQLFile ← readLegacyGraphQLOperationsSourceFile netlifyGraphConfig;
    (if js_truthy (from_option JString JUndefined legacySourceGraphQLFile)
     then failBuild legacyFailureMessage NoInfo
     else mret tt);;
    currentOperationsDoc ← readGraphQLOperationsSourceFiles netlifyGraphConfig;
    if (String.length (js_trim currentOperationsDoc) =? 0)%nat
    then emit (console_warn emptyLibraryWarning)
    else
      parsedDoc ← lift (GraphQL.parse currentOperationsDoc);
      extracted ← lift (Generator.extractFunctionsFromOperationDoc parsedDoc);
      let request :=
        {| Generator.netlifyGraphConfig := netlifyGraphConfig;
           Generator.netlifyToken := netlifyToken;
           Generator.siteId := SITE_ID constants;
           Generator.schema := schema;
           Generator.operationsDoc := currentOperationsDoc;
           Generator.functions := extracted.2;
           Generator.fragments := extracted.1;
           Generator.schemaId := newSchemaId |} in
      generated ←
        generatePersistedFunctionsFile
          (Some (λ message, emit (console_log [LogString message]))) request;
      let failedPersistedFunctions := generated.1 in
      let functionDefinitions := generated.2 in
      if (0 <? List.length failedPersistedFunctions)%nat then
        let failedFunctionNames := failedPersistedFunctions in
        emit (status_show
                ("Netlify Graph Build Plugin: Failed to persist "
                 +:+ pretty (List.length failedFunctionNames) +:+ " Graph functions")
                "See the log for details");;
        failBuild (persistFailureMessage failedFunctionNames)
                  (FailedFunctionsInfo failedPersistedFunctions)
      else
        emit (status_show
                ("Netlify Graph Build Plugin: Successfully persisted "
                 +:+ pretty (List.length functionDefinitions) +:+ " Graph functions")
                "See the log for details")
  end.

Definition onPreBuild (constants : BuildConstants) : M unit :=
  let netlifyToken :=
    from_option JString JUndefined (process.env !! "NETLIFY_GRAPH_PERSIST_QUERY_TOKEN") in
  match netlifyToken with
  | JString token =>
    if js_truthy netlifyToken then
      try_catch (onPreBuild_try constants token)
                (λ error, failBuild generalFailureMessage (ErrorInfo error))
    else
      emit (console_warn missingTokenWarning);;
      emit (status_show missingTokenTitle missingTokenSummary)
  | _ =>
    emit (console_warn missingTokenWarning);;
    emit (status_show missingTokenTitle missingTokenSummary)
  end.

(** A run of the handler on a file system, with an empty trace. *)
Definition run_onPreBuild (constants : BuildConstants) (files0 : fs.FS)
    : State * throws unit :=
  onPreBuild constants {| files := files0; trace := [] |}.
End plugin.

(** ** A small site to run the handler on

    One concrete choice of every collaborator: a disk given by the list of
    its files and directories, a line-based GraphQL reader and fixed
    answers of the remote services. The examples below evaluate the
    handler on it. *)

Module Fixture.
Record Disk : Type := {
  disk_files : list (string * string);
  disk_dirs : list string;
}.

Fixpoint lookup_file (p : string) (entries : list (string * string)) : option string :=
  match entries with
  | [] => None
  | (q, text) :: rest => if String.eqb p q then Some text else lookup_file p rest
  end.

(** The rest of [s] after the prefix [p]. *)
Fixpoint strip_prefix (p s : string) : option string :=
  match p, s with
  | EmptyString, _ => Some s
  | String a p', String b s' => if Ascii.eqb a b then strip_prefix p' s' else None
  | String _ _, EmptyString => None
  end.

Definition entries_of (dir : string) (entries : list (string * string)) : list string :=
  omap (λ entry, strip_prefix (dir +:+ "/") entry.1) entries.

Definition disk : fs.Api := {|
  fs.FS := Disk;
  fs.existsSync d p :=
    bool_decide (is_Some (lookup_file p (disk_files d)))
    || existsb (String.eqb p) (disk_dirs d);
  fs.readFileSync d p :=
    match lookup_file p (disk_files d) with
    | Some text => inr text
    | None => inl (ExternalError ("ENOENT: no such file or directory, open " +:+ p))
    end;
  fs.readdirSync d p :=
    if existsb (String.eqb p) (disk_dirs d)
    then inr (entries_of p (disk_files d))
    else inl (ExternalError ("ENOENT: no such file or directory, scandir " +:+ p));
  fs.mkdirSync d p :=
    if bool_decide (is_Some (lookup_file p (disk_files d)))
    then inl (ExternalError ("EEXIST: file already exists, mkdir " +:+ p))
    else if existsb (String.eqb p) (disk_dirs d) then inr d
    else inr {| disk_files := disk_files d; disk_dirs := disk_dirs d ++ [p] |};
  fs.writeFileSync d p text :=
    inr {| disk_files := (p, text) :: disk_files d; disk_dirs := disk_dirs d |};
|}.

(** [path.resolve] from the working directory [/site]: an absolute
    segment starts over, a relative one is appended. *)
Definition resolve_step (resolved : list string) (segment : string) : list string :=
  let parts := filterRelativePathItems (js_split "/"%char segment) in
  if starts_with_ci "/" segment then parts else resolved ++ parts.

Definition posix : path.Api := {|
  path.sep := "/"%char;
  path.resolve segments := "/" +:+ js_join "/" (fold_left resolve_step segments ["site"]);
  path.relative from to := to;
|}.

Definition library : NetlifyGraph.Constants := {|
  NetlifyGraph.defaultSourceOperationsFilename := "netlifyGraphOperationsLibrary.graphql";
  NetlifyGraph.defaultSourceOperationsDirectoryName := "operations";
  NetlifyGraph.defaultGraphQLSchemaFilename := "netlifyGraphSchema.graphql";
  NetlifyGraph.defaultNetlifyGraphConfig := list_to_map [
    ("extension", JString "js");
    ("functionsPath", JArray ["netlify"; "functions"]);
    ("netlifyGraphPath", JArray ["netlify"; "functions"; "netlifyGraph"]);
    ("webhookBasePath", JString "/.netlify/functions");
    ("graphQLOperationsSourceDirectory",
       JArray ["netlify"; "functions"; "netlifyGraph"; "operations"]);
    ("moduleType", JString "commonjs");
    ("language", JString "javascript");
    ("runtimeTargetEnv", JString "node")
  ];
|}.

Definition with_token : process.Env := {|
  process.cwd := "/site";
  process.env := {[ "NETLIFY_GRAPH_PERSIST_QUERY_TOKEN" := "secret" ]};
|}.

Definition without_token : process.Env := {|
  process.cwd := "/site";
  process.env := ∅;
|}.

(** [null] is [None]; any other text that starts with a brace parses. *)
Definition json : JSON.Api := {|
  JSON.Value := option string;
  JSON.parse text :=
    if String.eqb text "null" then inr None
    else if starts_with_ci "{" text then inr (Some text)
    else inl (ExternalError "Unexpected token in JSON");
  JSON.member v k :=
    match v with
    | None => inl (TypeError ("Cannot read properties of null (reading '" +:+ k +:+ "')"))
    | Some text => inr (Some (k +:+ " of " +:+ text))
    end;
|}.

Definition lines (text : string) : list string :=
  filterRelativePathItems (js_split (ascii_of_nat 10) text).

(** One definition per line; a schema must mention a type. *)
Definition graphql : GraphQL.Api := {|
  GraphQL.DefinitionNode := string;
  GraphQL.Schema := string;
  GraphQL.Kind_DOCUMENT := "Document";
  GraphQL.parse text :=
    inr {| GraphQL.kind := "Document"; GraphQL.definitions := lines text |};
  GraphQL.print doc := js_join (String (ascii_of_nat 10) EmptyString) (GraphQL.definitions doc);
  GraphQL.buildSchema text :=
    if contains_ci "type " text then inr text
    else inl (ExternalError "Syntax Error: Unexpected Name");
|}.

Definition site_config : BuildConfig := {|
  graph := Some {[ "language" := "typescript" ]};
  functionsDirectory := None;
|}.

(** A [graph] table that overrides two settings, one without any table and
    one whose entries are empty strings. *)
Definition overriding_config : BuildConfig := {|
  graph := Some {[ "webhookBasePath" := "/hooks/graph"; "language" := "typescript" ]};
  functionsDirectory := None;
|}.

Definition plain_config : BuildConfig := {|
  graph := None;
  functionsDirectory := None;
|}.

Definition empty_strings_config : BuildConfig := {|
  graph := Some {[ "webhookBasePath" := ""; "language" := "" ]};
  functionsDirectory := None;
|}.

Definition services : @netlify.Api disk := {|
  netlify.SiteInfo := unit;
  netlify.resolveConfig d configPath := inr {| config := site_config; siteInfo := tt |};
  netlify.listFrameworks d :=
    if fs.existsSync (Api := disk) d "next.config.js" then inr ["next"] else inr [];
|}.

Definition onegraph : @OneGraphClient.Api json := {|
  OneGraphClient.Result := string;
  OneGraphClient.executeCreateGraphQLSchemaMutation input session :=
    inr ("schema of " +:+ OneGraphClient.appId input);
  OneGraphClient.graphQLSchema_id result := inr (Some result);
|}.

Definition generator : @Generator.Api graphql :=
  @Generator.Build_Api graphql (list string) (list string)
    (λ doc, inr ([], GraphQL.definitions doc))
    (λ request,
      inr {| Generator.clientSource := "// client";
             Generator.failedPersistedFunctions := [];
             Generator.functionDefinitions := Generator.functions _ _ _ request;
             Generator.typeDefinitionsSource := "// types" |}).

Definition constants : BuildConstants := {|
  CONFIG_PATH := Some "/site/netlify.toml";
  SITE_ID := "site-1";
|}.

(** Where the generic default configuration puts the Netlify Graph
    directory, and where the library's default puts the operations. *)
Definition graph_dir : string := "/netlify/functions/netlifyGraph".
Definition operations_dir : string := "/site/netlify/functions/netlifyGraph/operations".

(** A site with its state file, a schema and two operation files. *)
Definition healthy_disk : Disk := {|
  disk_files := [
    ("netlifyGraph.json", "{ enabledServices }");
    (graph_dir +:+ "/netlifyGraphSchema.graphql", "type Query");
    (operations_dir +:+ "/a.graphql", "query A" +:+ String (ascii_of_nat 10) "query B");
    (operations_dir +:+ "/b.graphql", "fragment C");
    (operations_dir +:+ "/notes.txt", "not an operation")
  ];
  disk_dirs := [graph_dir; operations_dir];
|}.

Definition legacy_file : string :=
  graph_dir +:+ "/netlifyGraphOperationsLibrary.graphql".

Definition schema_file : string := graph_dir +:+ "/netlifyGraphSchema.graphql".

(** The same site without its state file. *)
Definition disk_without_state_file : Disk := {|
  disk_files := [ (schema_file, "type Query") ];
  disk_dirs := [graph_dir; operations_dir];
|}.

(** A schema file that does not build. *)
Definition disk_with_broken_schema : Disk := {|
  disk_files := [
    ("netlifyGraph.json", "{ enabledServices }");
    (schema_file, "scalar Date");
    (operations_dir +:+ "/a.graphql", "query A")
  ];
  disk_dirs := [graph_dir; operations_dir];
|}.

(** A legacy operations file, with the given text, next to the new
    operation files. *)
Definition disk_with_legacy_file (legacy : string) : Disk := {|
  disk_files := (legacy_file, legacy) :: disk_files healthy_disk;
  disk_dirs := disk_dirs healthy_disk;
|}.

(** An operations directory without operation files. *)
Definition disk_without_operations : Disk := {|
  disk_files := [
    ("netlifyGraph.json", "{ enabledServices }");
    (schema_file, "type Query");
    (operations_dir +:+ "/notes.txt", "not an operation")
  ];
  disk_dirs := [graph_dir; operations_dir];
|}.

(** The handler on this site, for a given environment and disk. *)
Definition run (environment : process.Env) (d : Disk) :=
  @run_onPreBuild library posix disk environment json graphql services onegraph generator
    constants d.

(** The Netlify Graph configuration of the site: nothing is detected, so
    the generic defaults apply, and the user asks for TypeScript. *)
Definition graph_config : jsobject :=
  match @getNetlifyGraphConfig library posix disk with_token services site_config
          healthy_disk with
  | inr resolved => resolved
  | inl _ => ∅
  end.

(** The trace of a run once the remote schema is created. *)
Definition created_events : list (@event json graphql onegraph generator) :=
  [ @call_resolveConfig json graphql onegraph generator (CONFIG_PATH constants);
    @console_log json graphql onegraph generator
      [LogString "Creating a new Netlify Graph schema"];
    @call_executeCreateGraphQLSchemaMutation json graphql onegraph generator
      {| OneGraphClient.appId := "site-1";
         OneGraphClient.enabledServices := Some "enabledServices of { enabledServices }" |}
      {| OneGraphClient.siteId := "site-1"; OneGraphClient.accessToken := "secret" |};
    @console_log json graphql onegraph generator
      [ @LogString json onegraph "Created a new Netlify Graph schema";
        @LogResult json onegraph "schema of site-1" ] ].

(** The state of a run on disk [d] once the schema file is read: the
    Netlify Graph directory is there already, so the disk is as it was. *)
Definition after_schema (d : Disk) : @State disk json graphql onegraph generator :=
  @Build_State disk json graphql onegraph generator d created_events.

(** The two operation files of the healthy disk, as the loop builds them. *)
Definition operation_a : @OperationFile graphql :=
  @Build_OperationFile graphql "a.graphql" (operations_dir +:+ "/a.graphql")
    ("query A" +:+ newline +:+ "query B")
    {| GraphQL.kind := "Document"; GraphQL.definitions := ["query A"; "query B"] |}.

Definition operation_b : @OperationFile graphql :=
  @Build_OperationFile graphql "b.graphql" (operations_dir +:+ "/b.graphql")
    "fragment C"
    {| GraphQL.kind := "Document"; GraphQL.definitions := ["fragment C"] |}.

(** The state once the operations directory is read. *)
Definition after_operations (d : Disk) : @State disk json graphql onegraph generator :=
  (@readGraphQLOperationsSourceFiles posix disk json graphql onegraph generator
     graph_config (after_schema d)).1.

(** An environment whose token is the empty string. *)
Definition with_empty_token : process.Env := {|
  process.cwd := "/site";
  process.env := {[ "NETLIFY_GRAPH_PERSIST_QUERY_TOKEN" := "" ]};
|}.

(** A build configuration that cannot be resolved. *)
Definition failing_services : @netlify.Api disk := {|
  netlify.SiteInfo := unit;
  netlify.resolveConfig d configPath :=
    inl (ExternalError "When resolving config file: could not parse configuration");
  netlify.listFrameworks d := inr [];
|}.

(** A generator that throws. *)
Definition failing_generator : @Generator.Api graphql :=
  @Generator.Build_Api graphql (list string) (list string)
    (λ doc, inr ([], GraphQL.definitions doc))
    (λ request, inl (ExternalError "request to the persistence service failed")).

(** A state file that holds [null]. *)
Definition disk_with_null_state_file : Disk := {|
  disk_files := [ ("netlifyGraph.json", "null"); (schema_file, "type Query") ];
  disk_dirs := [graph_dir; operations_dir];
|}.

(** A site without its schema file. *)
Definition disk_without_schema_file : Disk := {|
  disk_files := [ ("netlifyGraph.json", "{ enabledServices }") ];
  disk_dirs := [graph_dir; operations_dir];
|}.

(** A site without its operations directory. *)
Definition disk_without_operations_directory : Disk := {|
  disk_files := [ ("netlifyGraph.json", "{ enabledServices }");
                  (schema_file, "type Query") ];
  disk_dirs := [graph_dir];
|}.

(** The printed operations of the healthy disk, and what is extracted from
    them. *)
Definition healthy_source : string :=
  "query A" +:+ newline +:+ "query B" +:+ newline +:+ "fragment C".

Definition healthy_functions : list string * list string :=
  ([], ["query A"; "query B"; "fragment C"]).
End Fixture.

(** * The vocabulary of the properties *)

Section vocabulary.
Context {Lib : NetlifyGraph.Constants} {Path : path.Api} {Fs : fs.Api}
        {Proc : process.Env} {Json : JSON.Api} {Gql : GraphQL.Api}
        {Netlify : netlify.Api} {OneGraph : OneGraphClient.Api}
        {Gen : Generator.Api}.

Definition no_empty_segments (segments : list string) : Prop :=
  Forall (λ part, part ≠ "") segments.

(** What a default configuration says about its paths, given the name of
    the type-definition index file: the four filenames extend the Netlify
    Graph directory by one segment, and no path has an empty segment. *)
Definition factory_paths (typeDefinitionsIndex : string)
    (context : FrameworkContext) (defaults : jsobject) : Prop :=
  ∃ functionsPath netlifyGraphPath : list string,
    let implementationIndex :=
      "index." +:+ js_to_string (obj_get (baseConfig context) "extension") in
    let implementation := netlifyGraphPath ++ [implementationIndex] in
    let typeDefinitions := netlifyGraphPath ++ [typeDefinitionsIndex] in
    let operations := netlifyGraphPath ++ [NetlifyGraph.defaultSourceOperationsFilename] in
    let schema := netlifyGraphPath ++ [NetlifyGraph.defaultGraphQLSchemaFilename] in
    defaults !! "functionsPath" = Some (JArray functionsPath)
    ∧ defaults !! "netlifyGraphPath" = Some (JArray netlifyGraphPath)
    ∧ defaults !! "netlifyGraphImplementationFilename" = Some (JArray implementation)
    ∧ defaults !! "netlifyGraphTypeDefinitionsFilename" = Some (JArray typeDefinitions)
    ∧ defaults !! "graphQLOperationsSourceFilename" = Some (JArray operations)
    ∧ defaults !! "graphQLSchemaFilename" = Some (JArray schema)
    ∧ no_empty_segments functionsPath
    ∧ no_empty_segments netlifyGraphPath
    ∧ no_empty_segments implementation
    ∧ no_empty_segments typeDefinitions
    ∧ no_empty_segments operations
    ∧ no_empty_segments schema.

(** The claim with the type-definition file named after the configured
    extension, like the implementation file. *)
Definition factory_paths_with_configured_extension
    (id : option string) (context : FrameworkContext) : Prop :=
  ∃ defaults,
    makeDefaultFrameworkConfig id context = inr defaults
    ∧ factory_paths ("index." +:+ js_to_string (obj_get (baseConfig context) "extension"))
                    context defaults.

(** The operations directory of a default configuration is its Netlify
    Graph directory followed by [added]. *)
Definition appends_to_graph_path (defaults : jsobject) (added : list string) : Prop :=
  ∃ netlifyGraphPath,
    defaults !! "netlifyGraphPath" = Some (JArray netlifyGraphPath)
    ∧ defaults !! "graphQLOperationsSourceDirectory"
      = Some (JArray (netlifyGraphPath ++ added)).

(** The settings the user gives as one string that the code splits on the
    path separator. *)
Definition split_settings : list string :=
  [ "netlifyGraphPath"; "netlifyGraphImplementationFilename";
    "netlifyGraphTypeDefinitionsFilename"; "graphQLOperationsSourceFilename";
    "graphQLConfigJsonFilename"; "graphQLSchemaFilename";
    "netlifyGraphRequirePath"; "moduleType"; "webhookBasePath";
    "customGeneratorFile" ].

(** The settings for which every framework has a default of its own. *)
Definition framework_settings : list string :=
  [ "functionsPath"; "netlifyGraphPath"; "netlifyGraphImplementationFilename";
    "netlifyGraphTypeDefinitionsFilename"; "graphQLOperationsSourceFilename";
    "graphQLSchemaFilename"; "netlifyGraphRequirePath"; "moduleType";
    "webhookBasePath" ].

(** The claim of precedence read on two settings, for a choice [given] of
    the user's values that count as specified: a language that is given
    wins, and a webhook base path that is not given leaves the framework's
    default in place. *)
Definition user_first (given : string → bool) (config : BuildConfig)
    (defaults fullConfig : jsobject) : Prop :=
  (∀ s, userSpecifiedConfig config !! "language" = Some s → given s = true →
     fullConfig !! "language" = Some (JString s))
  ∧ (∀ s, userSpecifiedConfig config !! "webhookBasePath" = Some s → given s = false →
       fullConfig !! "webhookBasePath" = defaults !! "webhookBasePath").

(** A computation that writes nothing to the trace. *)
Definition silent {A} (m : M A) : Prop :=
  ∀ st st' r, m st = (st', r) → trace st' = trace st.

(** [file] is what the loop builds for the directory entry [filename]: the
    file can be read and its text parses. *)
Definition discovered (disk : fs.FS) (operationsPath filename : string)
    (file : OperationFile) : Prop :=
  file_name file = filename
  ∧ file_path file = path.resolve [operationsPath; filename]
  ∧ fs.readFileSync disk (path.resolve [operationsPath; filename])
    = inr (file_content file)
  ∧ GraphQL.parse (file_content file) = inr (parsedOperation file).

(** The persistence token is in the environment. *)
Definition token_given (netlifyToken : string) : Prop :=
  process.env !! "NETLIFY_GRAPH_PERSIST_QUERY_TOKEN" = Some netlifyToken
  ∧ netlifyToken ≠ "".

(** The build configuration and the Netlify Graph configuration were
    resolved. *)
Definition config_resolved (constants : BuildConstants) (files0 : fs.FS)
    (netlifyGraphConfig : jsobject) : Prop :=
  ∃ resolvedConfig,
    netlify.resolveConfig files0 (CONFIG_PATH constants) = inr resolvedConfig
    ∧ getNetlifyGraphConfig (config resolvedConfig) files0 = inr netlifyGraphConfig.

(** The state file was read and the remote schema created; [events] is
    the trace up to there. *)
Definition schema_created (constants : BuildConstants) (netlifyToken : string)
    (files0 : fs.FS) (newSchemaId : option string) (events : list event) : Prop :=
  ∃ text netlifyGraphJson enabledServices createGraphQLSchemaResult,
    let input := {| OneGraphClient.appId := SITE_ID constants;
                    OneGraphClient.enabledServices := enabledServices |} in
    let session := {| OneGraphClient.siteId := SITE_ID constants;
                      OneGraphClient.accessToken := netlifyToken |} in
    fs.readFileSync files0 "netlifyGraph.json" = inr text
    ∧ JSON.parse text = inr netlifyGraphJson
    ∧ JSON.member netlifyGraphJson "enabledServices" = inr enabledServices
    ∧ OneGraphClient.executeCreateGraphQLSchemaMutation input session
      = inr createGraphQLSchemaResult
    ∧ OneGraphClient.graphQLSchema_id createGraphQLSchemaResult = inr newSchemaId
    ∧ events = [ call_resolveConfig (CONFIG_PATH constants);
                 console_log [LogString "Creating a new Netlify Graph schema"];
                 call_executeCreateGraphQLSchemaMutation input session;
                 console_log [LogString "Created a new Netlify Graph schema";
                              LogResult createGraphQLSchemaResult] ].

(** The schema file was read, in state [st], and its text is
    [schemaString]. *)
Definition schema_read (constants : BuildConstants) (netlifyToken : string)
    (files0 : fs.FS) (netlifyGraphConfig : jsobject) (newSchemaId : option string)
    (schemaString : string) (st : State) : Prop :=
  config_resolved constants files0 netlifyGraphConfig
  ∧ ∃ events,
      schema_created constants netlifyToken files0 newSchemaId events
      ∧ readGraphQLSchemaFile netlifyGraphConfig {| files := files0; trace := events |}
        = (st, inr schemaString).

Definition is_failBuild (ev : event) : bool :=
  match ev with build_failBuild _ _ => true | _ => false end.

(** A call that leaves the machine. *)
Definition is_remote_call (ev : event) : bool :=
  match ev with
  | call_resolveConfig _
  | call_executeCreateGraphQLSchemaMutation _ _
  | call_generatePersistedFunctionsSource _ => true
  | _ => false
  end.

Definition is_generator_call (ev : event) : bool :=
  match ev with call_generatePersistedFunctionsSource _ => true | _ => false end.

Definition is_console_log (ev : event) : bool :=
  match ev with console_log _ => true | _ => false end.

(** Neither the failure API nor the generator. *)
Definition harmless (ev : event) : Prop :=
  is_failBuild ev = false ∧ is_generator_call ev = false.

(** A computation that writes only [console.log] lines to the trace. *)
Definition only_logs {A} (m : M A) : Prop :=
  ∀ st st' r, m st = (st', r) →
    ∃ logs, trace st' = trace st ++ logs
            ∧ Forall (λ ev, is_console_log ev = true) logs.

(** The claim that a failing schema build fails the build, for one site. *)
Definition schema_failure_fails_build (constants : BuildConstants) (files0 : fs.FS)
    : Prop :=
  ∀ netlifyToken netlifyGraphConfig newSchemaId schemaString st buildSchemaError,
    token_given netlifyToken →
    schema_read constants netlifyToken files0 netlifyGraphConfig newSchemaId
                schemaString st →
    GraphQL.buildSchema schemaString = inl buildSchemaError →
    ∃ message info,
      build_failBuild message info ∈ trace (run_onPreBuild constants files0).1.

(** The claim that a legacy file that is there fails the build, for one
    site, whatever the file holds. *)
Definition legacy_file_fails_build (constants : BuildConstants) (files0 : fs.FS)
    : Prop :=
  ∀ netlifyToken netlifyGraphConfig newSchemaId schemaString schema st st1 source,
    token_given netlifyToken →
    schema_read constants netlifyToken files0 netlifyGraphConfig newSchemaId
                schemaString st →
    GraphQL.buildSchema schemaString = inr schema →
    readLegacyGraphQLOperationsSourceFile netlifyGraphConfig st
      = (st1, inr (Some source)) →
    build_failBuild legacyFailureMessage NoInfo
      ∈ trace (run_onPreBuild constants files0).1.

(** [s.toLowerCase()] on the letters A to Z. *)
Fixpoint js_lower (s : string) : string :=
  match s with
  | EmptyString => EmptyString
  | String c rest => String (ascii_lower c) (js_lower rest)
  end.

(** The number of occurrences of a character in a string. *)
Fixpoint count_char (c : ascii) (s : string) : nat :=
  match s with
  | EmptyString => 0
  | String d rest => (if Ascii.eqb d c then 1 else 0) + count_char c rest
  end.

(** The characters of a string, as a list. *)
Definition chars_of (s : string) : list ascii := list_ascii_of_string s.

(** The settings that [getNetlifyGraphConfig] resolves one by one; every
    other property of the result comes from the base configuration. *)
Definition resolved_settings : list string :=
  [ "functionsPath"; "webhookBasePath"; "netlifyGraphPath";
    "netlifyGraphImplementationFilename"; "netlifyGraphTypeDefinitionsFilename";
    "graphQLOperationsSourceFilename"; "graphQLSchemaFilename";
    "graphQLConfigJsonFilename"; "netlifyGraphRequirePath"; "framework";
    "language"; "moduleType"; "customGeneratorFile"; "runtimeTargetEnv" ].

(** The resolved settings that the handler spreads into [path.resolve]. *)
Definition spread_settings : list string :=
  [ "netlifyGraphPath"; "netlifyGraphImplementationFilename";
    "netlifyGraphTypeDefinitionsFilename"; "graphQLOperationsSourceFilename";
    "graphQLSchemaFilename" ].

(** The schema was built from the text of the schema file; the run is in
    state [st]. *)
Definition schema_built (constants : BuildConstants) (netlifyToken : string)
    (files0 : fs.FS) (netlifyGraphConfig : jsobject) (newSchemaId : option string)
    (schema : GraphQL.Schema) (st : State) : Prop :=
  ∃ schemaString,
    schema_read constants netlifyToken files0 netlifyGraphConfig newSchemaId
                schemaString st
    ∧ GraphQL.buildSchema schemaString = inr schema.

(** The legacy operations file is absent or empty; the run is in state
    [st1]. *)
Definition legacy_passed (constants : BuildConstants) (netlifyToken : string)
    (files0 : fs.FS) (netlifyGraphConfig : jsobject) (newSchemaId : option string)
    (schema : GraphQL.Schema) (st1 : State) : Prop :=
  ∃ st legacySourceGraphQLFile,
    schema_built constants netlifyToken files0 netlifyGraphConfig newSchemaId schema st
    ∧ readLegacyGraphQLOperationsSourceFile netlifyGraphConfig st
      = (st1, inr legacySourceGraphQLFile)
    ∧ js_truthy (from_option JString JUndefined legacySourceGraphQLFile) = false.

(** The request that the handler sends to the generator. *)
Definition onPreBuild_request (constants : BuildConstants) (netlifyToken : string)
    (netlifyGraphConfig : jsobject) (newSchemaId : option string)
    (schema : GraphQL.Schema) (currentOperationsDoc : string)
    (extracted : Generator.Fragments * Generator.Functions)
    : Generator.Request GraphQL.Schema Generator.Functions Generator.Fragments :=
  {| Generator.netlifyGraphConfig := netlifyGraphConfig;
     Generator.netlifyToken := netlifyToken;
     Generator.siteId := SITE_ID constants;
     Generator.schema := schema;
     Generator.operationsDoc := currentOperationsDoc;
     Generator.functions := extracted.2;
     Generator.fragments := extracted.1;
     Generator.schemaId := newSchemaId |}.

(** The operations were read and are not empty, and the functions were
    extracted from them; the run is in state [st2]. *)
Definition functions_extracted (constants : BuildConstants) (netlifyToken : string)
    (files0 : fs.FS) (netlifyGraphConfig : jsobject) (newSchemaId : option string)
    (schema : GraphQL.Schema) (currentOperationsDoc : string)
    (extracted : Generator.Fragments * Generator.Functions) (st2 : State) : Prop :=
  ∃ st1 parsedDoc,
    legacy_passed constants netlifyToken files0 netlifyGraphConfig newSchemaId schema st1
    ∧ readGraphQLOperationsSourceFiles netlifyGraphConfig st1
      = (st2, inr currentOperationsDoc)
    ∧ String.length (js_trim currentOperationsDoc) ≠ 0
    ∧ GraphQL.parse currentOperationsDoc = inr parsedDoc
    ∧ Generator.extractFunctionsFromOperationDoc parsedDoc = inr extracted.

(** The handler's [logger]: [console.log]. *)
Definition console_logger : option (string → M unit) :=
  Some (λ message, emit (console_log [LogString message])).

(** A computation that, when it returns, has not called the failure API. *)
Definition fails_loudly {A} (m : M A) : Prop :=
  ∀ st st' a, m st = (st', inr a) →
    ∃ events, trace st' = trace st ++ events
              ∧ Forall (λ ev, is_failBuild ev = false) events.

(** A computation that never returns. *)
Definition always_throws {A} (m : M A) : Prop :=
  ∀ st st' a, m st ≠ (st', inr a).

(** The claim that a language in the user's table overrides the detected
    one, for one build configuration and disk. *)
Definition language_overrides_detection (config : BuildConfig) (files : fs.FS)
    : Prop :=
  ∀ s fullConfig,
    userSpecifiedConfig config !! "language" = Some s →
    getNetlifyGraphConfig config files = inr fullConfig →
    fullConfig !! "language" = Some (JString s).



(** The call that creates the remote schema. *)
Definition is_schema_creation (ev : event) : bool :=
  match ev with call_executeCreateGraphQLSchemaMutation _ _ => true | _ => false end.

(** How far a run has come with the persistence service. *)
Inductive Stage : Type := Started | SchemaCreated | ClientGenerated.

(** The schema is created once, from the start; the generator is called
    once, when the schema is created; every other event leaves the stage as
    it is. *)
Definition advance (stage : Stage) (ev : event) : option Stage :=
  match ev, stage with
  | call_executeCreateGraphQLSchemaMutation _ _, Started => Some SchemaCreated
  | call_executeCreateGraphQLSchemaMutation _ _, _ => None
  | call_generatePersistedFunctionsSource _, SchemaCreated => Some ClientGenerated
  | call_generatePersistedFunctionsSource _, _ => None
  | _, _ => Some stage
  end.

Fixpoint stage_after (stage : Stage) (events : list event) : option Stage :=
  match events with
  | [] => Some stage
  | ev :: events =>
      match advance stage ev with
      | Some stage' => stage_after stage' events
      | None => None
      end
  end.

(** The stages in their order. *)
Definition stage_rank (stage : Stage) : nat :=
  match stage with Started => 0 | SchemaCreated => 1 | ClientGenerated => 2 end.

(** Neither the creation of the schema nor the generator. *)
Definition local (ev : event) : Prop :=
  is_schema_creation ev = false ∧ is_generator_call ev = false.

(** A computation that calls neither, whether it returns or throws. *)
Definition stays_local {A} (m : M A) : Prop :=
  ∀ st st' r, m st = (st', r) →
    ∃ events, trace st' = trace st ++ events ∧ Forall local events.

(** A computation that, from the given stage, calls the two in order. *)
Definition in_order (stage : Stage) {A} (m : M A) : Prop :=
  ∀ st st' r, m st = (st', r) →
    ∃ events, trace st' = trace st ++ events ∧ is_Some (stage_after stage events).

End vocabulary.

#[local] Abbreviation definitions_of file := (GraphQL.definitions (parsedOperation file)).

(** * Properties *)

(** ** The default configurations *)

Lemma filterRelativePathItems_no_empty items :
  no_empty_segments (filterRelativePathItems items).
Proof.
  unfold no_empty_segments, filterRelativePathItems.
  induction items as [|part items IH]; simpl; [constructor|].
  destruct (String.eqb part "") eqn:E; simpl; [exact IH|].
  constructor; [|exact IH].
  intros ->. discriminate E.
Qed.

Lemma no_empty_segments_snoc segments part :
  no_empty_segments segments → part ≠ "" → no_empty_segments (segments ++ [part]).
Proof.
  intros Hs Hp. apply Forall_app. split; [exact Hs|].
  constructor; [exact Hp|constructor].
Qed.

Lemma index_filename_not_empty extension : "index." +:+ extension ≠ "".
Proof. discriminate. Qed.

Lemma js_string_chars_length s : List.length (js_string_chars s) = String.length s.
Proof.
  unfold js_string_chars. rewrite length_fmap.
  induction s as [|c s IH]; simpl; [reflexivity|]. by rewrite IH.
Qed.

Lemma js_string_chars_single s :
  Forall (λ segment, String.length segment = 1) (js_string_chars s).
Proof.
  unfold js_string_chars.
  induction s as [|c s IH]; simpl; constructor; [reflexivity|exact IH].
Qed.

Section factory_properties.
Context {Lib : NetlifyGraph.Constants}.

(** Every detected id selects one of the three factories. *)
Lemma makeDefaultFrameworkConfig_cases id :
  makeDefaultFrameworkConfig id = (λ context, inr (makeDefaultNextJsNetlifyGraphConfig context))
  ∨ makeDefaultFrameworkConfig id = makeDefaultRemixNetlifyGraphConfig
  ∨ makeDefaultFrameworkConfig id = (λ context, inr (makeDefaultNetlifyGraphConfig context)).
Proof.
  destruct id as [id|]; [|right; right; reflexivity].
  unfold makeDefaultFrameworkConfig, defaultFrameworkLookup. simpl.
  destruct (decide (id = "next")) as [->|Hnext]; [left; reflexivity|].
  destruct (decide (id = "remix")) as [->|Hremix]; [right; left; reflexivity|].
  right; right.
  rewrite lookup_insert_ne by done. rewrite lookup_insert_ne by done.
  destruct (decide (id = "default")) as [->|Hdefault]; [reflexivity|].
  rewrite lookup_insert_ne by done. reflexivity.
Qed.

Lemma factory_paths_intro typeDefinitionsIndex context defaults functionsPath netlifyGraphPath :
  NetlifyGraph.defaultSourceOperationsFilename ≠ "" →
  NetlifyGraph.defaultGraphQLSchemaFilename ≠ "" →
  typeDefinitionsIndex ≠ "" →
  no_empty_segments functionsPath →
  no_empty_segments netlifyGraphPath →
  defaults !! "functionsPath" = Some (JArray functionsPath) →
  defaults !! "netlifyGraphPath" = Some (JArray netlifyGraphPath) →
  defaults !! "netlifyGraphImplementationFilename"
    = Some (JArray (netlifyGraphPath
                    ++ ["index." +:+ js_to_string (obj_get (baseConfig context) "extension")])) →
  defaults !! "netlifyGraphTypeDefinitionsFilename"
    = Some (JArray (netlifyGraphPath ++ [typeDefinitionsIndex])) →
  defaults !! "graphQLOperationsSourceFilename"
    = Some (JArray (netlifyGraphPath ++ [NetlifyGraph.defaultSourceOperationsFilename])) →
  defaults !! "graphQLSchemaFilename"
    = Some (JArray (netlifyGraphPath ++ [NetlifyGraph.defaultGraphQLSchemaFilename])) →
  factory_paths typeDefinitionsIndex context defaults.
Proof.
  intros Hops Hschema Htypes Hf Hg ? ? ? ? ? ?.
  exists functionsPath, netlifyGraphPath. cbv zeta.
  repeat split; try assumption;
    apply no_empty_segments_snoc; auto using index_filename_not_empty.
Qed.

(** C7, as amended: every factory yields paths without empty segments;
    the implementation file is the Netlify Graph directory extended by
    [index.<configured extension>], the type-definition file is that
    directory extended by [index.d.ts], whatever the configured
    extension. The library's two file names are assumed not empty, and
    its default Netlify Graph path iterable (the Remix factory spreads
    it). *)
Theorem default_config_paths (id : option string) (context : FrameworkContext)
    (defaultPath : list string) :
  NetlifyGraph.defaultSourceOperationsFilename ≠ "" →
  NetlifyGraph.defaultGraphQLSchemaFilename ≠ "" →
  js_spread (obj_get NetlifyGraph.defaultNetlifyGraphConfig "netlifyGraphPath")
    = inr defaultPath →
  ∃ defaults,
    makeDefaultFrameworkConfig id context = inr defaults
    ∧ factory_paths "index.d.ts" context defaults.
Proof.
  intros Hops Hschema Hspread.
  destruct (makeDefaultFrameworkConfig_cases id) as [-> | [-> | ->]].
  - eexists; split; [reflexivity|].
    eapply factory_paths_intro; try reflexivity; try done;
      apply filterRelativePathItems_no_empty.
  - unfold makeDefaultRemixNetlifyGraphConfig. rewrite Hspread.
    eexists; split; [reflexivity|].
    eapply factory_paths_intro; try reflexivity; try done;
      apply filterRelativePathItems_no_empty.
  - eexists; split; [reflexivity|].
    eapply factory_paths_intro; try reflexivity; try done.
    + apply filterRelativePathItems_no_empty.
    + apply no_empty_segments_snoc; [apply filterRelativePathItems_no_empty|done].
Qed.

(** C10: the generic factory appends the default operations directory
    name as one segment; the Next.js and Remix factories spread the name
    and so append one segment per character. *)
Theorem operations_directory_segments (context : FrameworkContext)
    (defaultPath : list string) :
  js_spread (obj_get NetlifyGraph.defaultNetlifyGraphConfig "netlifyGraphPath")
    = inr defaultPath →
  let name := NetlifyGraph.defaultSourceOperationsDirectoryName in
  appends_to_graph_path (makeDefaultNetlifyGraphConfig context) [name]
  ∧ appends_to_graph_path (makeDefaultNextJsNetlifyGraphConfig context)
                          (js_string_chars name)
  ∧ (∃ defaults,
       makeDefaultRemixNetlifyGraphConfig context = inr defaults
       ∧ appends_to_graph_path defaults (js_string_chars name))
  ∧ List.length [name] = 1
  ∧ List.length (js_string_chars name) = String.length name
  ∧ Forall (λ segment, String.length segment = 1) (js_string_chars name).
Proof.
  intros Hspread name. repeat split.
  - eexists; split; reflexivity.
  - eexists; split; reflexivity.
  - unfold makeDefaultRemixNetlifyGraphConfig. rewrite Hspread.
    eexists; split; [reflexivity|]. eexists; split; reflexivity.
  - apply js_string_chars_length.
  - apply js_string_chars_single.
Qed.
End factory_properties.

(** ** The resolved configuration *)

Lemma js_truthy_string s : s ≠ "" → js_truthy (JString s) = true.
Proof. intros Hs. simpl. destruct s; [done|reflexivity]. Qed.

Lemma js_or_truthy a b : js_truthy a = true → js_or a b = a.
Proof. unfold js_or. by intros ->. Qed.

Lemma js_or_undefined_truthy v b :
  js_truthy v = true → js_or (js_or JUndefined v) b = v.
Proof. intros Hv. unfold js_or at 2. simpl. by apply js_or_truthy. Qed.

Lemma obj_get_spread_later (a b : gmap string jsval) k v :
  b !! k = Some v → obj_get (obj_spread a b) k = v.
Proof.
  intros Hb. unfold obj_get, obj_spread.
  by rewrite (lookup_union_Some_l _ _ _ _ Hb).
Qed.

Lemma obj_get_spread_earlier (a b : gmap string jsval) k :
  b !! k = None → obj_get (obj_spread a b) k = obj_get a k.
Proof.
  intros Hb. unfold obj_get, obj_spread. by rewrite lookup_union_r.
Qed.

Ltac each_setting H :=
  repeat (apply elem_of_cons in H as [-> | H]); [..|by apply elem_of_nil in H].

Section config_properties.
Context {Lib : NetlifyGraph.Constants} {Path : path.Api} {Fs : fs.Api}
        {Proc : process.Env} {Netlify : netlify.Api}.

(** What every factory's result holds: a truthy default for each of the
    framework settings, and nothing for the other settings. *)
Lemma factory_keys id context defaults :
  makeDefaultFrameworkConfig id context = inr defaults →
  (∀ k, k ∈ framework_settings →
     ∃ v, defaults !! k = Some v ∧ js_truthy v = true)
  ∧ defaults !! "graphQLConfigJsonFilename" = None
  ∧ defaults !! "customGeneratorFile" = None
  ∧ defaults !! "frameworkId" = None
  ∧ defaults !! "runtimeTargetEnv" = None
  ∧ defaults !! "language" = None.
Proof.
  assert (Hmodule : ∀ v, js_truthy (js_or v (JString "esm")) = true).
  { intros v. unfold js_or. destruct (js_truthy v) eqn:E; [exact E|reflexivity]. }
  intros Hmake.
  destruct (makeDefaultFrameworkConfig_cases id) as [Hid | [Hid | Hid]];
    rewrite Hid in Hmake.
  - injection Hmake as <-. split; [|by repeat split].
    intros k Hk. each_setting Hk; eexists; (split; [reflexivity|]);
      first [reflexivity | apply Hmodule].
  - unfold makeDefaultRemixNetlifyGraphConfig in Hmake.
    destruct (js_spread _) as [e|defaultPath]; [discriminate|].
    injection Hmake as <-. split; [|by repeat split].
    intros k Hk. each_setting Hk; eexists; (split; [reflexivity|]); reflexivity.
  - injection Hmake as <-. split; [|by repeat split].
    intros k Hk. each_setting Hk; eexists; (split; [reflexivity|]);
      first [reflexivity | apply Hmodule].
Qed.

Section resolved.
Variables (config : BuildConfig) (detectedFrameworkId : option string)
          (defaults : jsobject) (tsConfigExists : bool).

#[local] Abbreviation fullConfig :=
  (getNetlifyGraphConfig_fullConfig config detectedFrameworkId defaults tsConfigExists).

#[local] Abbreviation defaultConfig :=
  (obj_spread (obj_spread NetlifyGraph.defaultNetlifyGraphConfig defaults)
              (JString <$> userSpecifiedConfig config)).

Lemma user_setting_split_given k s :
  userSpecifiedConfig config !! k = Some s → s ≠ "" →
  user_setting_split config k = JArray (js_split path.sep s).
Proof.
  intros Hk Hs. unfold user_setting_split. by rewrite Hk, (js_truthy_string s Hs).
Qed.

Lemma user_setting_given k s :
  userSpecifiedConfig config !! k = Some s → user_setting config k = JString s.
Proof. intros Hk. unfold user_setting. by rewrite Hk. Qed.

Lemma user_setting_split_absent k :
  userSpecifiedConfig config !! k = None → user_setting_split config k = JUndefined.
Proof. intros Hk. unfold user_setting_split. by rewrite Hk. Qed.

Lemma user_setting_absent k :
  userSpecifiedConfig config !! k = None → user_setting config k = JUndefined.
Proof. intros Hk. unfold user_setting. by rewrite Hk. Qed.

Lemma defaultConfig_absent k :
  userSpecifiedConfig config !! k = None →
  obj_get defaultConfig k
  = obj_get (obj_spread NetlifyGraph.defaultNetlifyGraphConfig defaults) k.
Proof.
  intros Hk. apply obj_get_spread_earlier. by rewrite lookup_fmap, Hk.
Qed.

Lemma baseConfig_absent k :
  userSpecifiedConfig config !! k = None →
  obj_get (getNetlifyGraphConfig_baseConfig config) k
  = obj_get NetlifyGraph.defaultNetlifyGraphConfig k.
Proof.
  intros Hk. apply obj_get_spread_earlier. by rewrite lookup_fmap, Hk.
Qed.

(** A setting the user gives wins. *)
Lemma fullConfig_user_split k s :
  k ∈ split_settings →
  userSpecifiedConfig config !! k = Some s → s ≠ "" →
  fullConfig !! k = Some (JArray (js_split path.sep s)).
Proof.
  intros Hk Hu Hs. pose proof (user_setting_split_given k s Hu Hs) as Hsplit.
  unfold fullConfig, getNetlifyGraphConfig_fullConfig, obj_spread.
  apply lookup_union_Some_l. cbv zeta.
  each_setting Hk; rewrite Hsplit; reflexivity.
Qed.

Lemma fullConfig_user_functionsPath s :
  userSpecifiedConfig config !! "functionsPath" = Some s → s ≠ "" →
  fullConfig !! "functionsPath"
  = Some (JArray (getNetlifyGraphConfig_siteRoot ++ js_split path.sep s)).
Proof.
  intros Hu Hs. pose proof (user_setting_split_given _ s Hu Hs) as Hsplit.
  unfold fullConfig, getNetlifyGraphConfig_fullConfig, obj_spread.
  apply lookup_union_Some_l. cbv zeta. rewrite Hsplit. reflexivity.
Qed.

Lemma fullConfig_user_plain k s :
  k ∈ ["language"; "runtimeTargetEnv"] →
  userSpecifiedConfig config !! k = Some s → s ≠ "" →
  fullConfig !! k = Some (JString s).
Proof.
  intros Hk Hu Hs. pose proof (user_setting_given k s Hu) as Hget.
  pose proof (js_truthy_string s Hs) as Htrue.
  unfold fullConfig, getNetlifyGraphConfig_fullConfig, obj_spread.
  apply lookup_union_Some_l. cbv zeta.
  each_setting Hk; rewrite Hget; unfold js_or; rewrite !Htrue; reflexivity.
Qed.

Lemma fullConfig_user_framework s :
  userSpecifiedConfig config !! "frameworkId" = Some s → s ≠ "" →
  fullConfig !! "framework" = Some (JString s).
Proof.
  intros Hu Hs. pose proof (user_setting_given _ s Hu) as Hget.
  pose proof (js_truthy_string s Hs) as Htrue.
  unfold fullConfig, getNetlifyGraphConfig_fullConfig, obj_spread.
  apply lookup_union_Some_l. cbv zeta.
  rewrite Hget. unfold js_or. rewrite !Htrue. reflexivity.
Qed.

(** Without a user's value the framework's default wins. *)
Lemma fullConfig_framework_default k v :
  k ∈ framework_settings →
  userSpecifiedConfig config !! k = None →
  defaults !! k = Some v → js_truthy v = true →
  fullConfig !! k = Some v.
Proof.
  intros Hk Hu Hd Htrue.
  pose proof (user_setting_split_absent k Hu) as Hsplit.
  pose proof (defaultConfig_absent k Hu) as Hdefault.
  rewrite (obj_get_spread_later _ _ _ _ Hd) in Hdefault.
  unfold defaultConfig in Hdefault.
  unfold fullConfig, getNetlifyGraphConfig_fullConfig, obj_spread.
  apply lookup_union_Some_l. cbv zeta. unfold obj_spread in Hdefault.
  each_setting Hk; rewrite Hsplit, Hdefault;
    rewrite ?(js_or_undefined_truthy v _ Htrue); reflexivity.
Qed.

(** Without either, the tool's default is what is left. *)
Lemma fullConfig_base_default k :
  k ∈ ["graphQLConfigJsonFilename"; "customGeneratorFile"] →
  userSpecifiedConfig config !! k = None →
  defaults !! k = None →
  fullConfig !! k = Some (obj_get NetlifyGraph.defaultNetlifyGraphConfig k).
Proof.
  intros Hk Hu Hd.
  pose proof (user_setting_split_absent k Hu) as Hsplit.
  pose proof (defaultConfig_absent k Hu) as Hdefault.
  rewrite (obj_get_spread_earlier _ _ _ Hd) in Hdefault.
  pose proof (baseConfig_absent k Hu) as Hbase.
  unfold fullConfig, getNetlifyGraphConfig_fullConfig.
  unfold obj_spread at 1. apply lookup_union_Some_l.
  each_setting Hk.
  - transitivity
      (Some (js_or (js_or (user_setting_split config "graphQLConfigJsonFilename")
                          (obj_get (getNetlifyGraphConfig_baseConfig config)
                                   "graphQLConfigJsonFilename"))
                   (obj_get defaultConfig "graphQLConfigJsonFilename")));
      [reflexivity|].
    rewrite Hsplit, Hbase, Hdefault. unfold js_or at 2. simpl.
    unfold js_or. by destruct (js_truthy _).
  - transitivity
      (Some (js_or (user_setting_split config "customGeneratorFile")
                   (obj_get defaultConfig "customGeneratorFile")));
      [reflexivity|].
    by rewrite Hsplit, Hdefault.
Qed.

Lemma fullConfig_runtimeTargetEnv_default :
  userSpecifiedConfig config !! "runtimeTargetEnv" = None →
  defaults !! "runtimeTargetEnv" = None →
  fullConfig !! "runtimeTargetEnv"
  = Some (js_or (obj_get NetlifyGraph.defaultNetlifyGraphConfig "runtimeTargetEnv")
                (JString "node")).
Proof.
  intros Hu Hd.
  pose proof (user_setting_absent _ Hu) as Hget.
  pose proof (defaultConfig_absent _ Hu) as Hdefault.
  rewrite (obj_get_spread_earlier _ _ _ Hd) in Hdefault.
  unfold getNetlifyGraphConfig_fullConfig.
  unfold obj_spread at 1. apply lookup_union_Some_l.
  transitivity
    (Some (js_or (js_or (user_setting config "runtimeTargetEnv")
                        (obj_get defaultConfig "runtimeTargetEnv"))
                 (JString "node")));
    [reflexivity|].
  by rewrite Hget, Hdefault.
Qed.

Lemma fullConfig_framework_fallback :
  userSpecifiedConfig config !! "frameworkId" = None →
  defaults !! "frameworkId" = None →
  fullConfig !! "framework"
  = Some (js_or (js_or (obj_get NetlifyGraph.defaultNetlifyGraphConfig "frameworkId")
                       (from_option JString JUndefined detectedFrameworkId))
                (JString "default")).
Proof.
  intros Hu Hd.
  pose proof (user_setting_absent _ Hu) as Hget.
  pose proof (defaultConfig_absent _ Hu) as Hdefault.
  rewrite (obj_get_spread_earlier _ _ _ Hd) in Hdefault.
  unfold getNetlifyGraphConfig_fullConfig.
  unfold obj_spread at 1. apply lookup_union_Some_l.
  transitivity
    (Some (js_or (js_or (js_or (user_setting config "frameworkId")
                               (obj_get defaultConfig "frameworkId"))
                        (from_option JString JUndefined detectedFrameworkId))
                 (JString "default")));
    [reflexivity|].
  by rewrite Hget, Hdefault.
Qed.

Lemma fullConfig_language :
  fullConfig !! "language"
  = Some (js_or (user_setting config "language")
                (JString (if tsConfigExists then "typescript" else "javascript"))).
Proof.
  unfold fullConfig, getNetlifyGraphConfig_fullConfig, obj_spread.
  apply lookup_union_Some_l. reflexivity.
Qed.
End resolved.
End config_properties.

Section resolution_theorems.
Context {Lib : NetlifyGraph.Constants} {Path : path.Api} {Fs : fs.Api}
        {Proc : process.Env} {Netlify : netlify.Api}.

Lemma getNetlifyGraphConfig_returns config files frameworks defaults :
  netlify.listFrameworks files = inr frameworks →
  makeDefaultFrameworkConfig (head frameworks) (getNetlifyGraphConfig_context config)
    = inr defaults →
  getNetlifyGraphConfig config files
  = inr (getNetlifyGraphConfig_fullConfig config (head frameworks) defaults
           (fs.existsSync files "tsconfig.json")).
Proof.
  intros Hlist Hmake. unfold getNetlifyGraphConfig.
  rewrite Hlist. simpl. rewrite Hmake. reflexivity.
Qed.

(** C1, as amended: in the resolved configuration a value given by the
    user as a non-empty string of the [graph] table wins over every
    default; when the table has no entry for a setting, the framework's
    default wins over the tool's for the settings a framework has a default
    for, and the tool's default is what is left for the settings no
    framework sets (with [node] and the detected framework behind it for
    the runtime target and the framework id). *)
Theorem user_then_framework_then_base (config : BuildConfig) (files : fs.FS)
    (frameworks : list string) (defaults : jsobject) :
  netlify.listFrameworks files = inr frameworks →
  makeDefaultFrameworkConfig (head frameworks) (getNetlifyGraphConfig_context config)
    = inr defaults →
  ∃ fullConfig,
    getNetlifyGraphConfig config files = inr fullConfig
    ∧ (∀ k s, userSpecifiedConfig config !! k = Some s → s ≠ "" →
         (k = "functionsPath" →
            fullConfig !! k
            = Some (JArray (getNetlifyGraphConfig_siteRoot ++ js_split path.sep s)))
         ∧ (k ∈ split_settings →
              fullConfig !! k = Some (JArray (js_split path.sep s)))
         ∧ (k ∈ ["language"; "runtimeTargetEnv"] →
              fullConfig !! k = Some (JString s))
         ∧ (k = "frameworkId" → fullConfig !! "framework" = Some (JString s)))
    ∧ (∀ k, k ∈ framework_settings → userSpecifiedConfig config !! k = None →
         ∃ v, defaults !! k = Some v ∧ fullConfig !! k = Some v)
    ∧ (∀ k, k ∈ ["graphQLConfigJsonFilename"; "customGeneratorFile"] →
         userSpecifiedConfig config !! k = None →
         defaults !! k = None
         ∧ fullConfig !! k = Some (obj_get NetlifyGraph.defaultNetlifyGraphConfig k))
    ∧ (userSpecifiedConfig config !! "runtimeTargetEnv" = None →
         fullConfig !! "runtimeTargetEnv"
         = Some (js_or (obj_get NetlifyGraph.defaultNetlifyGraphConfig "runtimeTargetEnv")
                       (JString "node")))
    ∧ (userSpecifiedConfig config !! "frameworkId" = None →
         fullConfig !! "framework"
         = Some (js_or (js_or (obj_get NetlifyGraph.defaultNetlifyGraphConfig "frameworkId")
                              (from_option JString JUndefined (head frameworks)))
                       (JString "default"))).
Proof.
  intros Hlist Hmake.
  destruct (factory_keys _ _ _ Hmake) as (Hfw & Hjson & Hcustom & Hid & Henv & _).
  eexists. split; [by apply getNetlifyGraphConfig_returns|].
  split; [|split; [|split; [|split]]];
    [..|intros Hu; by apply fullConfig_runtimeTargetEnv_default
       |intros Hu; by apply fullConfig_framework_fallback].
  - intros k s Hu Hs. repeat split.
    + intros ->. by apply fullConfig_user_functionsPath.
    + intros Hk. by apply fullConfig_user_split.
    + intros Hk. by apply fullConfig_user_plain.
    + intros ->. by apply fullConfig_user_framework.
  - intros k Hk Hu. destruct (Hfw k Hk) as (v & Hv & Htrue).
    exists v. split; [exact Hv|]. by apply fullConfig_framework_default.
  - intros k Hk Hu.
    assert (defaults !! k = None) as Hd by (each_setting Hk; assumption).
    split; [exact Hd|]. by apply fullConfig_base_default.
Qed.

(** C9: the language is the user's when the user gives one that is not
    the empty string, and is otherwise (no entry, or the empty string)
    detected from [tsconfig.json]: [typescript] when the file exists,
    [javascript] when it does not. *)
Theorem language_detected_unless_given (config : BuildConfig) (files : fs.FS)
    (frameworks : list string) (defaults : jsobject) :
  netlify.listFrameworks files = inr frameworks →
  makeDefaultFrameworkConfig (head frameworks) (getNetlifyGraphConfig_context config)
    = inr defaults →
  ∃ fullConfig,
    getNetlifyGraphConfig config files = inr fullConfig
    ∧ (∀ s, userSpecifiedConfig config !! "language" = Some s → s ≠ "" →
         fullConfig !! "language" = Some (JString s))
    ∧ (userSpecifiedConfig config !! "language" = None
       ∨ userSpecifiedConfig config !! "language" = Some "" →
         fullConfig !! "language"
         = Some (JString (if fs.existsSync files "tsconfig.json"
                          then "typescript" else "javascript"))).
Proof.
  intros Hlist Hmake.
  eexists. split; [by apply getNetlifyGraphConfig_returns|].
  rewrite fullConfig_language. unfold user_setting. split.
  - intros s -> Hs. simpl. by rewrite (js_or_truthy _ _ (js_truthy_string s Hs)).
  - intros [-> | ->]; reflexivity.
Qed.
End resolution_theorems.

(** ** The handler *)

Section handler_properties.
Context {Lib : NetlifyGraph.Constants} {Path : path.Api} {Fs : fs.Api}
        {Proc : process.Env} {Json : JSON.Api} {Gql : GraphQL.Api}
        {Netlify : netlify.Api} {OneGraph : OneGraphClient.Api}
        {Gen : Generator.Api}.

(** *** Stepping through a computation *)

Lemma bind_returns {A B} (m : M A) (f : A → M B) st st' a :
  m st = (st', inr a) → (m ≫= f) st = f a st'.
Proof. intros Hm. unfold mbind, M_bind. by rewrite Hm. Qed.

Lemma bind_throws {A B} (m : M A) (f : A → M B) st st' e :
  m st = (st', inl e) → (m ≫= f) st = (st', inl e).
Proof. intros Hm. unfold mbind, M_bind. by rewrite Hm. Qed.

Lemma try_catch_returns {A} (body : M A) handler st st' a :
  body st = (st', inr a) → try_catch body handler st = (st', inr a).
Proof. intros Hm. unfold try_catch. by rewrite Hm. Qed.

Lemma try_catch_throws {A} (body : M A) handler st st' e :
  body st = (st', inl e) → try_catch body handler st = handler e st'.
Proof. intros Hm. unfold try_catch. by rewrite Hm. Qed.

Lemma emit_run ev st :
  emit ev st = ({| files := files st; trace := trace st ++ [ev] |}, inr tt).
Proof. reflexivity. Qed.

Lemma failBuild_run {A} message info st :
  failBuild (A := A) message info st
  = ({| files := files st; trace := trace st ++ [build_failBuild message info] |},
     inl (BuildError message)).
Proof. reflexivity. Qed.

(** *** What the readers leave in the trace *)

Lemma silent_ret {A} (a : A) : silent (mret a).
Proof. intros st st' r [= <- _]. reflexivity. Qed.

Lemma silent_lift {A} (r : throws A) : silent (lift r).
Proof. intros st st' r' [= <- _]. reflexivity. Qed.

Lemma silent_read_fs {A} (f : fs.FS → A) : silent (read_fs f).
Proof. intros st st' r' [= <- _]. reflexivity. Qed.

Lemma silent_call_fs {A} (f : fs.FS → throws A) : silent (call_fs f).
Proof. intros st st' r' [= <- _]. reflexivity. Qed.

Lemma silent_update_fs f : silent (update_fs f).
Proof.
  intros st st' r'. unfold update_fs.
  destruct (f (files st)); intros [= <- _]; reflexivity.
Qed.

Lemma silent_bind {A B} (m : M A) (f : A → M B) :
  silent m → (∀ a, silent (f a)) → silent (m ≫= f).
Proof.
  intros Hm Hf st st' r. unfold mbind, M_bind.
  destruct (m st) as [st1 [e|a]] eqn:E.
  - intros [= <- _]. by eapply Hm.
  - intros Hrun. rewrite (Hf a _ _ _ Hrun). by eapply Hm.
Qed.

Lemma silent_ensureNetlifyGraphPath cfg : silent (ensureNetlifyGraphPath cfg).
Proof.
  apply silent_bind; [apply silent_lift|]. intros. apply silent_update_fs.
Qed.

Lemma silent_readGraphQLSchemaFile cfg : silent (readGraphQLSchemaFile cfg).
Proof.
  apply silent_bind; [apply silent_ensureNetlifyGraphPath|]. intros.
  apply silent_bind; [apply silent_lift|]. intros. apply silent_call_fs.
Qed.

Lemma silent_readLegacyGraphQLOperationsSourceFile cfg :
  silent (readLegacyGraphQLOperationsSourceFile cfg).
Proof.
  apply silent_bind; [apply silent_ensureNetlifyGraphPath|]. intros.
  apply silent_bind; [apply silent_lift|]. intros.
  apply silent_bind; [apply silent_read_fs|]. intros fileExists.
  destruct fileExists; simpl; [|apply silent_ret].
  apply silent_bind; [apply silent_call_fs|]. intros. apply silent_ret.
Qed.

(** *** The aggregation of the operation files *)


Lemma parsedDoc_fold (operationFiles : list OperationFile) acc :
  let step := λ acc file,
    {| GraphQL.kind := GraphQL.Kind_DOCUMENT;
       GraphQL.definitions := GraphQL.definitions acc ++ definitions_of file |} in
  GraphQL.definitions (fold_left step operationFiles acc)
  = GraphQL.definitions acc ++ concat ((λ file, definitions_of file) <$> operationFiles).
Proof.
  intros step. revert acc.
  induction operationFiles as [|file rest IH]; intros acc; simpl.
  - by rewrite app_nil_r.
  - rewrite IH. simpl. by rewrite <- app_assoc.
Qed.

Lemma parsedDoc_definitions (operationFiles : list OperationFile) :
  GraphQL.definitions (readGraphQLOperationsSourceFiles_parsedDoc operationFiles)
  = concat ((λ file, definitions_of file) <$> operationFiles).
Proof.
  unfold readGraphQLOperationsSourceFiles_parsedDoc. by rewrite parsedDoc_fold.
Qed.

Lemma parsedDoc_kind (operationFiles : list OperationFile) :
  GraphQL.kind (readGraphQLOperationsSourceFiles_parsedDoc operationFiles)
  = GraphQL.Kind_DOCUMENT.
Proof.
  unfold readGraphQLOperationsSourceFiles_parsedDoc.
  destruct operationFiles as [|file rest] using rev_ind; [reflexivity|].
  by rewrite fold_left_app.
Qed.

Lemma concat_definitions_length (operationFiles : list OperationFile) :
  List.length (concat ((λ file, definitions_of file) <$> operationFiles))
  = sum_list_with (λ file, List.length (definitions_of file)) operationFiles.
Proof.
  induction operationFiles as [|file rest IH]; [reflexivity|].
  rewrite fmap_cons. cbn [concat sum_list_with].
  by rewrite length_app, IH.
Qed.

Lemma forEach_discovers operationsPath filenames :
  ∀ operationFiles found st,
    Forall2 (discovered (files st) operationsPath)
            (List.filter operation_file_regex_test filenames) found →
    readGraphQLOperationsSourceFiles_forEach operationsPath filenames operationFiles st
    = (st, inr (operationFiles ++ found)).
Proof.
  induction filenames as [|filename rest IH]; intros operationFiles found st; simpl.
  - intros Hnil%Forall2_nil_inv_l. subst. by rewrite app_nil_r.
  - destruct (operation_file_regex_test filename).
    + intros (file & found' & Hfile & Hrest & ->)%Forall2_cons_inv_l.
      destruct Hfile as (Hname & Hpath & Hread & Hparse).
      erewrite bind_returns; [|unfold call_fs; rewrite Hread; reflexivity].
      erewrite bind_returns; [|unfold lift; rewrite Hparse; reflexivity].
      rewrite (IH _ found' st Hrest). rewrite <- app_assoc. simpl.
      destruct file as [name p content parsed]; simpl in *. by subst.
    + apply IH.
Qed.

(** C4: when the operations directory can be listed and every accepted
    file in it can be read and parsed, the function returns the printed
    form of one document whose definitions are those of the files,
    concatenated in the order of the listing; their number is the sum of
    the files' numbers of definitions. *)
Theorem operation_definitions_concatenated (netlifyGraphConfig : jsobject)
    (st st1 : State) (segments filenames : list string)
    (operationFiles : list OperationFile) :
  ensureNetlifyGraphPath netlifyGraphConfig st = (st1, inr tt) →
  js_spread (obj_get netlifyGraphConfig "graphQLOperationsSourceDirectory")
    = inr segments →
  fs.readdirSync (files st1) (path.resolve segments) = inr filenames →
  Forall2 (discovered (files st1) (path.resolve segments))
          (List.filter operation_file_regex_test filenames) operationFiles →
  ∃ parsedDoc st2,
    readGraphQLOperationsSourceFiles netlifyGraphConfig st
      = (st2, inr (GraphQL.print parsedDoc))
    ∧ GraphQL.kind parsedDoc = GraphQL.Kind_DOCUMENT
    ∧ GraphQL.definitions parsedDoc
      = concat ((λ file, definitions_of file) <$> operationFiles)
    ∧ List.length (GraphQL.definitions parsedDoc)
      = sum_list_with (λ file, List.length (definitions_of file)) operationFiles.
Proof.
  intros Hensure Hspread Hreaddir Hfiles.
  exists (readGraphQLOperationsSourceFiles_parsedDoc operationFiles).
  eexists. split; [|split; [|split]].
  - unfold readGraphQLOperationsSourceFiles.
    erewrite bind_returns by exact Hensure.
    erewrite bind_returns; [|unfold lift; rewrite Hspread; reflexivity].
    erewrite bind_returns; [|unfold call_fs; rewrite Hreaddir; reflexivity].
    erewrite bind_returns by apply emit_run.
    erewrite bind_returns by apply emit_run.
    erewrite bind_returns; [|by apply forEach_discovers].
    erewrite bind_returns by apply emit_run.
    reflexivity.
  - apply parsedDoc_kind.
  - apply parsedDoc_definitions.
  - rewrite parsedDoc_definitions. apply concat_definitions_length.
Qed.

(** *** The phases of a run *)

Lemma onPreBuild_with_token constants netlifyToken st :
  token_given netlifyToken →
  onPreBuild constants st
  = try_catch (onPreBuild_try constants netlifyToken)
              (λ error, failBuild generalFailureMessage (ErrorInfo error)) st.
Proof.
  intros [Henv Hne]. unfold onPreBuild. rewrite Henv.
  cbv zeta. cbn [from_option].
  by rewrite (js_truthy_string _ Hne).
Qed.

(** C2: without the persistence token in the environment the handler
    only warns and shows a build status; it returns normally, makes no
    remote call and does not call the failure API. *)
Theorem missing_token_skips (constants : BuildConstants) (files0 : fs.FS) :
  process.env !! "NETLIFY_GRAPH_PERSIST_QUERY_TOKEN" = None →
  ∃ final,
    run_onPreBuild constants files0 = (final, inr tt)
    ∧ files final = files0
    ∧ trace final = [ console_warn missingTokenWarning;
                      status_show missingTokenTitle missingTokenSummary ]
    ∧ Forall (λ ev, is_remote_call ev = false ∧ is_failBuild ev = false) (trace final).
Proof.
  intros Henv. eexists. unfold run_onPreBuild, onPreBuild. rewrite Henv.
  split; [reflexivity|]. split; [reflexivity|]. split; [reflexivity|].
  repeat constructor.
Qed.

(** C6: when [netlifyGraph.json] cannot be read or parsed, the failure
    API is called with the hint to run [netlify graph:init] and commit the
    file, and with the error that occurred; no schema is created. *)
Theorem json_failure_fails_build (constants : BuildConstants) (files0 : fs.FS)
    (netlifyToken : string) (netlifyGraphConfig : jsobject) (error : js_error) :
  token_given netlifyToken →
  config_resolved constants files0 netlifyGraphConfig →
  (fs.readFileSync files0 "netlifyGraph.json" = inl error
   ∨ ∃ text, fs.readFileSync files0 "netlifyGraph.json" = inr text
             ∧ JSON.parse text = inl error) →
  ∃ final,
    run_onPreBuild constants files0 = (final, inl (BuildError generalFailureMessage))
    ∧ files final = files0
    ∧ trace final
      = [ call_resolveConfig (CONFIG_PATH constants);
          build_failBuild jsonFailureMessage (ErrorInfo error);
          build_failBuild generalFailureMessage
                          (ErrorInfo (BuildError jsonFailureMessage)) ].
Proof.
  intros Htoken (resolvedConfig & Hresolve & Hconfig) Hjson.
  unfold run_onPreBuild. rewrite (onPreBuild_with_token _ _ _ Htoken).
  eexists. split; [|split]; cycle 1; [shelve..|].
  erewrite try_catch_throws; [apply failBuild_run|].
  unfold onPreBuild_try.
  erewrite bind_returns by apply emit_run.
  erewrite bind_returns by (unfold call_fs; simpl; rewrite Hresolve; reflexivity).
  erewrite bind_returns by (unfold call_fs; simpl; rewrite Hconfig; reflexivity).
  erewrite bind_throws; [reflexivity|].
  erewrite try_catch_throws; [apply failBuild_run|].
  destruct Hjson as [Hread | (text & Hread & Hparse)].
  - erewrite bind_throws; [reflexivity|].
    unfold call_fs; simpl. rewrite Hread. reflexivity.
  - erewrite bind_returns by (unfold call_fs; simpl; rewrite Hread; reflexivity).
    unfold lift. rewrite Hparse. reflexivity.
  Unshelve. all: reflexivity.
Qed.

(** *** From the token to the schema file *)

Lemma schema_read_trace constants netlifyToken files0 netlifyGraphConfig
    newSchemaId schemaString st :
  schema_read constants netlifyToken files0 netlifyGraphConfig newSchemaId
              schemaString st →
  Forall harmless (trace st).
Proof.
  intros (_ & events & Hcreated & Hread).
  destruct Hcreated as (text & json & services & result & _ & _ & _ & _ & _ & ->).
  rewrite (silent_readGraphQLSchemaFile _ _ _ _ Hread). simpl.
  repeat constructor.
Qed.

(** Runs the [try] block up to the text of the schema file. *)
Ltac reach_schema H :=
  let resolvedConfig := fresh "resolvedConfig" in
  let Hresolve := fresh "Hresolve" in
  let Hconfig := fresh "Hconfig" in
  let events := fresh "events" in
  let Hread := fresh "Hread" in
  let Hjson := fresh "Hjson" in
  let Hparse := fresh "Hparse" in
  let Hmember := fresh "Hmember" in
  let Hcreate := fresh "Hcreate" in
  let Hid := fresh "Hid" in
  destruct H as ((resolvedConfig & Hresolve & Hconfig) & events
                 & (? & ? & ? & ? & Hjson & Hparse & Hmember & Hcreate & Hid & ->)
                 & Hread);
  unfold onPreBuild_try;
  erewrite bind_returns by apply emit_run;
  erewrite bind_returns by (unfold call_fs; simpl; rewrite Hresolve; reflexivity);
  erewrite bind_returns by (unfold call_fs; simpl; rewrite Hconfig; reflexivity);
  erewrite bind_returns by
    (erewrite try_catch_returns; [reflexivity|];
     erewrite bind_returns by (unfold call_fs; simpl; rewrite Hjson; reflexivity);
     unfold lift; rewrite Hparse; reflexivity);
  erewrite bind_returns by apply emit_run;
  erewrite bind_returns by (unfold lift; rewrite Hmember; reflexivity);
  erewrite bind_returns by apply emit_run;
  erewrite bind_returns by (unfold lift; rewrite Hcreate; reflexivity);
  erewrite bind_returns by apply emit_run;
  erewrite bind_returns by (unfold lift; rewrite Hid; reflexivity);
  erewrite bind_returns by exact Hread.

(** C5, as amended: when the schema text does not build, the handler
    writes two messages to the error console and returns normally. The
    failure API is not called and nothing is generated; the remote schema
    had been created before. *)
Theorem schema_failure_skips (constants : BuildConstants) (files0 : fs.FS)
    (netlifyToken : string) (netlifyGraphConfig : jsobject)
    (newSchemaId : option string) (schemaString : string) (st : State)
    (buildSchemaError : js_error) :
  token_given netlifyToken →
  schema_read constants netlifyToken files0 netlifyGraphConfig newSchemaId
              schemaString st →
  GraphQL.buildSchema schemaString = inl buildSchemaError →
  ∃ final,
    run_onPreBuild constants files0 = (final, inr tt)
    ∧ files final = files st
    ∧ trace final
      = trace st
        ++ [ console_error ("Error parsing schema: "
                            +:+ js_error_to_string buildSchemaError);
             console_error "Failed to parse Netlify GraphQL schema" ]
    ∧ Forall harmless (trace final).
Proof.
  intros Htoken Hschema Hbuild.
  pose proof (schema_read_trace _ _ _ _ _ _ _ Hschema) as Htrace.
  unfold run_onPreBuild. rewrite (onPreBuild_with_token _ _ _ Htoken).
  eexists. split; [|split; [|split]]; cycle 1; [shelve..|].
  erewrite try_catch_returns; [reflexivity|].
  reach_schema Hschema.
  erewrite bind_returns; cycle 1.
  { erewrite try_catch_throws; cycle 1.
    - erewrite bind_throws; [reflexivity|]. unfold lift. rewrite Hbuild. reflexivity.
    - erewrite bind_returns by apply emit_run. reflexivity. }
  reflexivity.
  Unshelve.
  + reflexivity.
  + simpl. by rewrite <- app_assoc.
  + simpl. rewrite <- app_assoc. apply Forall_app. split; [exact Htrace|].
    repeat constructor.
Qed.

(** *** The legacy operations file *)

(** C3, as amended: when the legacy operations file is there and is not
    empty, the failure API is called with the instruction to migrate.
    Nothing is assumed about the operations directory, which is not even
    read. *)
Theorem nonempty_legacy_file_fails_build (constants : BuildConstants)
    (files0 : fs.FS) (netlifyToken : string) (netlifyGraphConfig : jsobject)
    (newSchemaId : option string) (schemaString : string)
    (schema : GraphQL.Schema) (st st1 : State) (source : string) :
  token_given netlifyToken →
  schema_read constants netlifyToken files0 netlifyGraphConfig newSchemaId
              schemaString st →
  GraphQL.buildSchema schemaString = inr schema →
  readLegacyGraphQLOperationsSourceFile netlifyGraphConfig st
    = (st1, inr (Some source)) →
  source ≠ "" →
  ∃ final,
    run_onPreBuild constants files0 = (final, inl (BuildError generalFailureMessage))
    ∧ files final = files st1
    ∧ trace final
      = trace st1
        ++ [ build_failBuild legacyFailureMessage NoInfo;
             build_failBuild generalFailureMessage
                             (ErrorInfo (BuildError legacyFailureMessage)) ]
    ∧ build_failBuild legacyFailureMessage NoInfo ∈ trace final.
Proof.
  intros Htoken Hschema Hbuild Hlegacy Hsource.
  unfold run_onPreBuild. rewrite (onPreBuild_with_token _ _ _ Htoken).
  eexists. split; [|split; [|split]]; cycle 1; [shelve..|].
  erewrite try_catch_throws; [apply failBuild_run|].
  reach_schema Hschema.
  erewrite bind_returns; cycle 1.
  { erewrite try_catch_returns; [reflexivity|].
    erewrite bind_returns by (unfold lift; rewrite Hbuild; reflexivity).
    reflexivity. }
  cbv iota beta.
  erewrite bind_returns by exact Hlegacy.
  erewrite bind_throws; [reflexivity|].
  cbn [from_option]. rewrite (js_truthy_string _ Hsource).
  apply failBuild_run.
  Unshelve.
  + reflexivity.
  + simpl. by rewrite <- app_assoc.
  + simpl. rewrite <- app_assoc. apply elem_of_app. right. left.
Qed.

(** *** An empty operations library *)

Lemma only_logs_silent {A} (m : M A) : silent m → only_logs m.
Proof.
  intros Hm st st' r Hrun. exists []. rewrite app_nil_r. split; [|constructor].
  by eapply Hm.
Qed.

Lemma only_logs_emit args : only_logs (emit (console_log args)).
Proof.
  intros st st' r [= <- _]. exists [console_log args]. split; [reflexivity|].
  by repeat constructor.
Qed.

Lemma only_logs_bind {A B} (m : M A) (f : A → M B) :
  only_logs m → (∀ a, only_logs (f a)) → only_logs (m ≫= f).
Proof.
  intros Hm Hf st st' r. unfold mbind, M_bind.
  destruct (m st) as [st1 [e|a]] eqn:E.
  - intros [= <- _]. by eapply Hm.
  - intros Hrun. destruct (Hm _ _ _ E) as (logs1 & E1 & H1).
    destruct (Hf a _ _ _ Hrun) as (logs2 & E2 & H2).
    exists (logs1 ++ logs2). rewrite E2, E1, app_assoc. split; [reflexivity|].
    by apply Forall_app.
Qed.

Lemma silent_forEach operationsPath filenames :
  ∀ operationFiles,
    silent (readGraphQLOperationsSourceFiles_forEach operationsPath filenames
              operationFiles).
Proof.
  induction filenames as [|filename rest IH]; intros operationFiles; simpl.
  - apply silent_ret.
  - destruct (operation_file_regex_test filename); [|apply IH].
    apply silent_bind; [apply silent_call_fs|]. intros content.
    apply silent_bind; [apply silent_lift|]. intros parsed. apply IH.
Qed.

Lemma only_logs_readGraphQLOperationsSourceFiles cfg :
  only_logs (readGraphQLOperationsSourceFiles cfg).
Proof.
  apply only_logs_bind;
    [apply only_logs_silent, silent_ensureNetlifyGraphPath|]. intros _.
  apply only_logs_bind; [apply only_logs_silent, silent_lift|]. intros segments.
  apply only_logs_bind; [apply only_logs_silent, silent_call_fs|]. intros filenames.
  apply only_logs_bind; [apply only_logs_emit|]. intros _.
  apply only_logs_bind; [apply only_logs_emit|]. intros _.
  apply only_logs_bind; [apply only_logs_silent, silent_forEach|]. intros found.
  apply only_logs_bind; [apply only_logs_emit|]. intros _.
  apply only_logs_silent, silent_ret.
Qed.

(** C8: when the printed operations document is empty once trimmed, the
    handler warns and returns normally; neither the failure API nor the
    generator is called in the run. That the run reads the operations at
    all means that the legacy file is absent or empty. *)
Theorem empty_library_skips (constants : BuildConstants) (files0 : fs.FS)
    (netlifyToken : string) (netlifyGraphConfig : jsobject)
    (newSchemaId : option string) (schemaString : string)
    (schema : GraphQL.Schema) (st st1 st2 : State)
    (legacySourceGraphQLFile : option string) (currentOperationsDoc : string) :
  token_given netlifyToken →
  schema_read constants netlifyToken files0 netlifyGraphConfig newSchemaId
              schemaString st →
  GraphQL.buildSchema schemaString = inr schema →
  readLegacyGraphQLOperationsSourceFile netlifyGraphConfig st
    = (st1, inr legacySourceGraphQLFile) →
  js_truthy (from_option JString JUndefined legacySourceGraphQLFile) = false →
  readGraphQLOperationsSourceFiles netlifyGraphConfig st1
    = (st2, inr currentOperationsDoc) →
  String.length (js_trim currentOperationsDoc) = 0 →
  ∃ final,
    run_onPreBuild constants files0 = (final, inr tt)
    ∧ files final = files st2
    ∧ trace final = trace st2 ++ [console_warn emptyLibraryWarning]
    ∧ Forall harmless (trace final).
Proof.
  intros Htoken Hschema Hbuild Hlegacy Hfalsy Hdoc Hempty.
  pose proof (schema_read_trace _ _ _ _ _ _ _ Hschema) as Htrace.
  rewrite <- (silent_readLegacyGraphQLOperationsSourceFile _ _ _ _ Hlegacy) in Htrace.
  destruct (only_logs_readGraphQLOperationsSourceFiles _ _ _ _ Hdoc)
    as (logs & Hlogs & Hquiet).
  unfold run_onPreBuild. rewrite (onPreBuild_with_token _ _ _ Htoken).
  eexists. split; [|split; [|split]]; cycle 1; [shelve..|].
  erewrite try_catch_returns; [reflexivity|].
  reach_schema Hschema.
  erewrite bind_returns; cycle 1.
  { erewrite try_catch_returns; [reflexivity|].
    erewrite bind_returns by (unfold lift; rewrite Hbuild; reflexivity).
    reflexivity. }
  cbv iota beta.
  erewrite bind_returns by exact Hlegacy.
  erewrite bind_returns by (rewrite Hfalsy; reflexivity).
  erewrite bind_returns by exact Hdoc.
  rewrite Hempty. apply emit_run.
  Unshelve.
  + reflexivity.
  + reflexivity.
  + simpl. rewrite Hlogs. repeat (apply Forall_app; split); [exact Htrace|..].
    * eapply Forall_impl; [exact Hquiet|]. by intros [] [=].
    * by repeat constructor.
Qed.
End handler_properties.

(** * Further properties *)

(** ** Paths and strings *)

(** X1: the filter keeps exactly the segments that are not empty, in their
    order; filtering twice changes nothing, a path without empty segments
    is left as it is, and the filter goes through concatenation. *)
Theorem filterRelativePathItems_keeps_nonempty (items more : list string) :
  (∀ part, part ∈ filterRelativePathItems items ↔ part ∈ items ∧ part ≠ "")
  ∧ filterRelativePathItems items `sublist_of` items
  ∧ filterRelativePathItems (filterRelativePathItems items)
    = filterRelativePathItems items
  ∧ (filterRelativePathItems items = items ↔ no_empty_segments items)
  ∧ filterRelativePathItems (items ++ more)
    = filterRelativePathItems items ++ filterRelativePathItems more.
Proof.
  unfold filterRelativePathItems, no_empty_segments.
  split; [|split; [|split; [|split; [split|]]]].
  - intros part. rewrite !list_elem_of_In, filter_In. split.
    + intros [Hin Hne]. split; [exact Hin|]. intros ->. discriminate Hne.
    + intros [Hin Hne]. split; [exact Hin|]. destruct part; [done|reflexivity].
  - induction items as [|part items IH]; simpl; [constructor|].
    destruct (negb _); [by apply sublist_skip|by apply sublist_cons].
  - induction items as [|part items IH]; simpl; [reflexivity|].
    destruct (negb (String.eqb part "")) eqn:E; simpl; [|exact IH].
    by rewrite E, IH.
  - intros Heq. rewrite <- Heq. apply filterRelativePathItems_no_empty.
  - induction 1 as [|part items Hpart _ IH]; simpl; [reflexivity|].
    destruct part; [done|]. simpl. by rewrite IH.
  - apply List.filter_app.
Qed.

Lemma js_split_not_nil sep s : js_split sep s ≠ [].
Proof.
  destruct s as [|c rest]; simpl; [done|].
  destruct (Ascii.eqb c sep); [done|]. by destruct (js_split sep rest).
Qed.

Lemma js_join_cons sep x y rest :
  js_join sep (x :: y :: rest) = x +:+ sep +:+ js_join sep (y :: rest).
Proof. reflexivity. Qed.

(** X2: splitting a string on the path separator and joining the segments
    with the separator gives the string back; the split is never empty, it
    has one segment more than the string has separators, and no segment
    holds the separator. *)
Theorem js_split_join_round_trip (sep : ascii) (s : string) :
  js_join (String sep EmptyString) (js_split sep s) = s
  ∧ js_split sep s ≠ []
  ∧ List.length (js_split sep s) = S (count_char sep s)
  ∧ Forall (λ segment, sep ∉ chars_of segment) (js_split sep s).
Proof.
  split; [|split; [apply js_split_not_nil|split]].
  - induction s as [|c rest IH]; simpl; [reflexivity|].
    pose proof (js_split_not_nil sep rest) as Hne.
    destruct (Ascii.eqb c sep) eqn:E.
    + apply Ascii.eqb_eq in E as ->.
      destruct (js_split sep rest) as [|w ws]; [done|].
      rewrite js_join_cons, IH. reflexivity.
    + destruct (js_split sep rest) as [|w ws]; [done|].
      destruct ws as [|w' ws]; simpl in *; by rewrite <- IH.
  - induction s as [|c rest IH]; simpl; [reflexivity|].
    pose proof (js_split_not_nil sep rest) as Hne.
    destruct (Ascii.eqb c sep); simpl; [by rewrite IH|].
    destruct (js_split sep rest) as [|w ws]; [done|]. simpl in *. exact IH.
  - induction s as [|c rest IH]; simpl.
    + constructor; [|constructor]. unfold chars_of. simpl. apply not_elem_of_nil.
    + pose proof (js_split_not_nil sep rest) as Hne.
      destruct (Ascii.eqb c sep) eqn:E.
      * constructor; [|exact IH]. unfold chars_of. simpl. apply not_elem_of_nil.
      * destruct (js_split sep rest) as [|w ws]; [done|].
        apply Forall_cons in IH as [Hw Hws]. constructor; [|exact Hws].
        unfold chars_of in *. simpl. intros [->|Hin]%elem_of_cons; [|done].
        by rewrite Ascii.eqb_refl in E.
Qed.

Lemma string_length_app (a b : string) :
  String.length (a +:+ b) = String.length a + String.length b.
Proof. induction a as [|c a IH]; simpl; [reflexivity|]. by rewrite IH. Qed.

Lemma starts_with_ci_spec pattern s :
  starts_with_ci pattern s = true
  ↔ ∃ matched rest, s = matched +:+ rest ∧ js_lower matched = js_lower pattern.
Proof.
  revert s. induction pattern as [|p pattern IH]; intros s; simpl.
  - split; [|done]. intros _. by exists EmptyString, s.
  - destruct s as [|c s].
    + split; [done|]. intros (matched & rest & Hs & Hm).
      destruct matched; discriminate.
    + rewrite andb_true_iff, IH, Ascii.eqb_eq. split.
      * intros (Hc & matched & rest & -> & Hm).
        exists (String c matched), rest. simpl. by rewrite Hm, Hc.
      * intros (matched & rest & Hs & Hm).
        destruct matched as [|m matched]; [discriminate|].
        simpl in Hs, Hm. injection Hs as -> ->. injection Hm as Hc Hm.
        split; [done|]. by exists matched, rest.
Qed.

Lemma contains_ci_spec pattern s :
  contains_ci pattern s = true
  ↔ ∃ before matched rest,
      s = before +:+ matched +:+ rest ∧ js_lower matched = js_lower pattern.
Proof.
  induction s as [|c s IH]; simpl; rewrite orb_true_iff, starts_with_ci_spec.
  - split.
    + intros [(matched & rest & Hs & Hm) | Hfalse]; [|done].
      by exists EmptyString, matched, rest.
    + intros (before & matched & rest & Hs & Hm). left.
      destruct before; [|discriminate]. by exists matched, rest.
  - rewrite IH. split.
    + intros [(matched & rest & Hs & Hm) | (before & matched & rest & Hs & Hm)].
      * by exists EmptyString, matched, rest.
      * exists (String c before), matched, rest. simpl. by rewrite Hs.
    + intros (before & matched & rest & Hs & Hm).
      destruct before as [|b before]; simpl in Hs.
      * left. by exists matched, rest.
      * right. injection Hs as -> ->. by exists before, matched, rest.
Qed.

(** X3: the pattern that selects the operation files accepts a name exactly
    when [.graphq] occurs in it, in any letter case and at any place: the
    names ending in [.graphql], and also those that go on after it. *)
Theorem operation_file_regex_test_accepts (filename : string) :
  (operation_file_regex_test filename = true
   ↔ ∃ before matched rest,
       filename = before +:+ matched +:+ rest ∧ js_lower matched = ".graphq")
  ∧ (∀ before rest, operation_file_regex_test (before +:+ ".graphql" +:+ rest) = true)
  ∧ (String.length filename < 7 → operation_file_regex_test filename = false).
Proof.
  unfold operation_file_regex_test. split; [apply contains_ci_spec|split].
  - intros before rest. apply contains_ci_spec.
    exists before, ".graphq", ("l" +:+ rest). split; [|reflexivity].
    f_equal.
  - intros Hshort. destruct (contains_ci ".graphq" filename) eqn:E; [|reflexivity].
    apply contains_ci_spec in E as (before & matched & rest & -> & Hm).
    assert (String.length matched = 7) as Hlen.
    { clear Hshort. do 8 (destruct matched as [|? matched]; try discriminate Hm).
      reflexivity. }
    rewrite !string_length_app in Hshort. lia.
Qed.







(** ** The resolved configuration, further *)

Lemma js_truthy_spread v : js_truthy v = true → ∃ segments, js_spread v = inr segments.
Proof. destruct v; [discriminate|eauto..]. Qed.

Lemma js_or_truthy_r a b : js_truthy b = true → js_truthy (js_or a b) = true.
Proof. intros Hb. unfold js_or. by destruct (js_truthy a) eqn:E. Qed.

Section resolution_further.
Context {Lib : NetlifyGraph.Constants} {Path : path.Api} {Fs : fs.Api}
        {Proc : process.Env} {Netlify : netlify.Api}.

Lemma makeDefaultFrameworkConfig_throws id context e :
  makeDefaultFrameworkConfig id context = inl e
  ↔ id = Some "remix"
    ∧ js_spread (obj_get NetlifyGraph.defaultNetlifyGraphConfig "netlifyGraphPath") = inl e.
Proof.
  assert (Hremix : makeDefaultRemixNetlifyGraphConfig context = inl e
                   ↔ js_spread (obj_get NetlifyGraph.defaultNetlifyGraphConfig
                                        "netlifyGraphPath") = inl e).
  { unfold makeDefaultRemixNetlifyGraphConfig.
    destruct (js_spread _); split; congruence. }
  destruct id as [id|]; [|split; [discriminate|by intros [? _]]].
  destruct (decide (id = "remix")) as [->|Hne].
  - change (makeDefaultFrameworkConfig (Some "remix") context)
      with (makeDefaultRemixNetlifyGraphConfig context).
    rewrite Hremix. split; [done|by intros [_ ?]].
  - split; [|intros [[= ->] _]; done].
    unfold makeDefaultFrameworkConfig, defaultFrameworkLookup. simpl.
    destruct (decide (id = "next")) as [->|Hnext]; [discriminate|].
    rewrite lookup_insert_ne by done. rewrite lookup_insert_ne by done.
    destruct (decide (id = "default")) as [->|Hdefault]; [discriminate|].
    rewrite lookup_insert_ne by done. discriminate.
Qed.

(** The function returns the configuration built from what it read. *)
Lemma getNetlifyGraphConfig_inv config files fullConfig :
  getNetlifyGraphConfig config files = inr fullConfig →
  ∃ frameworks defaults,
    netlify.listFrameworks files = inr frameworks
    ∧ makeDefaultFrameworkConfig (head frameworks) (getNetlifyGraphConfig_context config)
      = inr defaults
    ∧ fullConfig = getNetlifyGraphConfig_fullConfig config (head frameworks) defaults
                     (fs.existsSync files "tsconfig.json").
Proof.
  unfold getNetlifyGraphConfig.
  destruct (netlify.listFrameworks files) as [e|frameworks]; [discriminate|]. simpl.
  destruct (makeDefaultFrameworkConfig _ _) as [e|defaults] eqn:Hmake;
    [discriminate|]. simpl.
  intros [= <-]. by exists frameworks, defaults.
Qed.

(** X5: for a [graph] table whose entries are strings, the function throws
    exactly when the framework detection throws, or when the detected
    framework is Remix and the library's default [netlifyGraphPath] cannot
    be spread; the error is that one. *)
Theorem getNetlifyGraphConfig_throws_iff (config : BuildConfig) (files : fs.FS)
    (e : js_error) :
  getNetlifyGraphConfig config files = inl e
  ↔ netlify.listFrameworks files = inl e
    ∨ ∃ frameworks,
        netlify.listFrameworks files = inr frameworks
        ∧ head frameworks = Some "remix"
        ∧ js_spread (obj_get NetlifyGraph.defaultNetlifyGraphConfig "netlifyGraphPath")
          = inl e.
Proof.
  unfold getNetlifyGraphConfig.
  destruct (netlify.listFrameworks files) as [e'|frameworks]; simpl.
  - split.
    + intros [= ->]. by left.
    + intros [[= ->] | (frameworks & Hlist & _)]; [reflexivity|discriminate].
  - destruct (makeDefaultFrameworkConfig _ _) as [e'|defaults] eqn:Hmake; simpl.
    + apply makeDefaultFrameworkConfig_throws in Hmake as [Hid Hspread]. split.
      * intros [= ->]. right. by exists frameworks.
      * intros [Hlist | (frameworks' & _ & _ & Hspread')]; [discriminate|].
        congruence.
    + split; [discriminate|].
      intros [Hlist | (frameworks' & [= <-] & Hid & Hspread)]; [discriminate|].
      assert (makeDefaultFrameworkConfig (head frameworks)
                (getNetlifyGraphConfig_context config) = inl e) as Hthrows
        by (by apply makeDefaultFrameworkConfig_throws).
      congruence.
Qed.

(** X6: a property of the result that is not one of the resolved settings
    is the one of the base configuration: the user's entry as it is
    written, else the library's default. The operations directory is such a
    property, so the directory that the framework's factory computes is
    never used. *)
Theorem unresolved_settings_pass_through (config : BuildConfig) (files : fs.FS)
    (fullConfig : jsobject) (k : string) :
  getNetlifyGraphConfig config files = inr fullConfig →
  k ∉ resolved_settings →
  fullConfig !! k = getNetlifyGraphConfig_baseConfig config !! k
  ∧ fullConfig !! "graphQLOperationsSourceDirectory"
    = match userSpecifiedConfig config !! "graphQLOperationsSourceDirectory" with
      | Some s => Some (JString s)
      | None => NetlifyGraph.defaultNetlifyGraphConfig !! "graphQLOperationsSourceDirectory"
      end.
Proof.
  intros (frameworks & defaults & _ & _ & ->)%getNetlifyGraphConfig_inv Hk.
  assert (Hpass : ∀ k', k' ∉ resolved_settings →
            getNetlifyGraphConfig_fullConfig config (head frameworks) defaults
              (fs.existsSync files "tsconfig.json") !! k'
            = getNetlifyGraphConfig_baseConfig config !! k').
  { intros k' Hk'. unfold getNetlifyGraphConfig_fullConfig.
    unfold obj_spread at 1. apply lookup_union_r.
    apply not_elem_of_list_to_map_1. exact Hk'. }
  split; [by apply Hpass|].
  rewrite Hpass.
  - unfold getNetlifyGraphConfig_baseConfig, obj_spread.
    destruct (userSpecifiedConfig config !! _) as [s|] eqn:Hu.
    + apply lookup_union_Some_l. by rewrite lookup_fmap, Hu.
    + apply lookup_union_r. by rewrite lookup_fmap, Hu.
  - unfold resolved_settings. intros Hin.
    repeat (apply elem_of_cons in Hin as [Hin|Hin]; [discriminate|]).
    by apply elem_of_nil in Hin.
Qed.

(** X7: for a [graph] table whose entries are strings, and whatever the
    library's defaults, the resolved language is a non-empty string, and
    the framework and the runtime target are truthy. *)
Theorem resolved_config_always_names (config : BuildConfig) (files : fs.FS)
    (fullConfig : jsobject) :
  getNetlifyGraphConfig config files = inr fullConfig →
  (∃ language, fullConfig !! "language" = Some (JString language) ∧ language ≠ "")
  ∧ js_truthy (obj_get fullConfig "framework") = true
  ∧ js_truthy (obj_get fullConfig "runtimeTargetEnv") = true.
Proof.
  intros (frameworks & defaults & _ & _ & ->)%getNetlifyGraphConfig_inv.
  split; [|split].
  - rewrite fullConfig_language. unfold user_setting.
    destruct (userSpecifiedConfig config !! "language") as [s|]; simpl.
    + destruct s as [|c s]; [|by exists (String c s)].
      unfold js_or. simpl. destruct (fs.existsSync _ _); eauto.
    + unfold js_or. simpl. destruct (fs.existsSync _ _); eauto.
  - unfold obj_get, getNetlifyGraphConfig_fullConfig.
    unfold obj_spread at 1.
    erewrite lookup_union_Some_l by reflexivity. simpl. by apply js_or_truthy_r.
  - unfold obj_get, getNetlifyGraphConfig_fullConfig.
    unfold obj_spread at 1.
    erewrite lookup_union_Some_l by reflexivity. simpl. by apply js_or_truthy_r.
Qed.
Lemma defaultConfig_iterable config defaults k :
  (∃ v, defaults !! k = Some v ∧ js_truthy v = true) →
  ∃ segments,
    js_spread (obj_get (obj_spread (obj_spread NetlifyGraph.defaultNetlifyGraphConfig defaults)
                                   (JString <$> userSpecifiedConfig config)) k)
    = inr segments.
Proof.
  intros (v & Hv & Htrue).
  destruct (userSpecifiedConfig config !! k) as [s|] eqn:Hu.
  - erewrite obj_get_spread_later by (by rewrite lookup_fmap, Hu). simpl. eauto.
  - rewrite obj_get_spread_earlier by (by rewrite lookup_fmap, Hu).
    rewrite (obj_get_spread_later _ _ _ _ Hv). by apply js_truthy_spread.
Qed.

Lemma js_or_iterable a b :
  (∃ segments, js_spread b = inr segments) →
  ∃ segments, js_spread (js_or a b) = inr segments.
Proof.
  intros Hb. unfold js_or. destruct (js_truthy a) eqn:E; [|exact Hb].
  by apply js_truthy_spread.
Qed.

(** X8: for a [graph] table whose entries are strings, the path settings
    of a resolved configuration that the handler spreads are never
    [undefined]: each is an array, or the user's empty string. *)
Theorem resolved_paths_are_iterable (config : BuildConfig) (files : fs.FS)
    (fullConfig : jsobject) (k : string) :
  getNetlifyGraphConfig config files = inr fullConfig →
  k ∈ spread_settings →
  ∃ segments, js_spread (obj_get fullConfig k) = inr segments.
Proof.
  intros (frameworks & defaults & _ & Hmake & ->)%getNetlifyGraphConfig_inv Hk.
  destruct (factory_keys _ _ _ Hmake) as (Hfw & _).
  assert (Hdefault : ∀ k', k' ∈ framework_settings →
            ∃ segments,
              js_spread (obj_get (obj_spread (obj_spread NetlifyGraph.defaultNetlifyGraphConfig
                                                         defaults)
                                             (JString <$> userSpecifiedConfig config)) k')
              = inr segments).
  { intros k' Hk'. apply defaultConfig_iterable, Hfw, Hk'. }
  unfold obj_get at 1, getNetlifyGraphConfig_fullConfig. unfold obj_spread at 1.
  unfold spread_settings in Hk. each_setting Hk;
    (erewrite lookup_union_Some_l by reflexivity); cbn [default];
    repeat apply js_or_iterable; apply Hdefault; unfold framework_settings.
  - left.
  - do 2 right; left.
  - do 3 right; left.
  - do 4 right; left.
  - do 5 right; left.
Qed.
End resolution_further.

(** ** The handler, further *)

Section handler_further.
Context {Lib : NetlifyGraph.Constants} {Path : path.Api} {Fs : fs.Api}
        {Proc : process.Env} {Json : JSON.Api} {Gql : GraphQL.Api}
        {Netlify : netlify.Api} {OneGraph : OneGraphClient.Api}
        {Gen : Generator.Api}.

(** *** Steps of the [try] block *)

Ltac step_emit := erewrite bind_returns by apply emit_run.
Ltac step_lift H := erewrite bind_returns by (unfold lift; rewrite H; reflexivity).
Ltac step_call H :=
  erewrite bind_returns by (unfold call_fs; simpl; rewrite H; reflexivity).
Ltac step_run H := erewrite bind_returns by exact H.
Ltac throw_lift H := erewrite bind_throws; [reflexivity|]; unfold lift; rewrite H; reflexivity.

(** Runs the [try] block up to the state file. *)
Ltac run_to_state_file Hresolve Hconfig :=
  unfold onPreBuild_try;
  step_emit; step_call Hresolve; step_call Hconfig.

(** Runs the [try] block up to the text of the schema file. *)
Ltac run_to_schema_file H :=
  let resolvedConfig := fresh "resolvedConfig" in
  let Hresolve := fresh "Hresolve" in
  let Hconfig := fresh "Hconfig" in
  let Hread := fresh "Hread" in
  let Hjson := fresh "Hjson" in
  let Hparse := fresh "Hparse" in
  let Hmember := fresh "Hmember" in
  let Hcreate := fresh "Hcreate" in
  let Hid := fresh "Hid" in
  destruct H as ((resolvedConfig & Hresolve & Hconfig) & ?
                 & (? & ? & ? & ? & Hjson & Hparse & Hmember & Hcreate & Hid & ->)
                 & Hread);
  run_to_state_file Hresolve Hconfig;
  erewrite bind_returns by
    (erewrite try_catch_returns; [reflexivity|];
     erewrite bind_returns by (unfold call_fs; simpl; rewrite Hjson; reflexivity);
     unfold lift; rewrite Hparse; reflexivity);
  step_emit; step_lift Hmember; step_emit; step_lift Hcreate; step_emit;
  step_lift Hid; step_run Hread.

(** Runs it up to the legacy file. *)
Ltac run_to_legacy_file H :=
  let schemaString := fresh "schemaString" in
  let Hschema := fresh "Hschema" in
  let Hbuild := fresh "Hbuild" in
  destruct H as (schemaString & Hschema & Hbuild);
  run_to_schema_file Hschema;
  (erewrite bind_returns; cycle 1;
   [erewrite try_catch_returns; [reflexivity|];
    erewrite bind_returns by (unfold lift; rewrite Hbuild; reflexivity);
    reflexivity|]);
  cbv iota beta.

(** Runs it up to the operations directory. *)
Ltac run_to_operations H :=
  let Hbuilt := fresh "Hbuilt" in
  let Hlegacy := fresh "Hlegacy" in
  let Hfalsy := fresh "Hfalsy" in
  destruct H as (? & ? & Hbuilt & Hlegacy & Hfalsy);
  run_to_legacy_file Hbuilt;
  step_run Hlegacy;
  erewrite bind_returns by (rewrite Hfalsy; reflexivity).

(** Runs it up to the generator. *)
Ltac run_to_generator H :=
  let Hpassed := fresh "Hpassed" in
  let Hdoc := fresh "Hdoc" in
  let Hfull := fresh "Hfull" in
  let Hparse := fresh "Hparse" in
  let Hextract := fresh "Hextract" in
  destruct H as (? & ? & Hpassed & Hdoc & Hfull & Hparse & Hextract);
  run_to_operations Hpassed;
  step_run Hdoc;
  apply Nat.eqb_neq in Hfull; rewrite Hfull;
  step_lift Hparse; step_lift Hextract.

Lemma with_token_throws constants netlifyToken st st' e :
  token_given netlifyToken →
  onPreBuild_try constants netlifyToken st = (st', inl e) →
  onPreBuild constants st
  = ({| files := files st';
        trace := trace st' ++ [build_failBuild generalFailureMessage (ErrorInfo e)] |},
     inl (BuildError generalFailureMessage)).
Proof.
  intros Htoken Htry. rewrite (onPreBuild_with_token _ _ _ Htoken).
  by erewrite try_catch_throws by exact Htry.
Qed.

Lemma with_token_returns constants netlifyToken st st' :
  token_given netlifyToken →
  onPreBuild_try constants netlifyToken st = (st', inr tt) →
  onPreBuild constants st = (st', inr tt).
Proof.
  intros Htoken Htry. rewrite (onPreBuild_with_token _ _ _ Htoken).
  by erewrite try_catch_returns by exact Htry.
Qed.

(** *** What ends a run *)

(** X9: the handler throws exactly when the token is given and its [try]
    block throws; the run then ends with the call of the failure API with
    the general message and the very error that the block threw, after
    the events of the block and on the disk as the block left it. *)
Theorem thrown_run_reports_its_cause (constants : BuildConstants)
    (files0 : fs.FS) (final : State) :
  (∃ thrown, run_onPreBuild constants files0 = (final, inl thrown))
  ↔ ∃ netlifyToken st cause,
      token_given netlifyToken
      ∧ onPreBuild_try constants netlifyToken {| files := files0; trace := [] |}
        = (st, inl cause)
      ∧ final
        = {| files := files st;
             trace := trace st
                      ++ [build_failBuild generalFailureMessage (ErrorInfo cause)] |}.
Proof.
  unfold run_onPreBuild. split.
  - intros [thrown Hrun]. revert Hrun. unfold onPreBuild.
    destruct (process.env !! "NETLIFY_GRAPH_PERSIST_QUERY_TOKEN") as [token|] eqn:Henv;
      cbv zeta; cbn [from_option]; [|discriminate].
    destruct (js_truthy (JString token)) eqn:Htruthy; [|discriminate].
    unfold try_catch.
    destruct (onPreBuild_try constants token _) as [st [cause|[]]] eqn:Htry;
      [|discriminate].
    rewrite failBuild_run. intros [= <- _].
    exists token, st, cause. split; [|split; [exact Htry|reflexivity]].
    split; [exact Henv|]. by intros ->.
  - intros (netlifyToken & st & cause & Htoken & Htry & ->).
    eexists. exact (with_token_throws _ _ _ _ _ Htoken Htry).
Qed.

(** X10: an empty token is a missing token: the handler warns, shows the
    status and returns, and nothing else happens. *)
Theorem empty_token_skips (constants : BuildConstants) (files0 : fs.FS) :
  process.env !! "NETLIFY_GRAPH_PERSIST_QUERY_TOKEN" = Some "" →
  run_onPreBuild constants files0
  = ({| files := files0;
        trace := [ console_warn missingTokenWarning;
                   status_show missingTokenTitle missingTokenSummary ] |},
     inr tt).
Proof.
  intros Henv. unfold run_onPreBuild, onPreBuild. by rewrite Henv.
Qed.

(** X11: when the build configuration or the Netlify Graph configuration
    cannot be resolved, the build fails with the general message and the
    error; the state file is not read and no schema is created. *)
Theorem config_failure_fails_build (constants : BuildConstants) (files0 : fs.FS)
    (netlifyToken : string) (error : js_error) :
  token_given netlifyToken →
  (netlify.resolveConfig files0 (CONFIG_PATH constants) = inl error
   ∨ ∃ resolvedConfig,
       netlify.resolveConfig files0 (CONFIG_PATH constants) = inr resolvedConfig
       ∧ getNetlifyGraphConfig (config resolvedConfig) files0 = inl error) →
  run_onPreBuild constants files0
  = ({| files := files0;
        trace := [ call_resolveConfig (CONFIG_PATH constants);
                   build_failBuild generalFailureMessage (ErrorInfo error) ] |},
     inl (BuildError generalFailureMessage)).
Proof.
  intros Htoken Hfail. unfold run_onPreBuild.
  destruct Hfail as [Hresolve | (resolvedConfig & Hresolve & Hconfig)].
  - erewrite with_token_throws; [|exact Htoken|]; cycle 1.
    { unfold onPreBuild_try. step_emit.
      erewrite bind_throws; [reflexivity|].
      unfold call_fs; simpl. by rewrite Hresolve. }
    reflexivity.
  - erewrite with_token_throws; [|exact Htoken|]; cycle 1.
    { unfold onPreBuild_try. step_emit. step_call Hresolve.
      erewrite bind_throws; [reflexivity|].
      unfold call_fs; simpl. by rewrite Hconfig. }
    reflexivity.
Qed.

(** X12: a state file that parses to a value without properties, such as
    [null], fails the build with the general message and the [TypeError],
    not with the hint of the state file; no schema is created. *)
Theorem null_state_file_fails_build (constants : BuildConstants) (files0 : fs.FS)
    (netlifyToken : string) (netlifyGraphConfig : jsobject) (text : string)
    (netlifyGraphJson : JSON.Value) (error : js_error) :
  token_given netlifyToken →
  config_resolved constants files0 netlifyGraphConfig →
  fs.readFileSync files0 "netlifyGraph.json" = inr text →
  JSON.parse text = inr netlifyGraphJson →
  JSON.member netlifyGraphJson "enabledServices" = inl error →
  run_onPreBuild constants files0
  = ({| files := files0;
        trace := [ call_resolveConfig (CONFIG_PATH constants);
                   console_log [LogString "Creating a new Netlify Graph schema"];
                   build_failBuild generalFailureMessage (ErrorInfo error) ] |},
     inl (BuildError generalFailureMessage)).
Proof.
  intros Htoken (resolvedConfig & Hresolve & Hconfig) Hread Hparse Hmember.
  unfold run_onPreBuild.
  erewrite with_token_throws; [|exact Htoken|]; cycle 1.
  { run_to_state_file Hresolve Hconfig.
    erewrite bind_returns by
      (erewrite try_catch_returns; [reflexivity|];
       erewrite bind_returns by (unfold call_fs; simpl; rewrite Hread; reflexivity);
       unfold lift; rewrite Hparse; reflexivity).
    step_emit. throw_lift Hmember. }
  reflexivity.
Qed.

(** X13: when the schema file cannot be read the build fails, after the
    remote schema has been created: the creation is in the trace, before
    the failure. *)
Theorem unreadable_schema_file_fails_build (constants : BuildConstants)
    (files0 : fs.FS) (netlifyToken : string) (netlifyGraphConfig : jsobject)
    (newSchemaId : option string) (events : list event) (st : State)
    (error : js_error) :
  token_given netlifyToken →
  config_resolved constants files0 netlifyGraphConfig →
  schema_created constants netlifyToken files0 newSchemaId events →
  readGraphQLSchemaFile netlifyGraphConfig {| files := files0; trace := events |}
    = (st, inl error) →
  run_onPreBuild constants files0
  = ({| files := files st;
        trace := events ++ [build_failBuild generalFailureMessage (ErrorInfo error)] |},
     inl (BuildError generalFailureMessage))
  ∧ ∃ input session, call_executeCreateGraphQLSchemaMutation input session ∈ events.
Proof.
  intros Htoken (resolvedConfig & Hresolve & Hconfig)
         (text & json & services & result & Hjson & Hparse & Hmember & Hcreate & Hid & ->)
         Hread.
  split; [|eexists _, _; do 2 right; left].
  pose proof (silent_readGraphQLSchemaFile _ _ _ _ Hread) as Htrace.
  unfold run_onPreBuild.
  erewrite with_token_throws; [|exact Htoken|]; cycle 1.
  { run_to_state_file Hresolve Hconfig.
    erewrite bind_returns by
      (erewrite try_catch_returns; [reflexivity|];
       erewrite bind_returns by (unfold call_fs; simpl; rewrite Hjson; reflexivity);
       unfold lift; rewrite Hparse; reflexivity).
    step_emit. step_lift Hmember. step_emit. step_lift Hcreate. step_emit.
    step_lift Hid.
    erewrite bind_throws; [reflexivity|]. exact Hread. }
  rewrite Htrace. reflexivity.
Qed.

(** X14: when the operations cannot be read (the directory is missing, a
    file cannot be read or parsed), the build fails with the general
    message and that error: only an empty library is skipped. *)
Theorem unreadable_operations_fail_build (constants : BuildConstants)
    (files0 : fs.FS) (netlifyToken : string) (netlifyGraphConfig : jsobject)
    (newSchemaId : option string) (schema : GraphQL.Schema) (st1 st2 : State)
    (error : js_error) :
  token_given netlifyToken →
  legacy_passed constants netlifyToken files0 netlifyGraphConfig newSchemaId schema st1 →
  readGraphQLOperationsSourceFiles netlifyGraphConfig st1 = (st2, inl error) →
  run_onPreBuild constants files0
  = ({| files := files st2;
        trace := trace st2
                 ++ [build_failBuild generalFailureMessage (ErrorInfo error)] |},
     inl (BuildError generalFailureMessage)).
Proof.
  intros Htoken Hpassed Hdoc. unfold run_onPreBuild.
  erewrite with_token_throws; [|exact Htoken|]; cycle 1.
  { run_to_operations Hpassed.
    erewrite bind_throws; [reflexivity|]. exact Hdoc. }
  reflexivity.
Qed.


(** X15: at the end of a run, persisted functions that failed are shown
    in the status and fail the build with their names; when none failed the
    status shows the number of functions and the handler returns. *)
Theorem persisted_functions_are_reported (constants : BuildConstants)
    (files0 : fs.FS) (netlifyToken : string) (netlifyGraphConfig : jsobject)
    (newSchemaId : option string) (schema : GraphQL.Schema)
    (currentOperationsDoc : string)
    (extracted : Generator.Fragments * Generator.Functions) (st2 st3 : State)
    (failedPersistedFunctions functionDefinitions : list string) :
  token_given netlifyToken →
  functions_extracted constants netlifyToken files0 netlifyGraphConfig newSchemaId
                      schema currentOperationsDoc extracted st2 →
  generatePersistedFunctionsFile console_logger
    (onPreBuild_request constants netlifyToken netlifyGraphConfig newSchemaId schema
                        currentOperationsDoc extracted) st2
    = (st3, inr (failedPersistedFunctions, functionDefinitions)) →
  run_onPreBuild constants files0
  = match failedPersistedFunctions with
    | [] =>
        ({| files := files st3;
            trace := trace st3
                     ++ [ status_show
                            ("Netlify Graph Build Plugin: Successfully persisted "
                             +:+ pretty (List.length functionDefinitions)
                             +:+ " Graph functions")
                            "See the log for details" ] |},
         inr tt)
    | _ :: _ =>
        ({| files := files st3;
            trace := trace st3
                     ++ [ status_show
                            ("Netlify Graph Build Plugin: Failed to persist "
                             +:+ pretty (List.length failedPersistedFunctions)
                             +:+ " Graph functions")
                            "See the log for details";
                          build_failBuild
                            (persistFailureMessage failedPersistedFunctions)
                            (FailedFunctionsInfo failedPersistedFunctions);
                          build_failBuild generalFailureMessage
                            (ErrorInfo (BuildError
                               (persistFailureMessage failedPersistedFunctions))) ] |},
         inl (BuildError generalFailureMessage))
    end.
Proof.
  intros Htoken Hextracted Hgenerate. unfold run_onPreBuild.
  destruct failedPersistedFunctions as [|name names].
  - erewrite with_token_returns; [|exact Htoken|]; cycle 1.
    { run_to_generator Hextracted.
      step_run Hgenerate. apply emit_run. }
    reflexivity.
  - erewrite with_token_throws; [|exact Htoken|]; cycle 1.
    { run_to_generator Hextracted.
      step_run Hgenerate. cbn [fst snd List.length Nat.ltb Nat.leb].
      step_emit. apply failBuild_run. }
    simpl. by rewrite <- !app_assoc.
Qed.

(** *** The generated files *)

(** X16: when the generator throws, nothing is written: the file system is
    as it was and the call is the only event. *)
Theorem generator_failure_writes_nothing
    (logger : option (string → M unit))
    (request : Generator.Request GraphQL.Schema Generator.Functions Generator.Fragments)
    (st : State) (error : js_error) :
  Generator.generatePersistedFunctionsSource request = inl error →
  generatePersistedFunctionsFile logger request st
  = ({| files := files st;
        trace := trace st ++ [call_generatePersistedFunctionsSource request] |},
     inl error).
Proof.
  intros Hgenerate. unfold generatePersistedFunctionsFile.
  step_emit. erewrite bind_throws; [reflexivity|].
  unfold lift. by rewrite Hgenerate.
Qed.

(** X17: the client source is written first, to the implementation file,
    then the type definitions, to their file, and four lines are logged;
    when the second write fails the first file stays written. *)
Theorem generated_files_are_written
    (request : Generator.Request GraphQL.Schema Generator.Functions Generator.Fragments)
    (st st1 : State) (output : Generator.Output)
    (implementationSegments typeDefinitionsSegments : list string)
    (files2 : fs.FS) :
  let netlifyGraphConfig := Generator.netlifyGraphConfig _ _ _ request in
  let implementationPath := path.resolve implementationSegments in
  let typeDefinitionsPath := path.resolve typeDefinitionsSegments in
  let implementationRelativePath := path.relative process.cwd implementationPath in
  let typeDefinitionsRelativePath := path.relative process.cwd typeDefinitionsPath in
  Generator.generatePersistedFunctionsSource request = inr output →
  ensureNetlifyGraphPath netlifyGraphConfig
    {| files := files st;
       trace := trace st ++ [call_generatePersistedFunctionsSource request] |}
    = (st1, inr tt) →
  js_spread (obj_get netlifyGraphConfig "netlifyGraphImplementationFilename")
    = inr implementationSegments →
  js_spread (obj_get netlifyGraphConfig "netlifyGraphTypeDefinitionsFilename")
    = inr typeDefinitionsSegments →
  fs.writeFileSync (files st1) implementationPath (Generator.clientSource output)
    = inr files2 →
  generatePersistedFunctionsFile console_logger request st
  = match fs.writeFileSync files2 typeDefinitionsPath
            (Generator.typeDefinitionsSource output) with
    | inr files3 =>
        ({| files := files3;
            trace := trace st1
              ++ [ console_log [LogString ("Wrote " +:+ implementationRelativePath)];
                   console_log [LogString ("Wrote " +:+ typeDefinitionsRelativePath)];
                   console_log [LogString (implementationRelativePath +:+ ":" +:+ newline
                                           +:+ Generator.clientSource output)];
                   console_log [LogString (typeDefinitionsRelativePath +:+ ":" +:+ newline
                                           +:+ Generator.typeDefinitionsSource output)] ] |},
         inr (Generator.failedPersistedFunctions output,
              Generator.functionDefinitions output))
    | inl error =>
        ({| files := files2;
            trace := trace st1
              ++ [ console_log [LogString ("Wrote " +:+ implementationRelativePath)] ] |},
         inl error)
    end.
Proof.
  intros cfg implementationPath typeDefinitionsPath implementationRelativePath
         typeDefinitionsRelativePath Hgenerate Hensure Himplementation Htypes Hwrite.
  subst cfg implementationPath typeDefinitionsPath implementationRelativePath
        typeDefinitionsRelativePath.
  unfold generatePersistedFunctionsFile.
  step_emit. step_lift Hgenerate. step_run Hensure. step_lift Himplementation.
  erewrite bind_returns by (unfold update_fs; rewrite Hwrite; reflexivity).
  erewrite bind_returns by apply emit_run.
  step_lift Htypes.
  destruct (fs.writeFileSync files2 _ _) as [error|files3] eqn:Hsecond.
  - erewrite bind_throws; [reflexivity|].
    unfold update_fs. cbn [files]. by rewrite Hsecond.
  - erewrite bind_returns
      by (unfold update_fs; cbn [files]; rewrite Hsecond; reflexivity).
    erewrite bind_returns by apply emit_run.
    erewrite bind_returns by apply emit_run.
    erewrite bind_returns by apply emit_run.
    unfold mret, M_ret. cbn [files trace]. by rewrite <- !app_assoc.
Qed.

(** *** A file that fails *)

Lemma forEach_aborts operationsPath filenames :
  ∀ operationFiles good bad rest found st e,
    List.filter operation_file_regex_test filenames = good ++ bad :: rest →
    Forall2 (discovered (files st) operationsPath) good found →
    (fs.readFileSync (files st) (path.resolve [operationsPath; bad]) = inl e
     ∨ ∃ content,
         fs.readFileSync (files st) (path.resolve [operationsPath; bad]) = inr content
         ∧ GraphQL.parse content = inl e) →
    readGraphQLOperationsSourceFiles_forEach operationsPath filenames operationFiles st
    = (st, inl e).
Proof.
  induction filenames as [|filename filenames IH];
    intros operationFiles good bad rest found st e Hfilter Hgood Hbad; simpl in *.
  - by destruct good.
  - destruct (operation_file_regex_test filename); [|by eapply IH].
    destruct good as [|first good]; simpl in Hfilter; injection Hfilter as -> Hfilter.
    + destruct Hbad as [Hread | (content & Hread & Hparse)].
      * erewrite bind_throws; [reflexivity|]. unfold call_fs. by rewrite Hread.
      * step_call Hread. erewrite bind_throws; [reflexivity|].
        unfold lift. by rewrite Hparse.
    + apply Forall2_cons_inv_l in Hgood
        as (file & found' & (Hname & Hpath & Hread & Hparse) & Hgood & ->).
      step_call Hread. step_lift Hparse. by eapply IH.
Qed.

(** X18: when one of the accepted files cannot be read or parsed, the
    aggregation throws that error; the files after it are not read and the
    source is not logged. So does it, before logging anything, when the
    directory cannot be listed. *)
Theorem failing_operation_file_aborts (netlifyGraphConfig : jsobject)
    (st st1 : State) (segments filenames good rest : list string) (bad : string)
    (found : list OperationFile) (error : js_error) :
  ensureNetlifyGraphPath netlifyGraphConfig st = (st1, inr tt) →
  js_spread (obj_get netlifyGraphConfig "graphQLOperationsSourceDirectory")
    = inr segments →
  let operationsPath := path.resolve segments in
  (fs.readdirSync (files st1) operationsPath = inl error →
   readGraphQLOperationsSourceFiles netlifyGraphConfig st = (st1, inl error))
  ∧ (fs.readdirSync (files st1) operationsPath = inr filenames →
     List.filter operation_file_regex_test filenames = good ++ bad :: rest →
     Forall2 (discovered (files st1) operationsPath) good found →
     (fs.readFileSync (files st1) (path.resolve [operationsPath; bad]) = inl error
      ∨ ∃ content,
          fs.readFileSync (files st1) (path.resolve [operationsPath; bad]) = inr content
          ∧ GraphQL.parse content = inl error) →
     readGraphQLOperationsSourceFiles netlifyGraphConfig st
     = ({| files := files st1;
           trace := trace st1
             ++ [ console_log [LogString "operationsPath"; LogString operationsPath];
                  console_log [LogString "filenames"; LogArray filenames] ] |},
        inl error)).
Proof.
  intros Hensure Hspread operationsPath. subst operationsPath. split.
  - intros Hreaddir. unfold readGraphQLOperationsSourceFiles.
    step_run Hensure. step_lift Hspread.
    erewrite bind_throws; [reflexivity|]. unfold call_fs. by rewrite Hreaddir.
  - intros Hreaddir Hfilter Hgood Hbad. unfold readGraphQLOperationsSourceFiles.
    step_run Hensure. step_lift Hspread. step_call Hreaddir.
    step_emit. step_emit.
    erewrite bind_throws; [|by eapply forEach_aborts].
    cbn [files trace]. by rewrite <- app_assoc.
Qed.

(** *** The failure API and the exception go together *)

Lemma loud_silent {A} (m : M A) : silent m → fails_loudly m.
Proof.
  intros Hm st st' a Hrun. exists []. rewrite app_nil_r.
  split; [by eapply Hm|constructor].
Qed.

Lemma loud_emit ev : is_failBuild ev = false → fails_loudly (emit ev).
Proof.
  intros Hev st st' a [= <- _]. exists [ev]. split; [reflexivity|].
  by repeat constructor.
Qed.

Lemma loud_only_logs {A} (m : M A) : only_logs m → fails_loudly m.
Proof.
  intros Hm st st' a Hrun. destruct (Hm _ _ _ Hrun) as (logs & Htrace & Hlogs).
  exists logs. split; [exact Htrace|].
  eapply Forall_impl; [exact Hlogs|]. by intros [] [=].
Qed.

Lemma failBuild_always_throws {A} message info :
  always_throws (failBuild (A := A) message info).
Proof. intros st st' a. rewrite failBuild_run. discriminate. Qed.

Lemma loud_always_throws {A} (m : M A) : always_throws m → fails_loudly m.
Proof. intros Hm st st' a Hrun. by apply Hm in Hrun. Qed.

Lemma loud_bind {A B} (m : M A) (f : A → M B) :
  fails_loudly m → (∀ a, fails_loudly (f a)) → fails_loudly (m ≫= f).
Proof.
  intros Hm Hf st st' b. unfold mbind, M_bind.
  destruct (m st) as [st1 [e|a]] eqn:E; [discriminate|].
  intros Hrun. destruct (Hm _ _ _ E) as (events1 & E1 & H1).
  destruct (Hf a _ _ _ Hrun) as (events2 & E2 & H2).
  exists (events1 ++ events2). rewrite E2, E1, app_assoc. split; [reflexivity|].
  by apply Forall_app.
Qed.

Lemma loud_try_catch_silent {A} (body : M A) handler :
  silent body → (∀ e, fails_loudly (handler e)) → fails_loudly (try_catch body handler).
Proof.
  intros Hbody Hhandler st st' a. unfold try_catch.
  destruct (body st) as [st1 [e|a']] eqn:E.
  - intros Hrun. destruct (Hhandler e _ _ _ Hrun) as (events & Htrace & Hevents).
    exists events. by rewrite Htrace, (Hbody _ _ _ E).
  - intros [= <- <-]. exists []. rewrite app_nil_r.
    split; [by eapply Hbody|constructor].
Qed.

Lemma loud_try_catch_abort {A} (body : M A) handler :
  fails_loudly body → (∀ e, always_throws (handler e)) →
  fails_loudly (try_catch body handler).
Proof.
  intros Hbody Hhandler st st' a. unfold try_catch.
  destruct (body st) as [st1 [e|a']] eqn:E.
  - intros Hrun. by apply Hhandler in Hrun.
  - intros [= <- <-]. by eapply Hbody.
Qed.

Ltac loud_step :=
  lazymatch goal with
  | |- fails_loudly (_ ≫= _) => apply loud_bind; [|intros ?]
  | |- fails_loudly (emit _) => apply loud_emit; reflexivity
  | |- fails_loudly (failBuild _ _) => apply loud_always_throws, failBuild_always_throws
  | |- fails_loudly (readGraphQLOperationsSourceFiles _) =>
      apply loud_only_logs, only_logs_readGraphQLOperationsSourceFiles
  | |- fails_loudly (mret _) => apply loud_silent, silent_ret
  | |- fails_loudly (lift _) => apply loud_silent, silent_lift
  | |- fails_loudly (call_fs _) => apply loud_silent, silent_call_fs
  | |- fails_loudly (read_fs _) => apply loud_silent, silent_read_fs
  | |- fails_loudly (update_fs _) => apply loud_silent, silent_update_fs
  | |- fails_loudly (ensureNetlifyGraphPath _) =>
      apply loud_silent, silent_ensureNetlifyGraphPath
  | |- fails_loudly (readGraphQLSchemaFile _) =>
      apply loud_silent, silent_readGraphQLSchemaFile
  | |- fails_loudly (readLegacyGraphQLOperationsSourceFile _) =>
      apply loud_silent, silent_readLegacyGraphQLOperationsSourceFile
  end.

Lemma loud_generatePersistedFunctionsFile request :
  fails_loudly (generatePersistedFunctionsFile console_logger request).
Proof.
  unfold generatePersistedFunctionsFile, console_logger, log_with.
  repeat loud_step.
Qed.

Lemma loud_onPreBuild_try constants netlifyToken :
  fails_loudly (onPreBuild_try constants netlifyToken).
Proof.
  unfold onPreBuild_try. cbv zeta.
  loud_step; [loud_step|]. loud_step; [loud_step|]. loud_step; [loud_step|].
  apply loud_bind; [|intros netlifyGraphJson].
  { apply loud_try_catch_silent.
    - apply silent_bind; [apply silent_call_fs|]. intros. apply silent_lift.
    - intros e. loud_step. }
  do 7 (loud_step; [loud_step|]).
  apply loud_bind; [|intros [schema|]].
  { apply loud_try_catch_silent.
    - apply silent_bind; [apply silent_lift|]. intros. apply silent_ret.
    - intros e. repeat loud_step. }
  - loud_step; [loud_step|]. loud_step.
    { destruct (js_truthy _); loud_step. }
    loud_step; [loud_step|].
    destruct (_ =? _)%nat; [loud_step|].
    do 2 (loud_step; [loud_step|]).
    apply loud_bind; [apply loud_generatePersistedFunctionsFile|]. intros generated.
    destruct (_ <? _)%nat; repeat loud_step.
  - loud_step.
Qed.

(** X19: a run that returns normally has not called the failure API, and
    a run that throws has: the handler never reports a failure and goes
    on, and never throws without reporting. *)
Theorem failure_reported_iff_thrown (constants : BuildConstants) (files0 : fs.FS)
    (final : State) (result : throws unit) :
  run_onPreBuild constants files0 = (final, result) →
  (result = inr tt ↔ Forall (λ ev, is_failBuild ev = false) (trace final)).
Proof.
  unfold run_onPreBuild. intros Hrun. split.
  - intros ->.
    assert (fails_loudly (onPreBuild constants)) as Hloud.
    { unfold onPreBuild. cbv zeta.
      destruct (from_option _ _ _) as [|token|]; [repeat loud_step| |repeat loud_step].
      destruct (js_truthy _); [|repeat loud_step].
      apply loud_try_catch_abort; [apply loud_onPreBuild_try|].
      intros e. apply failBuild_always_throws. }
    destruct (Hloud _ _ _ Hrun) as (events & -> & Hevents). exact Hevents.
  - intros Hquiet. destruct result as [e|[]]; [|reflexivity].
    exfalso. revert Hrun. unfold onPreBuild. cbv zeta.
    destruct (from_option _ _ _) as [|token|]; [discriminate| |discriminate].
    destruct (js_truthy _); [|discriminate].
    unfold try_catch.
    destruct (onPreBuild_try constants token _) as [st' [cause|[]]]; [|discriminate].
    rewrite failBuild_run. intros [= <- _]. simpl in Hquiet.
    apply Forall_app in Hquiet as [_ Hlast].
    apply Forall_cons in Hlast as [Hlast _]. discriminate Hlast.
Qed.
(** *** The order of the remote calls *)

Lemma stage_after_app stage events more :
  stage_after stage (events ++ more)
  = match stage_after stage events with
    | Some stage' => stage_after stage' more
    | None => None
    end.
Proof.
  revert stage. induction events as [|ev events IH]; intros stage; simpl; [reflexivity|].
  destruct (advance stage ev); [apply IH|reflexivity].
Qed.

Lemma advance_local stage ev : local ev → advance stage ev = Some stage.
Proof. intros [Hcreation Hgenerator]. by destruct ev, stage. Qed.

Lemma stage_after_local stage events :
  Forall local events → stage_after stage events = Some stage.
Proof.
  induction 1 as [|ev events Hev _ IH]; simpl; [reflexivity|].
  by rewrite (advance_local _ _ Hev).
Qed.

Lemma advance_rank stage ev stage' :
  advance stage ev = Some stage' →
  (local ev ∧ stage' = stage) ∨ (¬ local ev ∧ stage_rank stage' = S (stage_rank stage)).
Proof.
  destruct ev, stage; simpl; intros [= <-];
    first [ by left; repeat split | by right; split; [intros [? ?]|] ].
Qed.

Lemma stage_after_rank stage events stage' :
  stage_after stage events = Some stage' → (stage_rank stage <= stage_rank stage')%nat.
Proof.
  revert stage. induction events as [|ev events IH]; intros stage; simpl.
  - by intros [= ->].
  - destruct (advance stage ev) as [stage1|] eqn:Hadvance; [|discriminate].
    intros Hrest%IH. destruct (advance_rank _ _ _ Hadvance) as [[_ ->]|[_ Hrank]]; lia.
Qed.

Lemma stage_after_same stage events :
  stage_after stage events = Some stage → Forall local events.
Proof.
  revert stage. induction events as [|ev events IH]; intros stage; simpl; [constructor|].
  destruct (advance stage ev) as [stage1|] eqn:Hadvance; [|discriminate].
  intros Hrest. destruct (advance_rank _ _ _ Hadvance) as [[Hev ->]|[_ Hrank]].
  - constructor; [exact Hev|by eapply IH].
  - apply stage_after_rank in Hrest. lia.
Qed.

Lemma stage_after_last events stage :
  stage_after ClientGenerated events = Some stage → Forall local events.
Proof.
  intros Hrest. pose proof (stage_after_rank _ _ _ Hrest) as Hrank.
  destruct stage; simpl in Hrank; try lia. by eapply stage_after_same.
Qed.

Lemma stage_after_created events stage :
  stage_after Started events = Some stage → stage ≠ Started →
  ∃ input session, call_executeCreateGraphQLSchemaMutation input session ∈ events.
Proof.
  induction events as [|ev events IH]; simpl; [by intros [= <-]|].
  destruct (advance Started ev) as [stage1|] eqn:Hadvance; [|discriminate].
  intros Hrest Hstage. destruct ev; simpl in Hadvance; try discriminate;
    injection Hadvance as <-;
    first [ by eexists _, _; left
          | destruct (IH Hrest Hstage) as (input & session & Hin);
            exists input, session; by right ].
Qed.

Lemma stage_after_no_creation stage events stage' :
  stage ≠ Started → stage_after stage events = Some stage' →
  Forall (λ ev, is_schema_creation ev = false) events.
Proof.
  revert stage. induction events as [|ev events IH]; intros stage Hstage; simpl;
    [constructor|].
  destruct (advance stage ev) as [stage1|] eqn:Hadvance; [|discriminate].
  intros Hrest. constructor.
  - by destruct ev, stage.
  - eapply IH; [|exact Hrest].
    by destruct ev, stage; simpl in Hadvance; try discriminate; injection Hadvance as <-.
Qed.

Lemma local_silent {A} (m : M A) : silent m → stays_local m.
Proof.
  intros Hm st st' r Hrun. exists []. rewrite app_nil_r.
  split; [by eapply Hm|constructor].
Qed.

Lemma local_only_logs {A} (m : M A) : only_logs m → stays_local m.
Proof.
  intros Hm st st' r Hrun. destruct (Hm _ _ _ Hrun) as (logs & Htrace & Hlogs).
  exists logs. split; [exact Htrace|].
  eapply Forall_impl; [exact Hlogs|]. by intros [] [=].
Qed.

Lemma local_emit ev : local ev → stays_local (emit ev).
Proof.
  intros Hev st st' r [= <- _]. exists [ev]. split; [reflexivity|].
  constructor; [exact Hev|constructor].
Qed.

Lemma local_failBuild {A} message info : stays_local (failBuild (A := A) message info).
Proof.
  intros st st' r. rewrite failBuild_run. intros [= <- _].
  exists [build_failBuild message info]. split; [reflexivity|].
  constructor; [by split|constructor].
Qed.

Lemma local_bind {A B} (m : M A) (f : A → M B) :
  stays_local m → (∀ a, stays_local (f a)) → stays_local (m ≫= f).
Proof.
  intros Hm Hf st st' r. unfold mbind, M_bind.
  destruct (m st) as [st1 [e|a]] eqn:E.
  - intros [= <- _]. by eapply Hm.
  - intros Hrun. destruct (Hm _ _ _ E) as (events1 & E1 & H1).
    destruct (Hf a _ _ _ Hrun) as (events2 & E2 & H2).
    exists (events1 ++ events2). rewrite E2, E1, app_assoc. split; [reflexivity|].
    by apply Forall_app.
Qed.

Lemma local_try_catch {A} (body : M A) handler :
  stays_local body → (∀ e, stays_local (handler e)) →
  stays_local (try_catch body handler).
Proof.
  intros Hbody Hhandler st st' r. unfold try_catch.
  destruct (body st) as [st1 [e|a]] eqn:E.
  - intros Hrun. destruct (Hbody _ _ _ E) as (events1 & E1 & H1).
    destruct (Hhandler e _ _ _ Hrun) as (events2 & E2 & H2).
    exists (events1 ++ events2). rewrite E2, E1, app_assoc. split; [reflexivity|].
    by apply Forall_app.
  - intros [= <- _]. by eapply Hbody.
Qed.

Lemma order_local stage {A} (m : M A) : stays_local m → in_order stage m.
Proof.
  intros Hm st st' r Hrun. destruct (Hm _ _ _ Hrun) as (events & Htrace & Hevents).
  exists events. split; [exact Htrace|]. by rewrite stage_after_local.
Qed.

Lemma order_after_local stage {A B} (m : M A) (f : A → M B) :
  stays_local m → (∀ a, in_order stage (f a)) → in_order stage (m ≫= f).
Proof.
  intros Hm Hf st st' r. unfold mbind, M_bind.
  destruct (m st) as [st1 [e|a]] eqn:E.
  - intros [= <- _]. by eapply (order_local stage m Hm).
  - intros Hrun. destruct (Hm _ _ _ E) as (events1 & E1 & H1).
    destruct (Hf a _ _ _ Hrun) as (events2 & E2 & H2).
    exists (events1 ++ events2). rewrite E2, E1, app_assoc. split; [reflexivity|].
    by rewrite stage_after_app, stage_after_local.
Qed.

Lemma order_before_local stage {A B} (m : M A) (f : A → M B) :
  in_order stage m → (∀ a, stays_local (f a)) → in_order stage (m ≫= f).
Proof.
  intros Hm Hf st st' r. unfold mbind, M_bind.
  destruct (m st) as [st1 [e|a]] eqn:E.
  - intros [= <- _]. by eapply Hm.
  - intros Hrun. destruct (Hm _ _ _ E) as (events1 & E1 & [stage1 H1]).
    destruct (Hf a _ _ _ Hrun) as (events2 & E2 & H2).
    exists (events1 ++ events2). rewrite E2, E1, app_assoc. split; [reflexivity|].
    by rewrite stage_after_app, H1, stage_after_local.
Qed.

Lemma order_emit stage stage' ev {B} (f : unit → M B) :
  advance stage ev = Some stage' → (∀ a, in_order stage' (f a)) →
  in_order stage (emit ev ≫= f).
Proof.
  intros Hadvance Hf st st' r. rewrite (bind_returns _ _ _ _ _ (emit_run ev st)).
  intros Hrun. destruct (Hf tt _ _ _ Hrun) as (events & Htrace & Hevents).
  exists (ev :: events). simpl in *. rewrite Htrace, <- app_assoc.
  split; [reflexivity|]. by rewrite Hadvance.
Qed.

Lemma order_try_catch stage {A} (body : M A) handler :
  in_order stage body → (∀ e, stays_local (handler e)) →
  in_order stage (try_catch body handler).
Proof.
  intros Hbody Hhandler st st' r. unfold try_catch.
  destruct (body st) as [st1 [e|a]] eqn:E.
  - intros Hrun. destruct (Hbody _ _ _ E) as (events1 & E1 & [stage1 H1]).
    destruct (Hhandler e _ _ _ Hrun) as (events2 & E2 & H2).
    exists (events1 ++ events2). rewrite E2, E1, app_assoc. split; [reflexivity|].
    by rewrite stage_after_app, H1, stage_after_local.
  - intros [= <- _]. by eapply Hbody.
Qed.

Ltac local_step :=
  lazymatch goal with
  | |- stays_local (_ ≫= _) => apply local_bind; [|intros ?]
  | |- stays_local (emit _) => apply local_emit; by split
  | |- stays_local (failBuild _ _) => apply local_failBuild
  | |- stays_local (readGraphQLOperationsSourceFiles _) =>
      apply local_only_logs, only_logs_readGraphQLOperationsSourceFiles
  | |- stays_local (mret _) => apply local_silent, silent_ret
  | |- stays_local (lift _) => apply local_silent, silent_lift
  | |- stays_local (call_fs _) => apply local_silent, silent_call_fs
  | |- stays_local (read_fs _) => apply local_silent, silent_read_fs
  | |- stays_local (update_fs _) => apply local_silent, silent_update_fs
  | |- stays_local (ensureNetlifyGraphPath _) =>
      apply local_silent, silent_ensureNetlifyGraphPath
  | |- stays_local (readGraphQLSchemaFile _) =>
      apply local_silent, silent_readGraphQLSchemaFile
  | |- stays_local (readLegacyGraphQLOperationsSourceFile _) =>
      apply local_silent, silent_readLegacyGraphQLOperationsSourceFile
  end.

Ltac order_step stage :=
  apply (order_after_local stage); [repeat local_step|intros ?].

Lemma order_generatePersistedFunctionsFile request :
  in_order SchemaCreated (generatePersistedFunctionsFile console_logger request).
Proof.
  unfold generatePersistedFunctionsFile, console_logger, log_with.
  apply (order_emit SchemaCreated ClientGenerated); [reflexivity|]. intros _.
  apply order_local. repeat local_step.
Qed.

Lemma order_onPreBuild_try constants netlifyToken :
  in_order Started (onPreBuild_try constants netlifyToken).
Proof.
  unfold onPreBuild_try. cbv zeta.
  do 3 order_step Started.
  apply (order_after_local Started); [|intros netlifyGraphJson].
  { apply local_try_catch; [repeat local_step|]. intros e. local_step. }
  do 2 order_step Started.
  apply (order_emit Started SchemaCreated); [reflexivity|]. intros _.
  do 4 order_step SchemaCreated.
  apply (order_after_local SchemaCreated); [|intros [schema|]].
  { apply local_try_catch; [repeat local_step|]. intros e. repeat local_step. }
  - order_step SchemaCreated.
    apply (order_after_local SchemaCreated); [|intros _].
    { destruct (js_truthy _); local_step. }
    order_step SchemaCreated.
    destruct (_ =? _)%nat; [apply order_local; local_step|].
    do 2 order_step SchemaCreated.
    apply order_before_local; [apply order_generatePersistedFunctionsFile|].
    intros generated. destruct (_ <? _)%nat; repeat local_step.
  - apply order_local. local_step.
Qed.

Lemma order_onPreBuild constants : in_order Started (onPreBuild constants).
Proof.
  unfold onPreBuild. cbv zeta.
  destruct (from_option _ _ _) as [|token|];
    [apply order_local; repeat local_step| |apply order_local; repeat local_step].
  destruct (js_truthy _); [|apply order_local; repeat local_step].
  apply order_try_catch; [apply order_onPreBuild_try|].
  intros e. apply local_failBuild.
Qed.

(** X20: in every run, whatever the collaborators answer, the generator is
    called after the remote schema has been created and nothing is created
    or generated after it; the remote schema is created at most once, and
    the generator is not called before it. *)
Theorem generator_called_once_after_creation (constants : BuildConstants)
    (files0 : fs.FS) (final : State) (result : throws unit) :
  run_onPreBuild constants files0 = (final, result) →
  (∀ before request after,
     trace final = before ++ call_generatePersistedFunctionsSource request :: after →
     (∃ input session,
        call_executeCreateGraphQLSchemaMutation input session ∈ before)
     ∧ Forall local after)
  ∧ (∀ before input session after,
       trace final
       = before ++ call_executeCreateGraphQLSchemaMutation input session :: after →
       Forall local before
       ∧ Forall (λ ev, is_schema_creation ev = false) after).
Proof.
  unfold run_onPreBuild. intros Hrun.
  destruct (order_onPreBuild constants _ _ _ Hrun) as (events & Htrace & [stage Hstage]).
  simpl in Htrace. rewrite Htrace. split.
  - intros before request after ->. rewrite stage_after_app in Hstage.
    destruct (stage_after Started before) as [[]|] eqn:Hbefore; try discriminate.
    simpl in Hstage. split.
    + eapply stage_after_created; [exact Hbefore|discriminate].
    + by eapply stage_after_last.
  - intros before input session after ->. rewrite stage_after_app in Hstage.
    destruct (stage_after Started before) as [[]|] eqn:Hbefore; try discriminate.
    simpl in Hstage. split.
    + by eapply stage_after_same.
    + eapply stage_after_no_creation; [|exact Hstage]. discriminate.
Qed.
End handler_further.

(** ** The handler on the example site *)

Section examples.
Import Fixture.

#[local] Existing Instances library posix disk json graphql services onegraph generator.

(** The empty environment has no token: the handler skips. *)
Lemma missing_token_skips_example :
  process.env (Env := without_token) !! "NETLIFY_GRAPH_PERSIST_QUERY_TOKEN" = None
  ∧ ∃ final,
      run without_token healthy_disk = (final, inr tt)
      ∧ trace final = [ console_warn missingTokenWarning;
                        status_show missingTokenTitle missingTokenSummary ].
Proof.
  split; [reflexivity|].
  destruct (missing_token_skips (Fs := disk) (Proc := without_token)
              constants healthy_disk)
    as (final & Hrun & _ & Htrace & _); [reflexivity|].
  exists final. split; [exact Hrun|exact Htrace].
Defined.

(** Without [netlifyGraph.json] the build fails with the hint. *)
Lemma json_failure_fails_build_example :
  token_given (Proc := with_token) "secret"
  ∧ ∃ final error,
      run with_token disk_without_state_file
        = (final, inl (BuildError generalFailureMessage))
      ∧ build_failBuild jsonFailureMessage (ErrorInfo error) ∈ trace final.
Proof.
  assert (Htoken : token_given (Proc := with_token) "secret")
    by (split; [reflexivity|discriminate]).
  split; [exact Htoken|].
  edestruct (json_failure_fails_build (Fs := disk) (Proc := with_token) constants
               disk_without_state_file "secret")
    as (final & Hrun & _ & Htrace).
  - exact Htoken.
  - eexists. split; reflexivity.
  - left. reflexivity.
  - exists final. eexists. split; [exact Hrun|]. rewrite Htrace. right. left.
Defined.

Lemma token_is_given : token_given (Proc := with_token) "secret".
Proof. split; [reflexivity|discriminate]. Qed.

(** No event of the list is a call of the failure API. *)
Lemma no_failBuild_in (events : list event) message info :
  forallb (λ ev, negb (is_failBuild ev)) events = true →
  build_failBuild message info ∉ events.
Proof.
  intros Hall Hin. rewrite forallb_forall in Hall.
  apply list_elem_of_In, Hall in Hin. discriminate Hin.
Qed.

(** On each of the example disks the run gets as far as the schema file. *)
Lemma schema_is_read (d : Disk) (schemaString : string) :
  getNetlifyGraphConfig (Fs := disk) (Proc := with_token) site_config d = inr graph_config →
  fs.readFileSync (Api := disk) d "netlifyGraph.json" = inr "{ enabledServices }" →
  readGraphQLSchemaFile graph_config (after_schema d) = (after_schema d, inr schemaString) →
  schema_read (Fs := disk) (Proc := with_token) constants "secret" d graph_config
              (Some "schema of site-1") schemaString (after_schema d).
Proof.
  intros Hconfig Hjson Hschema. split.
  - eexists. split; [reflexivity|exact Hconfig].
  - exists created_events. split; [|exact Hschema].
    eexists _, _, _, _. repeat split; [exact Hjson|reflexivity..].
Qed.

(** The claim of C5 fails on the site whose schema file does not build:
    the run ends without any call of the failure API. *)
Lemma schema_failure_does_not_fail_build :
  ¬ schema_failure_fails_build (Fs := disk) (Proc := with_token)
      constants disk_with_broken_schema.
Proof.
  intros Hclaim.
  destruct (Hclaim "secret" graph_config (Some "schema of site-1") "scalar Date"
              (after_schema disk_with_broken_schema)
              (ExternalError "Syntax Error: Unexpected Name"))
    as (message & info & Hin).
  - exact token_is_given.
  - apply schema_is_read; reflexivity.
  - reflexivity.
  - revert Hin. apply no_failBuild_in. reflexivity.
Qed.

(** The broken schema is skipped: two lines on the error console and a
    normal return. *)
Lemma schema_failure_skips_example :
  token_given (Proc := with_token) "secret"
  ∧ GraphQL.buildSchema "scalar Date"
    = inl (ExternalError "Syntax Error: Unexpected Name")
  ∧ ∃ final,
      run with_token disk_with_broken_schema = (final, inr tt)
      ∧ console_error "Failed to parse Netlify GraphQL schema" ∈ trace final
      ∧ Forall harmless (trace final).
Proof.
  split; [exact token_is_given|]. split; [reflexivity|].
  destruct (schema_failure_skips (Fs := disk) (Proc := with_token) constants
              disk_with_broken_schema "secret" graph_config
              (Some "schema of site-1") "scalar Date"
              (after_schema disk_with_broken_schema)
              (ExternalError "Syntax Error: Unexpected Name"))
    as (final & Hrun & _ & Htrace & Hharmless).
  - exact token_is_given.
  - apply schema_is_read; reflexivity.
  - reflexivity.
  - exists final. split; [exact Hrun|]. split; [|exact Hharmless].
    rewrite Htrace. apply elem_of_app. right. right. left.
Defined.

(** The claim of C3 fails on the site whose legacy file is there but
    empty: the run goes on and never calls the failure API. *)
Lemma empty_legacy_file_does_not_fail_build :
  ¬ legacy_file_fails_build (Fs := disk) (Proc := with_token)
      constants (disk_with_legacy_file "").
Proof.
  intros Hclaim.
  eapply no_failBuild_in;
    [|eapply (Hclaim "secret" graph_config (Some "schema of site-1") "type Query"
                "type Query" (after_schema (disk_with_legacy_file ""))
                (after_schema (disk_with_legacy_file "")) "")].
  - reflexivity.
  - exact token_is_given.
  - apply schema_is_read; reflexivity.
  - reflexivity.
  - reflexivity.
Qed.

(** A legacy file with an operation in it fails the build, although the
    new operation files are there too. *)
Lemma nonempty_legacy_file_fails_build_example :
  token_given (Proc := with_token) "secret"
  ∧ fs.readdirSync (Api := disk) (disk_with_legacy_file "query Old") operations_dir
    = inr ["a.graphql"; "b.graphql"; "notes.txt"]
  ∧ ∃ final,
      run with_token (disk_with_legacy_file "query Old")
        = (final, inl (BuildError generalFailureMessage))
      ∧ build_failBuild legacyFailureMessage NoInfo ∈ trace final.
Proof.
  split; [exact token_is_given|]. split; [reflexivity|].
  destruct (nonempty_legacy_file_fails_build (Fs := disk) (Proc := with_token) (Gql := graphql)
              constants (disk_with_legacy_file "query Old") "secret" graph_config
              (Some "schema of site-1") "type Query" "type Query"
              (after_schema (disk_with_legacy_file "query Old"))
              (after_schema (disk_with_legacy_file "query Old")) "query Old")
    as (final & Hrun & _ & _ & Hin).
  - exact token_is_given.
  - apply schema_is_read; reflexivity.
  - reflexivity.
  - reflexivity.
  - discriminate.
  - exists final. split; [exact Hrun|exact Hin].
Defined.

(** Without operation files the printed document is empty and the
    handler skips the generation. *)
Lemma empty_library_skips_example :
  token_given (Proc := with_token) "secret"
  ∧ ∃ final,
      run with_token disk_without_operations = (final, inr tt)
      ∧ console_warn emptyLibraryWarning ∈ trace final
      ∧ Forall harmless (trace final).
Proof.
  split; [exact token_is_given|].
  destruct (empty_library_skips (Fs := disk) (Proc := with_token) (Gql := graphql) constants
              disk_without_operations "secret" graph_config
              (Some "schema of site-1") "type Query" "type Query"
              (after_schema disk_without_operations)
              (after_schema disk_without_operations)
              (after_operations disk_without_operations) None "")
    as (final & Hrun & _ & Htrace & Hharmless).
  - exact token_is_given.
  - apply schema_is_read; reflexivity.
  - reflexivity.
  - reflexivity.
  - reflexivity.
  - reflexivity.
  - reflexivity.
  - exists final. split; [exact Hrun|]. split; [|exact Hharmless].
    rewrite Htrace. apply elem_of_app. right. left.
Defined.

(** *** The configuration of the example site *)

Abbreviation site_context config :=
  (getNetlifyGraphConfig_context (Lib := library) (Path := posix) (Proc := with_token)
     config).

Abbreviation site_defaults config := (makeDefaultNetlifyGraphConfig (site_context config)).

Abbreviation resolve config :=
  (getNetlifyGraphConfig (Lib := library) (Path := posix) (Fs := disk)
     (Proc := with_token) (Netlify := services) config healthy_disk).

(** The user's webhook base path and language win; the module type and the
    Netlify Graph directory, which the user leaves alone, are the generic
    framework's. *)
Lemma user_then_framework_then_base_example :
  ∃ fullConfig,
    resolve overriding_config = inr fullConfig
    ∧ fullConfig !! "webhookBasePath" = Some (JArray [""; "hooks"; "graph"])
    ∧ fullConfig !! "language" = Some (JString "typescript")
    ∧ fullConfig !! "moduleType" = Some (JString "commonjs")
    ∧ fullConfig !! "netlifyGraphPath"
      = Some (JArray ["/"; "netlify"; "functions"; "netlifyGraph"]).
Proof.
  destruct (user_then_framework_then_base (Lib := library) (Path := posix)
              (Fs := disk) (Proc := with_token) (Netlify := services)
              overriding_config healthy_disk [] (site_defaults overriding_config)
              eq_refl eq_refl)
    as (fullConfig & Hrun & Huser & Hframework & _).
  exists fullConfig. split; [exact Hrun|]. repeat split.
  - destruct (Huser "webhookBasePath" "/hooks/graph") as (_ & Hsplit & _);
      [reflexivity|discriminate|].
    apply Hsplit. unfold split_settings. do 8 right. left.
  - destruct (Huser "language" "typescript") as (_ & _ & Hplain & _);
      [reflexivity|discriminate|].
    apply Hplain. left.
  - destruct (Hframework "moduleType") as (v & Hv & Hfull);
      [unfold framework_settings; do 7 right; left|reflexivity|].
    rewrite Hfull, <- Hv. reflexivity.
  - destruct (Hframework "netlifyGraphPath") as (v & Hv & Hfull);
      [unfold framework_settings; right; left|reflexivity|].
    rewrite Hfull, <- Hv. reflexivity.
Defined.

(** The claim of C1 fails when the user's entries are empty strings,
    whether or not an empty string counts as given: the empty language does
    not win, and the empty webhook base path is not replaced by the
    framework's default. *)
Lemma empty_strings_break_precedence :
  ¬ ∃ given fullConfig,
      resolve empty_strings_config = inr fullConfig
      ∧ user_first given empty_strings_config
          (site_defaults empty_strings_config) fullConfig.
Proof.
  intros (given & fullConfig & Hrun & Hlanguage & Hwebhook).
  injection Hrun as <-.
  destruct (given "") eqn:Hgiven.
  - specialize (Hlanguage "" eq_refl Hgiven). vm_compute in Hlanguage.
    discriminate Hlanguage.
  - specialize (Hwebhook "" eq_refl Hgiven). vm_compute in Hwebhook.
    discriminate Hwebhook.
Qed.

(** The language of the site is the one its [graph] table names; without a
    table, and without [tsconfig.json] on the disk, it is JavaScript. *)
Lemma language_detected_unless_given_example :
  (∃ fullConfig,
     resolve site_config = inr fullConfig
     ∧ fullConfig !! "language" = Some (JString "typescript"))
  ∧ fs.existsSync (Api := disk) healthy_disk "tsconfig.json" = false
  ∧ ∃ fullConfig,
      resolve plain_config = inr fullConfig
      ∧ fullConfig !! "language" = Some (JString "javascript").
Proof.
  split; [|split; [reflexivity|]].
  - destruct (language_detected_unless_given (Lib := library) (Path := posix)
                (Fs := disk) (Proc := with_token) (Netlify := services)
                site_config healthy_disk [] (site_defaults site_config)
                eq_refl eq_refl)
      as (fullConfig & Hrun & Hgiven & _).
    exists fullConfig. split; [exact Hrun|].
    apply Hgiven; [reflexivity|discriminate].
  - destruct (language_detected_unless_given (Lib := library) (Path := posix)
                (Fs := disk) (Proc := with_token) (Netlify := services)
                plain_config healthy_disk [] (site_defaults plain_config)
                eq_refl eq_refl)
      as (fullConfig & Hrun & _ & Hdetected).
    exists fullConfig. split; [exact Hrun|].
    apply Hdetected. left. reflexivity.
Defined.

(** The claim of C9 fails for a [graph] table whose language is the empty
    string: the language of the site is then the detected one. *)
Lemma empty_language_is_detected :
  ¬ language_overrides_detection (Lib := library) (Path := posix) (Fs := disk)
      (Proc := with_token) (Netlify := services) empty_strings_config healthy_disk.
Proof.
  intros Hclaim.
  assert (∃ fullConfig, resolve empty_strings_config = inr fullConfig)
    as [fullConfig Hrun] by (eexists; reflexivity).
  pose proof (Hclaim "" fullConfig eq_refl Hrun) as Hlanguage.
  injection Hrun as <-. vm_compute in Hlanguage. discriminate Hlanguage.
Qed.

(** *** The default configurations of the example site *)

(** The library's file names are not empty and its default Netlify Graph
    path is an array, so every factory gives well-formed paths; here the
    generic one, for a site where nothing is detected. *)
Lemma default_config_paths_example :
  ∃ defaults,
    makeDefaultFrameworkConfig (Lib := library) None (site_context plain_config)
      = inr defaults
    ∧ factory_paths (Lib := library) "index.d.ts" (site_context plain_config) defaults.
Proof.
  apply (default_config_paths (Lib := library) None (site_context plain_config)
           ["netlify"; "functions"; "netlifyGraph"]).
  - discriminate.
  - discriminate.
  - reflexivity.
Defined.

(** The claim of C7 fails for the generic factory when the configured
    extension is [js]: the type-definition file is [index.d.ts], not
    [index.js]. *)
Lemma type_definitions_ignore_extension :
  obj_get (baseConfig (site_context plain_config)) "extension" = JString "js"
  ∧ ¬ factory_paths_with_configured_extension (Lib := library) None
        (site_context plain_config).
Proof.
  split; [reflexivity|].
  intros (defaults & Hmake & functionsPath & netlifyGraphPath
          & _ & Hpath & _ & Htypes & _).
  injection Hmake as <-.
  vm_compute in Hpath. injection Hpath as <-.
  vm_compute in Htypes. discriminate Htypes.
Qed.

(** The generic factory appends [operations] as one segment, the Next.js
    and Remix factories append its ten letters. *)
Lemma operations_directory_segments_example :
  obj_get (makeDefaultNetlifyGraphConfig (Lib := library) (site_context plain_config))
          "graphQLOperationsSourceDirectory"
    = JArray ["/"; "netlify"; "functions"; "netlifyGraph"; "operations"]
  ∧ obj_get (makeDefaultNextJsNetlifyGraphConfig (Lib := library)
               (site_context plain_config))
            "graphQLOperationsSourceDirectory"
    = JArray ["/"; "site"; "lib"; "netlifyGraph";
              "o"; "p"; "e"; "r"; "a"; "t"; "i"; "o"; "n"; "s"]
  ∧ List.length (js_string_chars "operations") = 10.
Proof.
  destruct (operations_directory_segments (Lib := library) (site_context plain_config)
              ["netlify"; "functions"; "netlifyGraph"] eq_refl)
    as ((generic & Hgeneric & Hdirectory) & (next & Hnext & Hspread) & _ & _ & Hlength & _).
  split; [|split].
  - unfold obj_get. rewrite Hdirectory.
    vm_compute in Hgeneric. injection Hgeneric as <-. reflexivity.
  - unfold obj_get. rewrite Hspread.
    vm_compute in Hnext. injection Hnext as <-. reflexivity.
  - exact Hlength.
Defined.

(** *** The operations of the example site *)

(** Two of the three directory entries are operation files, with two
    definitions and one: the document has the three, in that order. *)
Lemma operation_definitions_concatenated_example :
  ∃ parsedDoc st2,
    readGraphQLOperationsSourceFiles graph_config (after_schema healthy_disk)
      = (st2, inr (GraphQL.print parsedDoc))
    ∧ GraphQL.definitions parsedDoc = ["query A"; "query B"; "fragment C"]
    ∧ List.length (GraphQL.definitions parsedDoc) = 2 + 1.
Proof.
  destruct (operation_definitions_concatenated (Path := posix) (Fs := disk)
              (Gql := graphql) graph_config
              (after_schema healthy_disk) (after_schema healthy_disk)
              ["netlify"; "functions"; "netlifyGraph"; "operations"]
              ["a.graphql"; "b.graphql"; "notes.txt"]
              [operation_a; operation_b])
    as (parsedDoc & st2 & Hrun & _ & Hdefinitions & Hlength).
  - reflexivity.
  - reflexivity.
  - reflexivity.
  - repeat constructor.
  - exists parsedDoc, st2. split; [exact Hrun|].
    split; [exact Hdefinitions|exact Hlength].
Defined.

(** *** Further examples *)

(** A backup of an operation file is accepted, a name that is too short
    is not. *)
Lemma operation_file_regex_test_accepts_example :
  operation_file_regex_test "library.graphql.bak" = true
  ∧ operation_file_regex_test "a.gql" = false.
Proof.
  split.
  - apply (operation_file_regex_test_accepts "") with (before := "library") (rest := ".bak").
  - apply (operation_file_regex_test_accepts "a.gql"). simpl. lia.
Defined.

(** The user's operations directory is kept as it is written, and without
    one the library's is used, not the generic framework's. *)
Lemma unresolved_settings_pass_through_example :
  ∃ fullConfig,
    resolve overriding_config = inr fullConfig
    ∧ fullConfig !! "graphQLOperationsSourceDirectory"
      = Some (JArray ["netlify"; "functions"; "netlifyGraph"; "operations"])
    ∧ site_defaults overriding_config !! "graphQLOperationsSourceDirectory"
      = Some (JArray ["/"; "netlify"; "functions"; "netlifyGraph"; "operations"])
    ∧ fullConfig !! "extension" = Some (JString "js").
Proof.
  eexists. split; [reflexivity|].
  edestruct (unresolved_settings_pass_through (Lib := library) (Path := posix)
               (Fs := disk) (Proc := with_token) (Netlify := services)
               overriding_config healthy_disk _ "extension" eq_refl)
    as (Hextension & Hdirectory).
  - unfold resolved_settings. intros Hin.
    repeat (apply elem_of_cons in Hin as [Hin|Hin]; [discriminate|]).
    by apply elem_of_nil in Hin.
  - split; [exact Hdirectory|]. split; [reflexivity|]. exact Hextension.
Defined.

(** With empty entries the language is still detected and the runtime
    target is still [node]. *)
Lemma resolved_config_always_names_example :
  ∃ fullConfig,
    resolve empty_strings_config = inr fullConfig
    ∧ (∃ language, fullConfig !! "language" = Some (JString language) ∧ language ≠ "")
    ∧ js_truthy (obj_get fullConfig "runtimeTargetEnv") = true.
Proof.
  eexists. split; [reflexivity|].
  destruct (resolved_config_always_names (Lib := library) (Path := posix)
              (Fs := disk) (Proc := with_token) (Netlify := services)
              empty_strings_config healthy_disk _ eq_refl)
    as (Hlanguage & _ & Hruntime).
  split; [exact Hlanguage|exact Hruntime].
Defined.

(** The schema file of the site can be spread even with empty entries. *)
Lemma resolved_paths_are_iterable_example :
  ∃ fullConfig segments,
    resolve empty_strings_config = inr fullConfig
    ∧ js_spread (obj_get fullConfig "graphQLSchemaFilename") = inr segments.
Proof.
  destruct (resolved_paths_are_iterable (Lib := library) (Path := posix)
              (Fs := disk) (Proc := with_token) (Netlify := services)
              empty_strings_config healthy_disk _ "graphQLSchemaFilename" eq_refl)
    as (segments & Hspread).
  - unfold spread_settings. do 4 right. left.
  - eexists _, segments. split; [reflexivity|exact Hspread].
Defined.

(** The run without a state file throws: its [try] block threw after the
    failure with the hint, and the general failure that ends the run
    reports what the block threw. *)
Lemma thrown_run_reports_its_cause_example :
  ∃ final st cause thrown,
    run with_token disk_without_state_file = (final, inl thrown)
    ∧ onPreBuild_try (Fs := disk) (Proc := with_token) constants "secret"
        (@Build_State disk json graphql onegraph generator disk_without_state_file [])
      = (st, inl cause)
    ∧ List.length (trace st) = 2
    ∧ final
      = {| files := files st;
           trace := trace st
                    ++ [build_failBuild generalFailureMessage (ErrorInfo cause)] |}.
Proof.
  destruct (proj1 (thrown_run_reports_its_cause (Fs := disk) (Proc := with_token)
                     constants disk_without_state_file
                     (run with_token disk_without_state_file).1))
    as (netlifyToken & st & cause & [Henv _] & Htry & Hfinal).
  { exists (BuildError generalFailureMessage). reflexivity. }
  change (Some "secret" = Some netlifyToken) in Henv. injection Henv as <-.
  exists (run with_token disk_without_state_file).1, st, cause,
         (BuildError generalFailureMessage).
  split; [reflexivity|]. split; [exact Htry|]. split; [|exact Hfinal].
  assert (List.length
            (trace (onPreBuild_try (Fs := disk) (Proc := with_token) constants "secret"
                      (@Build_State disk json graphql onegraph generator
                         disk_without_state_file [])).1)
          = 2) as Hlength by reflexivity.
  by rewrite Htry in Hlength.
Defined.

(** An empty token. *)
Lemma empty_token_skips_example :
  process.env (Env := with_empty_token) !! "NETLIFY_GRAPH_PERSIST_QUERY_TOKEN" = Some ""
  ∧ (run with_empty_token healthy_disk).2 = inr tt.
Proof.
  split; [reflexivity|]. unfold run.
  by rewrite (empty_token_skips (Fs := disk) (Proc := with_empty_token)
                constants healthy_disk eq_refl).
Defined.

(** A build configuration that does not resolve. *)
Lemma config_failure_fails_build_example :
  ∃ final,
    run_onPreBuild (Fs := disk) (Proc := with_token) (Netlify := failing_services)
      constants healthy_disk
    = (final, inl (BuildError generalFailureMessage))
    ∧ List.length (trace final) = 2.
Proof.
  eexists. split.
  - eapply (config_failure_fails_build (Fs := disk) (Proc := with_token)
              (Netlify := failing_services) constants healthy_disk "secret").
    + exact token_is_given.
    + left. reflexivity.
  - reflexivity.
Defined.

Lemma config_is_resolved (d : Disk) :
  getNetlifyGraphConfig (Fs := disk) (Proc := with_token) site_config d = inr graph_config →
  config_resolved (Fs := disk) (Proc := with_token) constants d graph_config.
Proof. intros Hconfig. eexists. split; [reflexivity|exact Hconfig]. Qed.

(** A state file that holds [null]. *)
Lemma null_state_file_fails_build_example :
  ∃ final error,
    run with_token disk_with_null_state_file
    = (final, inl (BuildError generalFailureMessage))
    ∧ trace final
      = [ call_resolveConfig (CONFIG_PATH constants);
          console_log [LogString "Creating a new Netlify Graph schema"];
          build_failBuild generalFailureMessage (ErrorInfo (TypeError error)) ].
Proof.
  eexists _, _. split.
  - eapply (null_state_file_fails_build (Fs := disk) (Proc := with_token) (Json := json)
              constants disk_with_null_state_file "secret" graph_config "null" None).
    + exact token_is_given.
    + apply config_is_resolved. reflexivity.
    + reflexivity.
    + reflexivity.
    + reflexivity.
  - reflexivity.
Defined.

Lemma schema_is_created (d : Disk) :
  fs.readFileSync (Api := disk) d "netlifyGraph.json" = inr "{ enabledServices }" →
  schema_created (Fs := disk) constants "secret" d
    (Some "schema of site-1") created_events.
Proof.
  intros Hjson. eexists _, _, _, _. repeat split; [exact Hjson|reflexivity..].
Qed.

(** Without the schema file the build fails once the schema is created. *)
Lemma unreadable_schema_file_fails_build_example :
  ∃ final,
    run with_token disk_without_schema_file
    = (final, inl (BuildError generalFailureMessage))
    ∧ List.length (trace final) = 5.
Proof.
  eexists. split.
  - eapply (unreadable_schema_file_fails_build (Fs := disk) (Proc := with_token)
              constants disk_without_schema_file "secret" graph_config
              (Some "schema of site-1") created_events
              (after_schema disk_without_schema_file)).
    + exact token_is_given.
    + apply config_is_resolved. reflexivity.
    + apply schema_is_created. reflexivity.
    + reflexivity.
  - reflexivity.
Defined.

Lemma legacy_is_passed (d : Disk) :
  getNetlifyGraphConfig (Fs := disk) (Proc := with_token) site_config d = inr graph_config →
  fs.readFileSync (Api := disk) d "netlifyGraph.json" = inr "{ enabledServices }" →
  readGraphQLSchemaFile graph_config (after_schema d) = (after_schema d, inr "type Query") →
  readLegacyGraphQLOperationsSourceFile graph_config (after_schema d)
    = (after_schema d, inr None) →
  legacy_passed (Fs := disk) (Proc := with_token) (Gql := graphql) constants "secret" d
    graph_config (Some "schema of site-1") "type Query" (after_schema d).
Proof.
  intros Hconfig Hjson Hschema Hlegacy.
  exists (after_schema d), None. split; [|split; [exact Hlegacy|reflexivity]].
  exists "type Query". split; [|reflexivity]. by apply schema_is_read.
Qed.

Abbreviation scandir_error :=
  (ExternalError ("ENOENT: no such file or directory, scandir " +:+ operations_dir)).

(** Without the operations directory the build fails. *)
Lemma unreadable_operations_fail_build_example :
  run with_token disk_without_operations_directory
  = ({| files := disk_without_operations_directory;
        trace := created_events
                 ++ [build_failBuild generalFailureMessage (ErrorInfo scandir_error)] |},
     inl (BuildError generalFailureMessage)).
Proof.
  apply (unreadable_operations_fail_build (Fs := disk) (Proc := with_token)
           (Gql := graphql) constants disk_without_operations_directory "secret"
           graph_config (Some "schema of site-1") "type Query"
           (after_schema disk_without_operations_directory)
           (after_schema disk_without_operations_directory) scandir_error).
  - exact token_is_given.
  - apply legacy_is_passed; reflexivity.
  - reflexivity.
Defined.

(** The same directory, for the aggregation alone. *)
Lemma failing_operation_file_aborts_example :
  readGraphQLOperationsSourceFiles graph_config
    (after_schema disk_without_operations_directory)
  = (after_schema disk_without_operations_directory, inl scandir_error).
Proof.
  eapply (failing_operation_file_aborts (Path := posix) (Fs := disk) (Gql := graphql)
            graph_config (after_schema disk_without_operations_directory)
            (after_schema disk_without_operations_directory)
            ["netlify"; "functions"; "netlifyGraph"; "operations"] [] [] [] "" []
            scandir_error).
  - reflexivity.
  - reflexivity.
  - reflexivity.
Defined.

Abbreviation healthy_request g :=
  (onPreBuild_request (Gql := graphql) (Gen := g) constants "secret" graph_config
     (Some "schema of site-1") "type Query" healthy_source healthy_functions).

Abbreviation after_generation :=
  (generatePersistedFunctionsFile (Proc := with_token) console_logger
     (healthy_request generator) (after_operations healthy_disk)).1.

(** The three functions of the healthy site are persisted. *)
Lemma persisted_functions_are_reported_example :
  ∃ final,
    run with_token healthy_disk = (final, inr tt)
    ∧ status_show "Netlify Graph Build Plugin: Successfully persisted 3 Graph functions"
                  "See the log for details" ∈ trace final.
Proof.
  eexists. split.
  - refine (persisted_functions_are_reported (Fs := disk) (Proc := with_token)
              (Gql := graphql) (Gen := generator) constants healthy_disk "secret"
              graph_config (Some "schema of site-1") "type Query" healthy_source
              healthy_functions (after_operations healthy_disk) after_generation []
              ["query A"; "query B"; "fragment C"] token_is_given _ _).
    + exists (after_schema healthy_disk),
             {| GraphQL.kind := "Document";
                GraphQL.definitions := ["query A"; "query B"; "fragment C"] |}.
      split; [apply legacy_is_passed; reflexivity|].
      split; [reflexivity|]. split; [discriminate|]. split; reflexivity.
    + reflexivity.
  - apply elem_of_app. right. left.
Defined.

(** A generator that throws leaves the disk as it is. *)
Lemma generator_failure_writes_nothing_example :
  ∃ final error,
    generatePersistedFunctionsFile (Proc := with_token) (Gen := failing_generator)
      console_logger
      (healthy_request failing_generator)
      (@Build_State disk json graphql onegraph failing_generator healthy_disk [])
    = (final, inl error)
    ∧ files final = healthy_disk.
Proof.
  eexists _, _. split.
  - apply (generator_failure_writes_nothing (Fs := disk) (Gen := failing_generator)).
    reflexivity.
  - reflexivity.
Defined.

(** On the healthy site both files are written, the client first. *)
Lemma generated_files_are_written_example :
  ∃ final,
    generatePersistedFunctionsFile (Proc := with_token) console_logger
      (healthy_request generator) (after_operations healthy_disk)
    = (final, inr ([], ["query A"; "query B"; "fragment C"]))
    ∧ fst <$> disk_files (files final)
      = [ graph_dir +:+ "/index.d.ts"; graph_dir +:+ "/index.js" ]
        ++ (fst <$> disk_files healthy_disk).
Proof.
  eexists. split.
  - erewrite (generated_files_are_written (Path := posix) (Fs := disk)
                (Proc := with_token) (Gen := generator) (healthy_request generator)
                (after_operations healthy_disk)
                {| files := files (after_operations healthy_disk);
                   trace := trace (after_operations healthy_disk)
                            ++ [call_generatePersistedFunctionsSource
                                  (healthy_request generator)] |}); cycle 1.
    { reflexivity. }
    { reflexivity. }
    { reflexivity. }
    { reflexivity. }
    { reflexivity. }
    reflexivity.
  - reflexivity.
Defined.

(** The run on the site without operations returns, and has not called
    the failure API. *)
Lemma failure_reported_iff_thrown_example :
  ∃ final,
    run with_token disk_without_operations = (final, inr tt)
    ∧ Forall (λ ev, is_failBuild ev = false) (trace final).
Proof.
  eexists. split; [reflexivity|].
  eapply (failure_reported_iff_thrown (Fs := disk) (Proc := with_token)
            constants disk_without_operations _ (inr tt)); reflexivity.
Defined.

Abbreviation failing_run :=
  (run_onPreBuild (Fs := disk) (Proc := with_token) (Gen := failing_generator)
     constants healthy_disk).

(** With a generator that throws, the generator is called after the seven
    events up to the operations, and only the failure follows. *)
Lemma generator_called_once_after_creation_example :
  failing_run.2 = inl (BuildError generalFailureMessage)
  ∧ ∃ before after,
      trace failing_run.1
      = before ++ call_generatePersistedFunctionsSource (healthy_request failing_generator)
                  :: after
      ∧ List.length before = 7
      ∧ (∃ input session,
           call_executeCreateGraphQLSchemaMutation input session ∈ before)
      ∧ Forall local after.
Proof.
  split; [reflexivity|].
  exists (take 7 (trace failing_run.1)), (drop 8 (trace failing_run.1)).
  split; [reflexivity|]. split; [reflexivity|].
  destruct (generator_called_once_after_creation (Fs := disk) (Proc := with_token)
              (Gen := failing_generator) constants healthy_disk failing_run.1
              failing_run.2 (surjective_pairing _)) as [Hgenerator _].
  apply (Hgenerator _ (healthy_request failing_generator)). reflexivity.
Defined.

End examples.
